(** * oplus: field descriptors and the EnergyPlus clock

    A shallow embedding of [oplus/util.py] ([EPlusDt], [get_string_buffer])
    and of [oplus/idd/field_descriptor.py] ([to_num], [FieldDescriptor]),
    followed by the properties established about them.

    Conventions of the embedding:
    - a Python [str] is the list of its code points ([pystr]);
    - a Python [int] is a [Z];
    - a call that may raise returns a [result], whose [Raise] carries the
      class of the exception;
    - mutable objects ([FieldDescriptor] instances and their [_tags_d]
      dictionaries) live in a heap and are named by locations, so that
      aliasing is visible. *)

From Stdlib Require Import ZArith NArith List Bool Lia.
From Stdlib Require Import Strings.String Strings.Ascii.
From stdpp Require Import base option list gmap strings sorting.

Local Open Scope Z_scope.

(* ===================================================================== *)
(** ** Python values shared by both source files *)
(* ===================================================================== *)

(** Exception classes raised by the modelled code. *)
Inductive exn : Type :=
  | ValueError
  | KeyError
  | IndexError
  | AssertionError
  | RuntimeError
  | OverflowError
  | AttributeError.

#[global] Instance exn_eq_dec : EqDecision exn.
Proof. solve_decision. Defined.

(** Outcome of a call: a returned value or a raised exception. *)
Inductive result (A : Type) : Type :=
  | Ok (a : A)
  | Raise (e : exn).
Arguments Ok {A} a.
Arguments Raise {A} e.

Definition rbind {A B : Type} (m : result A) (k : A -> result B) : result B :=
  match m with
  | Ok a => k a
  | Raise e => Raise e
  end.

Declare Scope result_scope.
Delimit Scope result_scope with result.
Notation "'let*' x ':=' m 'in' k" := (rbind m (fun x => k))
  (at level 10, x name, m at level 100, k at level 200) : result_scope.
Notation "'let*' ' p ':=' m 'in' k" :=
  (rbind m (fun x => match x with p => k end))
  (at level 10, p strict pattern, m at level 100, k at level 200)
  : result_scope.
Local Open Scope result_scope.

(** A Python [str]: the sequence of its Unicode code points. *)
Abbreviation pystr := (list N).

Fixpoint str (s : string) : pystr :=
  match s with
  | EmptyString => []
  | String a s' => N_of_ascii a :: str s'
  end.

Arguments str : simpl never.

Definition pystr_eqb (a b : pystr) : bool := bool_decide (a = b).

(* ===================================================================== *)
(** ** The parts of Python's [calendar] and [datetime] the code calls *)
(* ===================================================================== *)

Module calendar.

(** [calendar.isleap]. *)
Definition isleap (year : Z) : bool :=
  (year mod 4 =? 0) && (negb (year mod 100 =? 0) || (year mod 400 =? 0)).

End calendar.

Module dt.

Definition MINYEAR : Z := 1.
Definition MAXYEAR : Z := 9999.

(** A naive [datetime.datetime] of whole minutes.  The modelled code builds
    timestamps with zero seconds and only ever reads year, month, day, hour
    and minute, and it shifts them by whole hours, so seconds are not
    represented: of a timestamp handed in by a caller the record holds the
    part the code reads. *)
Record datetime : Type := mk_datetime {
  year : Z;
  month : Z;
  day : Z;
  hour : Z;
  minute : Z
}.

#[global] Instance datetime_eq_dec : EqDecision datetime.
Proof. solve_decision. Defined.

Definition days_in_month (y m : Z) : Z :=
  if m =? 2 then (if calendar.isleap y then 29 else 28)
  else if (m =? 4) || (m =? 6) || (m =? 9) || (m =? 11) then 30
  else 31.

Definition in_range (lo x hi : Z) : bool := (lo <=? x) && (x <=? hi).

(** The constructor [datetime(year, month, day, hour, minute)], with the
    range checks it performs.  The arguments are meant within the range of
    a C [int]: beyond it CPython refuses them with [OverflowError] before
    any of these checks. *)
Definition new (y m d h mi : Z) : result datetime :=
  if in_range MINYEAR y MAXYEAR
     && in_range 1 m 12
     && in_range 1 d (days_in_month y m)
     && in_range 0 h 23
     && in_range 0 mi 59
  then Ok (mk_datetime y m d h mi)
  else Raise ValueError.

(** The records that are values of [datetime]: those the constructor
    accepts. *)
Definition valid (t : datetime) : Prop :=
  new (year t) (month t) (day t) (hour t) (minute t) = Ok t.

(** [d.replace(year=y)] builds a new timestamp and so re-validates it. *)
Definition replace_year (d : datetime) (y : Z) : result datetime :=
  new y (month d) (day d) (hour d) (minute d).

(** One hour later; past the last representable hour the addition raises
    [OverflowError]. *)
Definition next_hour (d : datetime) : result datetime :=
  if hour d <? 23 then Ok (mk_datetime (year d) (month d) (day d) (hour d + 1) (minute d))
  else if day d <? days_in_month (year d) (month d)
    then Ok (mk_datetime (year d) (month d) (day d + 1) 0 (minute d))
  else if month d <? 12
    then Ok (mk_datetime (year d) (month d + 1) 1 0 (minute d))
  else if year d <? MAXYEAR
    then Ok (mk_datetime (year d + 1) 1 1 0 (minute d))
  else Raise OverflowError.

(** One hour earlier. *)
Definition prev_hour (d : datetime) : result datetime :=
  if 0 <? hour d then Ok (mk_datetime (year d) (month d) (day d) (hour d - 1) (minute d))
  else if 1 <? day d
    then Ok (mk_datetime (year d) (month d) (day d - 1) 23 (minute d))
  else if 1 <? month d
    then Ok (mk_datetime (year d) (month d - 1)
                         (days_in_month (year d) (month d - 1)) 23 (minute d))
  else if MINYEAR <? year d
    then Ok (mk_datetime (year d - 1) 12 31 23 (minute d))
  else Raise OverflowError.

Fixpoint iterate (n : nat) (f : datetime -> result datetime) (d : datetime)
  : result datetime :=
  match n with
  | O => Ok d
  | S n' => let* d' := f d in iterate n' f d'
  end.

(** [d + timedelta(hours=k)]. *)
Definition add_hours (d : datetime) (k : Z) : result datetime :=
  if 0 <=? k then iterate (Z.to_nat k) next_hour d
  else iterate (Z.to_nat (- k)) prev_hour d.

(** [d - timedelta(hours=k)]. *)
Definition sub_hours (d : datetime) (k : Z) : result datetime :=
  add_hours d (- k).

(** Timestamps compare as the tuples of their fields do. *)
Definition lex (c1 c2 : comparison) : comparison :=
  match c1 with
  | Eq => c2
  | _ => c1
  end.

Definition cmp (a b : datetime) : comparison :=
  lex (year a ?= year b)
   (lex (month a ?= month b)
    (lex (day a ?= day b)
     (lex (hour a ?= hour b) (minute a ?= minute b)))).

Definition lt (a b : datetime) : bool :=
  match cmp a b with Lt => true | _ => false end.
Definition le (a b : datetime) : bool :=
  match cmp a b with Gt => false | _ => true end.
Definition eq (a b : datetime) : bool :=
  match cmp a b with Eq => true | _ => false end.
Definition ne (a b : datetime) : bool := negb (eq a b).
Definition gt (a b : datetime) : bool :=
  match cmp a b with Gt => true | _ => false end.
Definition ge (a b : datetime) : bool :=
  match cmp a b with Lt => false | _ => true end.

End dt.

(* ===================================================================== *)
(** ** [oplus/util.py]: class [EPlusDt] *)
(* ===================================================================== *)

Module EPlusDt.

(** An instance: the timestamp in the reference year and the stored
    [(month, day, hour, minute)] tuple. *)
Record t : Type := mk {
  _standard_dt : dt.datetime;
  _value : Z * Z * Z * Z
}.

Definition MONTH (v : Z * Z * Z * Z) : Z := let '(m, _, _, _) := v in m.
Definition DAY (v : Z * Z * Z * Z) : Z := let '(_, d, _, _) := v in d.
Definition HOUR (v : Z * Z * Z * Z) : Z := let '(_, _, h, _) := v in h.
Definition MINUTE (v : Z * Z * Z * Z) : Z := let '(_, _, _, mi) := v in mi.

(** [to_datetime]: a [ValueError] of the calendar functions is re-raised
    as [RuntimeError] when [(month, day) = (2, 29)]; anything else
    propagates. *)
Definition to_datetime (year month day eplus_hour eplus_minute : Z)
  : result dt.datetime :=
  let '(minute, hour_cor) :=
    if eplus_minute =? 60 then (0, 1) else (eplus_minute, 0) in
  let attempt :=
    let* d0 := dt.new year month day (eplus_hour - 1) minute in
    let* d1 := dt.add_hours d0 hour_cor in
    let* my_dt := dt.replace_year d1 year in
    let* _ := dt.replace_year my_dt year in
    Ok my_dt in
  match attempt with
  | Ok my_dt => Ok my_dt
  | Raise e =>
      if bool_decide (e = ValueError) then
        if (month =? 2) && (day =? 29) then Raise RuntimeError else Raise e
      else Raise e
  end.

(** [__init__]. *)
Definition __init__ (month day out_hour out_minute : Z) : result t :=
  let* standard_dt := to_datetime 2000 month day out_hour out_minute in
  let* '(_datetime, minute) :=
    if dt.minute standard_dt =? 0
    then (let* d := dt.sub_hours standard_dt 1 in Ok (d, 60))
    else Ok (standard_dt, dt.minute standard_dt) in
  Ok (mk standard_dt
         (dt.month _datetime, dt.day _datetime, dt.hour _datetime + 1, minute)).

(** [from_datetime]. *)
Definition from_datetime (datetime : dt.datetime) : result t :=
  let* '(datetime, minute) :=
    if dt.minute datetime =? 0
    then (let* d := dt.sub_hours datetime 1 in Ok (d, 60))
    else Ok (datetime, dt.minute datetime) in
  __init__ (dt.month datetime) (dt.day datetime) (dt.hour datetime + 1) minute.

Definition standard_dt (self : t) : dt.datetime := _standard_dt self.

Definition __lt__ (self other : t) : bool :=
  dt.lt (standard_dt self) (standard_dt other).
Definition __le__ (self other : t) : bool :=
  dt.le (standard_dt self) (standard_dt other).
Definition __eq__ (self other : t) : bool :=
  dt.eq (standard_dt self) (standard_dt other).
Definition __ne__ (self other : t) : bool :=
  dt.ne (standard_dt self) (standard_dt other).
Definition __gt__ (self other : t) : bool :=
  dt.gt (standard_dt self) (standard_dt other).
Definition __ge__ (self other : t) : bool :=
  dt.ge (standard_dt self) (standard_dt other).

(** [datetime(year)], with the leap-day substitution. *)
Definition datetime (self : t) (year : Z) : result dt.datetime :=
  let day := DAY (_value self) in
  let day :=
    if negb (calendar.isleap year)
       && bool_decide (_value self = (2, 29, 24, 60))
    then 28 else day in
  to_datetime year (MONTH (_value self)) day
              (HOUR (_value self)) (MINUTE (_value self)).

Definition month (self : t) : Z := MONTH (_value self).
Definition day (self : t) : Z := DAY (_value self).
Definition hour (self : t) : Z := HOUR (_value self).
Definition minute (self : t) : Z := MINUTE (_value self).

End EPlusDt.

(* ===================================================================== *)
(** ** [oplus/util.py]: [get_string_buffer] *)
(* ===================================================================== *)

Module util.

(** What [get_string_buffer] can be handed, by the class its [isinstance]
    tests look at. *)
Inductive path_or_content_t : Type :=
  | PStr (s : pystr)                 (* str *)
  | PTextIO (stream : nat)           (* an io.TextIOBase object *)
  | PBytes (b : list N)              (* bytes *)
  | PBufferedIO (unread : list N)    (* an io.BufferedIOBase object *)
  | POther.                          (* anything else *)

(** The returned buffer. *)
Inductive buffer_t : Type :=
  | StringIO (content : pystr)       (* io.StringIO(content) *)
  | OpenedFile (path : pystr)        (* open(path, encoding=...) *)
  | GivenStream (stream : nat).      (* the text stream that was passed *)

Section get_string_buffer.

(** The environment: which paths name a regular file ([os.path.isfile]),
    and how bytes decode under an encoding ([bytes.decode]). *)
Variable isfile : pystr -> bool.
Variable encoding_t : Type.
Variable decode : encoding_t -> list N -> result pystr.

(** [s[-k:]] for [k >= 1]: the last [k] characters, or all of [s] when it
    is shorter. *)
Definition last_chars (k : nat) (s : pystr) : pystr :=
  drop (length s - k)%nat s.

(** [".%s" % expected_extension] *)
Definition dot_extension (expected_extension : pystr) : pystr :=
  46%N :: expected_extension.

Definition get_string_buffer (path_or_content : path_or_content_t)
    (expected_extension : pystr) (encoding : encoding_t)
  : result (buffer_t * option pystr) :=
  match path_or_content with
  | PStr s =>
      if pystr_eqb (last_chars (length expected_extension + 1) s)
                   (dot_extension expected_extension)
      then
        if isfile s then Ok (OpenedFile s, Some s)
        else Raise AssertionError
      else Ok (StringIO s, None)
  | PTextIO stream => Ok (GivenStream stream, None)
  | PBytes b =>
      let* content := decode encoding b in Ok (StringIO content, None)
  | PBufferedIO unread =>
      let* content := decode encoding unread in Ok (StringIO content, None)
  | POther => Raise ValueError
  end.

End get_string_buffer.

(** What [get_start_dt] can be handed: a [datetime], a [date] (given by
    its year, month and day), an [int], or anything else.  The tests are
    made in this order in the code, a [datetime] being a [date] too. *)
Inductive start_t : Type :=
  | StartDatetime (d : dt.datetime)
  | StartDate (year month day : Z)
  | StartInt (year : Z)
  | StartOther.

(** [get_start_dt] *)
Definition get_start_dt (start : start_t) : result dt.datetime :=
  match start with
  | StartDatetime d => Ok d
  | StartDate y m d => dt.new y m d 0 0
  | StartInt y => dt.new y 1 1 0 0
  | StartOther => Raise RuntimeError
  end.

End util.

(* ===================================================================== *)
(** ** String primitives used by [oplus/idd/field_descriptor.py] *)
(* ===================================================================== *)

Module pystring.

Local Open Scope N_scope.

(** [str.isspace] on one character; it is also what [\s] matches in a
    [str] pattern and what [str.strip] removes. *)
Definition isspace (c : N) : bool :=
  ((9 <=? c) && (c <=? 13)) || ((28 <=? c) && (c <=? 32))
  || (c =? 133) || (c =? 160) || (c =? 5760)
  || ((8192 <=? c) && (c <=? 8202))
  || (c =? 8232) || (c =? 8233) || (c =? 8239) || (c =? 8287)
  || (c =? 12288).

Fixpoint lstrip (s : pystr) : pystr :=
  match s with
  | c :: s' => if isspace c then lstrip s' else s
  | [] => []
  end.

Fixpoint rstrip (s : pystr) : pystr :=
  match s with
  | c :: s' =>
      match rstrip s' with
      | [] => if isspace c then [] else [c]
      | r => c :: r
      end
  | [] => []
  end.

(** [s.strip()] *)
Definition strip (s : pystr) : pystr := rstrip (lstrip s).

(** [re.sub(spaces_pattern, lambda x: " ", s)]: every maximal run of
    whitespace becomes one space.  [in_run] tells that the previous
    character belonged to a run already replaced. *)
Fixpoint sub_spaces_from (in_run : bool) (s : pystr) : pystr :=
  match s with
  | c :: s' =>
      if isspace c
      then (if in_run then sub_spaces_from true s'
            else 32 :: sub_spaces_from true s')
      else c :: sub_spaces_from false s'
  | [] => []
  end.

Definition sub_spaces (s : pystr) : pystr := sub_spaces_from false s.

Definition is_ascii_char (c : N) : bool := c <? 128.
Definition is_ascii (s : pystr) : bool := forallb is_ascii_char s.

(** [unidecode.unidecode]: ASCII characters are kept, every other
    character is replaced by the entry the library's tables hold for it
    (the empty string when they hold none).  The tables belong to the
    Unidecode package and are a parameter. *)
Definition unidecode (table : N -> pystr) (s : pystr) : pystr :=
  flat_map (fun c => if is_ascii_char c then [c] else table c) s.

(** [str.lower] restricted to ASCII text. *)
Definition ascii_lower_char (c : N) : N :=
  if (65 <=? c) && (c <=? 90) then c + 32 else c.
Definition ascii_lower (s : pystr) : pystr := map ascii_lower_char s.

Definition is_upper (c : N) : bool := (65 <=? c) && (c <=? 90).
Definition is_letter (c : N) : bool :=
  ((65 <=? c) && (c <=? 90)) || ((97 <=? c) && (c <=? 122)).

(** A string that does not start with whitespace. *)
Definition head_ok (s : pystr) : Prop :=
  match s with
  | c :: _ => isspace c = false
  | [] => True
  end.

Definition is_digit (c : N) : bool := (48 <=? c) && (c <=? 57).
Definition is_sign (c : N) : bool := (c =? 43) || (c =? 45).

(** The rest of [s] after the longest [("_"? digit)*] prefix. *)
Fixpoint skip_digits (s : pystr) : pystr :=
  match s with
  | c :: s' =>
      if is_digit c then skip_digits s'
      else if c =? 95 then
        match s' with
        | d :: s'' => if is_digit d then skip_digits s'' else s
        | [] => s
        end
      else s
  | [] => []
  end.

(** The rest of [s] after a [digit ("_"? digit)*] prefix, if it has one. *)
Definition skip_digitpart (s : pystr) : option pystr :=
  match s with
  | c :: s' => if is_digit c then Some (skip_digits s') else None
  | [] => None
  end.

Definition skip_sign (s : pystr) : pystr :=
  match s with
  | c :: s' => if is_sign c then s' else s
  | [] => []
  end.

Definition digit_value (c : N) : Z := Z.of_N c - 48.

(** Value of a digit part, underscores skipped. *)
Definition digits_value (s : pystr) : Z :=
  fold_left (fun acc c => if is_digit c then (10 * acc + digit_value c)%Z else acc)
            s 0%Z.

(** The whitespace [int] and [float] skip around a number: the ASCII
    characters tab to carriage return and the space, and the whitespace
    beyond ASCII; the separators U+001C to U+001F, which [str.strip]
    removes, are not skipped by them. *)
Definition is_number_space (c : N) : bool :=
  isspace c && negb ((28 <=? c) && (c <=? 31)).

Fixpoint lstrip_by (p : N -> bool) (s : pystr) : pystr :=
  match s with
  | c :: s' => if p c then lstrip_by p s' else s
  | [] => []
  end.

Fixpoint rstrip_by (p : N -> bool) (s : pystr) : pystr :=
  match s with
  | c :: s' =>
      match rstrip_by p s' with
      | [] => if p c then [] else [c]
      | r => c :: r
      end
  | [] => []
  end.

Definition strip_number (s : pystr) : pystr :=
  rstrip_by is_number_space (lstrip_by is_number_space s).

(** [int(s)]: surrounding whitespace, an optional sign and a digit part
    of ASCII digits.  [None] stands for [ValueError].  The decimal digits
    of other scripts, which [int] reads too, are not modelled: the code
    hands [to_num] text that went through [unidecode]. *)
Definition parse_int (s : pystr) : option Z :=
  let body := strip_number s in
  let digits := skip_sign body in
  match skip_digitpart digits with
  | Some [] =>
      Some (match body with
            | c :: _ => if c =? 45 then (- digits_value digits)%Z
                        else digits_value digits
            | [] => 0%Z
            end)
  | _ => None
  end.

(** The exponent of a float literal: nothing, or [e]/[E], an optional sign
    and a digit part, up to the end of the string. *)
Definition is_exponent (s : pystr) : bool :=
  match s with
  | [] => true
  | c :: s' =>
      if (c =? 101) || (c =? 69) then
        match skip_digitpart (skip_sign s') with
        | Some [] => true
        | _ => false
        end
      else false
  end.

(** [digitpart ["." [digitpart]] [exponent]] or ["." digitpart [exponent]] *)
Definition is_decimal_float (s : pystr) : bool :=
  match skip_digitpart s with
  | Some rest =>
      match rest with
      | 46 :: frac =>
          match skip_digitpart frac with
          | Some rest' => is_exponent rest'
          | None => is_exponent frac
          end
      | _ => is_exponent rest
      end
  | None =>
      match s with
      | 46 :: frac =>
          match skip_digitpart frac with
          | Some rest' => is_exponent rest'
          | None => false
          end
      | _ => false
      end
  end.

(** [float(s)] accepts, between the whitespace [int] skips too and
    around an optional sign, a decimal literal of ASCII digits or one of
    [inf], [infinity], [nan] in any letter case.  Only whether the text is
    accepted is modelled; a float value is carried as the text it was read
    from. *)
Definition parse_float (s : pystr) : option pystr :=
  let body := skip_sign (strip_number s) in
  let word := ascii_lower body in
  if is_decimal_float body
     || pystr_eqb word (str "inf")
     || pystr_eqb word (str "infinity")
     || pystr_eqb word (str "nan")
  then Some s else None.

End pystring.

(* ===================================================================== *)
(** ** [oplus/util.py]: class [LoggerStreamWriter] *)
(* ===================================================================== *)

Module LoggerStreamWriter.

(** A writer: its level and the records handed to its logger so far, in
    the order they were handed over. *)
Record t : Type := mk {
  _level : Z;
  _logger : list (Z * pystr)
}.

(** [self._logger.log(level, message)] *)
Definition log (self : t) (level : Z) (message : pystr) : t :=
  mk (_level self) (_logger self ++ [(level, message)]).

(** [write] *)
Definition write (self : t) (message : pystr) : t :=
  let message := pystring.strip message in
  if negb (pystr_eqb message []) then log self (_level self) message
  else self.

End LoggerStreamWriter.

(* ===================================================================== *)
(** ** [oplus/idd/field_descriptor.py] *)
(* ===================================================================== *)

(** The values that flow through [to_num] and [basic_parse]. *)
Inductive value : Type :=
  | VNone                       (* None *)
  | VStr (s : pystr)            (* a str *)
  | VInt (z : Z)                (* an int *)
  | VFloat (text : pystr)       (* a float, named by the text it was read from *)
  | VOther.                     (* an object of any other type *)

#[global] Instance value_eq_dec : EqDecision value.
Proof. solve_decision. Defined.

(** [to_num]; a value that is not a [str] falls through every branch, so
    the call returns [None]. *)
Definition to_num (raw_value : value) : result value :=
  match raw_value with
  | VStr s =>
      if pystr_eqb s (str "autocalculate") || pystr_eqb s (str "autosize")
      then Ok (VStr s)
      else
        match pystring.parse_int s with
        | Some z => Ok (VInt z)
        | None =>
            match pystring.parse_float s with
            | Some f => Ok (VFloat f)
            | None => Raise ValueError
            end
        end
  | _ => Ok VNone
  end.

(** Order of [str] values: lexicographic on code points. *)
Fixpoint str_cmp (a b : pystr) : comparison :=
  match a, b with
  | [], [] => Eq
  | [], _ :: _ => Lt
  | _ :: _, [] => Gt
  | x :: a', y :: b' =>
      match (x ?= y)%N with
      | Eq => str_cmp a' b'
      | c => c
      end
  end.

(** Order of lists of [str], as Python compares lists. *)
Fixpoint list_cmp (a b : list pystr) : comparison :=
  match a, b with
  | [], [] => Eq
  | [], _ :: _ => Lt
  | _ :: _, [] => Gt
  | x :: a', y :: b' =>
      match str_cmp x y with
      | Eq => list_cmp a' b'
      | c => c
      end
  end.

Definition str_le (a b : pystr) : Prop := str_cmp a b <> Gt.

#[global] Instance str_le_dec a b : Decision (str_le a b).
Proof. unfold str_le. apply _. Defined.

(** Order of [(key, values)] tuples. *)
Definition item_le (a b : pystr * list pystr) : Prop :=
  match str_cmp a.1 b.1 with
  | Eq => list_cmp a.2 b.2
  | c => c
  end <> Gt.

#[global] Instance item_le_dec a b : Decision (item_le a b).
Proof. unfold item_le. apply _. Defined.

Module FieldDescriptor.

Abbreviation loc := nat.

(** The attributes of one instance.  [_tags_d] holds the location of the
    instance's dictionary; the lists stored in a dictionary are reachable
    through that dictionary only, so they are kept inside it. *)
Record object : Type := mk {
  basic_type : pystr;
  name : option pystr;
  _tags_d : loc;
  _detailed_type : option pystr
}.

#[global] Instance object_eq_dec : EqDecision object.
Proof. solve_decision. Defined.

Record heap : Type := mk_heap {
  objects : gmap loc object;
  dicts : gmap loc (gmap pystr (list pystr))
}.

Definition empty_heap : heap := mk_heap ∅ ∅.

(** Reading [self]: something that is not a [FieldDescriptor] has none of
    its attributes. *)
Definition get_object (h : heap) (self : loc) : result object :=
  match objects h !! self with
  | Some o => Ok o
  | None => Raise AttributeError
  end.

Definition get_dict (h : heap) (d : loc) : result (gmap pystr (list pystr)) :=
  match dicts h !! d with
  | Some m => Ok m
  | None => Raise AttributeError
  end.

(** [self._tags_d], dereferenced. *)
Definition tags_d (h : heap) (self : loc) : result (gmap pystr (list pystr)) :=
  let* o := get_object h self in get_dict h (_tags_d o).

(** [self] is an instance with attributes [o] whose dictionary is [m]. *)
Definition describes (h : heap) (self : loc) (o : object)
    (m : gmap pystr (list pystr)) : Prop :=
  objects h !! self = Some o /\ dicts h !! _tags_d o = Some m.

Definition set_object (h : heap) (l : loc) (o : object) : heap :=
  mk_heap (<[l := o]> (objects h)) (dicts h).

Definition set_dict (h : heap) (l : loc) (m : gmap pystr (list pystr)) : heap :=
  mk_heap (objects h) (<[l := m]> (dicts h)).

Definition new_object (h : heap) : loc := fresh (dom (objects h)).
Definition new_dict (h : heap) : loc := fresh (dom (dicts h)).

(** [__init__] *)
Definition __init__ (h : heap) (field_basic_type : pystr)
    (name : option pystr) : result (loc * heap) :=
  if negb (pystr_eqb field_basic_type (str "A")
           || pystr_eqb field_basic_type (str "N"))
  then Raise ValueError
  else
    let d := new_dict h in
    let self := new_object h in
    Ok (self, set_object (set_dict h d ∅) self (mk field_basic_type name d None)).

(** [copy.copy(self)]: a new instance with the same attribute values, the
    dictionary included. *)
Definition copy_copy (h : heap) (self : loc) : result (loc * heap) :=
  let* o := get_object h self in
  let c := new_object h in
  Ok (c, set_object h c o).

(** [copy.deepcopy(self)]: a new instance whose dictionary, with the lists
    in it, is new as well. *)
Definition copy_deepcopy (h : heap) (self : loc) : result (loc * heap) :=
  let* o := get_object h self in
  let* m := get_dict h (_tags_d o) in
  let d := new_dict h in
  let c := new_object h in
  Ok (c, set_object (set_dict h d m) c
           (mk (basic_type o) (name o) d (_detailed_type o))).

(** [copy]: the [deep] branch drops the copy it makes and so returns
    [None]. *)
Definition copy (h : heap) (self : loc) (deep : bool)
  : result (option loc * heap) :=
  if deep then
    let* '(_, h') := copy_copy h self in Ok (None, h')
  else
    let* '(c, h') := copy_deepcopy h self in Ok (Some c, h').

(** The [tags] property. *)
Definition tags (h : heap) (self : loc) : result (list pystr) :=
  let* m := tags_d h self in
  Ok (merge_sort str_le (map fst (map_to_list m))).

(** [add_tag] *)
Definition add_tag (h : heap) (self : loc) (ref : pystr)
    (value : option pystr) : result heap :=
  let* o := get_object h self in
  let* m := get_dict h (_tags_d o) in
  let m1 := if bool_decide (is_Some (m !! ref)) then m else <[ref := []]> m in
  let m2 :=
    match value with
    | Some v => <[ref := default [] (m1 !! ref) ++ [v]]> m1
    | None => m1
    end in
  Ok (set_dict h (_tags_d o) m2).

(** [remove_tag] *)
Definition remove_tag (h : heap) (self : loc) (ref : pystr)
    (errors : pystr) : result heap :=
  let* o := get_object h self in
  let* m := get_dict h (_tags_d o) in
  if pystr_eqb errors (str "raise") then
    match m !! ref with
    | Some _ => Ok (set_dict h (_tags_d o) (delete ref m))
    | None => Raise KeyError
    end
  else if pystr_eqb errors (str "ignore") then
    Ok (set_dict h (_tags_d o) (delete ref m))
  else Raise ValueError.

(** [" ".join(l)] *)
Fixpoint join_spaces (l : list pystr) : pystr :=
  match l with
  | [] => []
  | [x] => x
  | x :: l' => x ++ 32%N :: join_spaces l'
  end.

(** [get_tag] returns a [str] for the note and the list itself otherwise. *)
Definition get_tag (h : heap) (self : loc) (ref : pystr) (raw : bool)
  : result (pystr + list pystr) :=
  let* m := tags_d h self in
  match m !! ref with
  | Some l =>
      if pystr_eqb ref (str "note") && negb raw then Ok (inl (join_spaces l))
      else Ok (inr l)
  | None => Raise KeyError
  end.

(** [has_tag] *)
Definition has_tag (h : heap) (self : loc) (ref : pystr) : result bool :=
  let* m := tags_d h self in
  Ok (bool_decide (is_Some (m !! ref))).

Section unicode.

(** [str.lower], and the tables of [unidecode]. *)
Variable lower : pystr -> pystr.
Variable table : N -> pystr.

(** [cleanup_and_check_raw_value] *)
Definition cleanup_and_check_raw_value (h : heap) (self : loc)
    (unsafe_raw_value : value) : result pystr :=
  let unsafe_raw_value :=
    match unsafe_raw_value with
    | VNone => VStr []
    | v => v
    end in
  match unsafe_raw_value with
  | VStr s =>
      let raw_value := pystring.sub_spaces (pystring.strip s) in
      let raw_value := pystring.unidecode table raw_value in
      let* retaincase := has_tag h self (str "retaincase") in
      let raw_value := if negb retaincase then lower raw_value else raw_value in
      if negb (length raw_value <=? 100)%nat then Raise AssertionError
      else
        let* o := get_object h self in
        let* _ :=
          if negb (pystr_eqb raw_value []) && pystr_eqb (basic_type o) (str "N")
          then to_num (VStr raw_value)
          else Ok VNone in
        Ok raw_value
  | _ => Raise AssertionError
  end.

(** [basic_parse] *)
Definition basic_parse (h : heap) (self : loc) (raw_value : value)
  : result value :=
  if bool_decide (raw_value = VNone) || bool_decide (raw_value = VStr [])
  then Ok VNone
  else
    let* o := get_object h self in
    if pystr_eqb (basic_type o) (str "A") then Ok raw_value
    else
      match raw_value with
      | VStr _ => to_num raw_value
      | VInt _ | VFloat _ => Ok raw_value
      | _ => Ok VNone
      end.

(** The [detailed_type] property: computed on the first access and kept in
    [_detailed_type] from then on. *)
Definition detailed_type (h : heap) (self : loc) : result (pystr * heap) :=
  let* o := get_object h self in
  match _detailed_type o with
  | Some t => Ok (t, h)
  | None =>
      let* m := get_dict h (_tags_d o) in
      let* t :=
        if bool_decide (is_Some (m !! str "reference")) then Ok (str "reference")
        else if bool_decide (is_Some (m !! str "type")) then
          match default [] (m !! str "type") with
          | v :: _ => Ok (lower v)
          | [] => Raise IndexError
          end
        else if bool_decide (is_Some (m !! str "key")) then Ok (str "choice")
        else if bool_decide (is_Some (m !! str "object-list")) then
          Ok (str "object-list")
        else if bool_decide (is_Some (m !! str "external-list")) then
          Ok (str "external-list")
        else if pystr_eqb (basic_type o) (str "A") then Ok (str "alpha")
        else if pystr_eqb (basic_type o) (str "N") then Ok (str "real")
        else Raise ValueError in
      Ok (t, set_object h self (mk (basic_type o) (name o) (_tags_d o) (Some t)))
  end.

End unicode.

(** [sorted(d.items())] *)
Definition sorted_items (m : gmap pystr (list pystr))
  : list (pystr * list pystr) :=
  merge_sort item_le (map_to_list m).

(** [__eq__]; the third test compares the items of [self] with the items
    of [self]. *)
Definition __eq__ (h : heap) (self other : loc) : result bool :=
  let* o_self := get_object h self in
  match objects h !! other with
  | None => Raise AssertionError
  | Some o_other =>
      let* m_self := get_dict h (_tags_d o_self) in
      let* m_other := get_dict h (_tags_d o_other) in
      if negb (bool_decide (name o_self = name o_other)) then Ok false
      else if negb (pystr_eqb (basic_type o_self) (basic_type o_other))
      then Ok false
      else if negb (size m_self =? size m_other)%nat
              || negb (bool_decide (sorted_items m_self = sorted_items m_self))
      then Ok false
      else Ok true
  end.

End FieldDescriptor.

(* ===================================================================== *)
(** ** Definitions used to state the properties *)
(* ===================================================================== *)

(** The heap after the first access of [detailed_type] that found [t]. *)
Definition cached (h : FieldDescriptor.heap) (self : FieldDescriptor.loc)
    (o : FieldDescriptor.object) (t : pystr) : FieldDescriptor.heap :=
  FieldDescriptor.set_object h self
    (FieldDescriptor.mk (FieldDescriptor.basic_type o) (FieldDescriptor.name o)
                        (FieldDescriptor._tags_d o) (Some t)).

(** A heap holding one descriptor, at location 0, of the given basic type,
    without a name, carrying the tags given and not read yet. *)
Definition one_descriptor (basic_type : pystr)
    (m : gmap pystr (list pystr)) : FieldDescriptor.heap :=
  FieldDescriptor.mk_heap
    {[ 0%nat := FieldDescriptor.mk basic_type None 0%nat None ]}
    {[ 0%nat := m ]}.

(** [tag_steps h h']: [h'] is reached from [h] by calls of [add_tag] and
    [remove_tag], on any descriptors and in any number. *)
Inductive tag_steps : FieldDescriptor.heap -> FieldDescriptor.heap -> Prop :=
  | tag_steps_done h : tag_steps h h
  | tag_steps_add h a ref value h1 h2 :
      FieldDescriptor.add_tag h a ref value = Ok h1 ->
      tag_steps h1 h2 -> tag_steps h h2
  | tag_steps_remove h a ref errors h1 h2 :
      FieldDescriptor.remove_tag h a ref errors = Ok h1 ->
      tag_steps h1 h2 -> tag_steps h h2.

(** The range of a C [int]. *)
Definition c_int (x : Z) : Prop := - 2 ^ 31 <= x < 2 ^ 31.

(** Order of the stored components, as tuples. *)
Definition components_lt (a b : Z * Z * Z * Z) : Prop :=
  let '(m1, d1, h1, mi1) := a in
  let '(m2, d2, h2, mi2) := b in
  m1 < m2 \/ (m1 = m2 /\ (d1 < d2 \/ (d1 = d2 /\
    (h1 < h2 \/ (h1 = h2 /\ mi1 < mi2))))).

(** The months, days, hours and minutes the engine writes. *)
Definition components_ok (a : Z * Z * Z * Z) : Prop :=
  let '(m, d, h, mi) := a in
  1 <= m <= 12 /\ 1 <= d <= dt.days_in_month 2000 m /\
  1 <= h <= 24 /\ 1 <= mi <= 60.

(** Bytes read as Latin-1: every byte is the code point of its number. *)
Definition decode_latin1 (_ : unit) (b : list N) : result pystr := Ok b.

(** The checks [cleanup_and_check_raw_value] makes on the normalised text
    [r] before it returns it. *)
Definition checks (o : FieldDescriptor.object) (r : pystr) : result pystr :=
  if negb (length r <=? 100)%nat then Raise AssertionError
  else
    let* _ :=
      if negb (pystr_eqb r [])
         && pystr_eqb (FieldDescriptor.basic_type o) (str "N")
      then to_num (VStr r)
      else Ok VNone in
    Ok r.

(** Two entries of the tables of Unidecode, those of U+5317 and U+4EB0
    (the package documents [unidecode("北亰") == "Bei Jing "]);
    the other characters are not in this excerpt. *)
Definition unidecode_excerpt (c : N) : pystr :=
  if (c =? 21271)%N then str "Bei "
  else if (c =? 20144)%N then str "Jing "
  else [].

(* ===================================================================== *)
(** * The embedding on concrete inputs *)
(* ===================================================================== *)

Example int_with_underscore : pystring.parse_int (str " -1_000 ") = Some (-1000).
Proof. reflexivity. Qed.

Example int_rejects_double_underscore : pystring.parse_int (str "1__0") = None.
Proof. reflexivity. Qed.

Example float_accepts_exponent :
  pystring.parse_float (str "1.5e-3") = Some (str "1.5e-3").
Proof. reflexivity. Qed.

Example float_rejects_lone_dot : pystring.parse_float (str ".") = None.
Proof. reflexivity. Qed.

Example to_num_int : to_num (VStr (str "12")) = Ok (VInt 12).
Proof. reflexivity. Qed.

Example to_num_float : to_num (VStr (str "1e3")) = Ok (VFloat (str "1e3")).
Proof. reflexivity. Qed.

Example to_num_rejects_text : to_num (VStr (str "zone")) = Raise ValueError.
Proof. reflexivity. Qed.

Example to_num_rejects_separator : to_num (VStr [28; 49]%N) = Raise ValueError.
Proof. reflexivity. Qed.

Example int_skips_no_break_space : pystring.parse_int [160; 49; 50]%N = Some 12.
Proof. reflexivity. Qed.

Example strip_removes_separator : pystring.strip [28; 49]%N = [49]%N.
Proof. reflexivity. Qed.

Example whitespace_is_collapsed :
  pystring.sub_spaces (pystring.strip (str "  a   b  c ")) = str "a b c".
Proof. reflexivity. Qed.

Example year_end_wraps :
  EPlusDt.to_datetime 2019 12 31 24 60 = Ok (dt.mk_datetime 2019 1 1 0 0).
Proof. reflexivity. Qed.

Example hour_zero_is_rejected :
  EPlusDt.to_datetime 2019 1 1 0 30 = Raise ValueError.
Proof. reflexivity. Qed.

Example leap_day_in_common_year :
  EPlusDt.to_datetime 2019 2 29 12 30 = Raise RuntimeError.
Proof. reflexivity. Qed.

Example first_hour_has_no_previous :
  EPlusDt.from_datetime (dt.mk_datetime 1 1 1 0 0) = Raise OverflowError.
Proof. reflexivity. Qed.

Example note_is_joined :
  FieldDescriptor.get_tag
    (one_descriptor (str "A") {[ str "note" := [str "a"; str "b"] ]})
    0%nat (str "note") false
  = Ok (inl (str "a b")).
Proof. vm_compute. reflexivity. Qed.

Example remove_missing_tag_raises :
  FieldDescriptor.remove_tag (one_descriptor (str "A") ∅) 0%nat
    (str "key") (str "raise")
  = Raise KeyError.
Proof. vm_compute. reflexivity. Qed.

(* ===================================================================== *)
(** * Properties of [EPlusDt] *)
(* ===================================================================== *)

Section EPlusDt_properties.

Import EPlusDt.

Ltac zbool :=
  repeat match goal with
  | |- context [Z.leb ?a ?b] => destruct (Z.leb_spec a b); try lia
  | |- context [Z.ltb ?a ?b] => destruct (Z.ltb_spec a b); try lia
  | |- context [Z.eqb ?a ?b] => destruct (Z.eqb_spec a b); try lia
  end.

Lemma new_ok (y m d h mi : Z) :
  1 <= y <= 9999 -> 1 <= m <= 12 -> 1 <= d <= dt.days_in_month y m ->
  0 <= h <= 23 -> 0 <= mi <= 59 ->
  dt.new y m d h mi = Ok (dt.mk_datetime y m d h mi).
Proof.
  intros Hy Hm Hd Hh Hmi. unfold dt.new, dt.in_range, dt.MINYEAR, dt.MAXYEAR.
  zbool. reflexivity.
Qed.

Lemma new_inv (y m d h mi : Z) (t : dt.datetime) :
  dt.new y m d h mi = Ok t ->
  t = dt.mk_datetime y m d h mi /\ 1 <= y <= 9999 /\ 1 <= m <= 12 /\
  1 <= d <= dt.days_in_month y m /\ 0 <= h <= 23 /\ 0 <= mi <= 59.
Proof.
  unfold dt.new, dt.in_range, dt.MINYEAR, dt.MAXYEAR.
  destruct (Z.leb_spec 1 y), (Z.leb_spec y 9999), (Z.leb_spec 1 m),
    (Z.leb_spec m 12), (Z.leb_spec 1 d), (Z.leb_spec d (dt.days_in_month y m)),
    (Z.leb_spec 0 h), (Z.leb_spec h 23), (Z.leb_spec 0 mi), (Z.leb_spec mi 59);
    simpl; intros E; try discriminate E.
  injection E as <-. repeat split; assumption.
Qed.

Lemma days_in_month_bounds (y m : Z) : 28 <= dt.days_in_month y m <= 31.
Proof.
  unfold dt.days_in_month.
  destruct (m =? 2); [destruct (calendar.isleap y); lia|].
  destruct ((m =? 4) || (m =? 6) || (m =? 9) || (m =? 11)); lia.
Qed.

Lemma add_hours_0 (d : dt.datetime) : dt.add_hours d 0 = Ok d.
Proof. reflexivity. Qed.

Lemma add_hours_1 (d : dt.datetime) : dt.add_hours d 1 = dt.next_hour d.
Proof.
  unfold dt.add_hours. simpl. destruct (dt.next_hour d); reflexivity.
Qed.

Lemma sub_hours_1 (d : dt.datetime) : dt.sub_hours d 1 = dt.prev_hour d.
Proof.
  unfold dt.sub_hours, dt.add_hours. simpl. destruct (dt.prev_hour d); reflexivity.
Qed.

(** With a minute below 60 the timestamp is the stored one, an hour
    down. *)
Lemma to_datetime_plain (y m d h mi : Z) :
  1 <= y <= 9999 -> 1 <= m <= 12 -> 1 <= d <= dt.days_in_month y m ->
  1 <= h <= 24 -> 0 <= mi <= 59 ->
  to_datetime y m d h mi = Ok (dt.mk_datetime y m d (h - 1) mi).
Proof.
  intros Hy Hm Hd Hh Hmi. unfold to_datetime.
  destruct (Z.eqb_spec mi 60); [lia|].
  rewrite new_ok by lia. simpl. unfold dt.replace_year. simpl.
  rewrite new_ok by lia. simpl. rewrite new_ok by lia. reflexivity.
Qed.

(** With minute 60 before the last hour of the day it is the top of the
    stored hour. *)
Lemma to_datetime_60 (y m d h : Z) :
  1 <= y <= 9999 -> 1 <= m <= 12 -> 1 <= d <= dt.days_in_month y m ->
  1 <= h <= 23 ->
  to_datetime y m d h 60 = Ok (dt.mk_datetime y m d h 0).
Proof.
  intros Hy Hm Hd Hh. unfold to_datetime. simpl.
  rewrite new_ok by lia. simpl. rewrite add_hours_1.
  unfold dt.next_hour. simpl. destruct (Z.ltb_spec (h - 1) 23); [|lia].
  simpl. unfold dt.replace_year. simpl.
  replace (h - 1 + 1) with h by lia.
  rewrite new_ok by lia. simpl. rewrite new_ok by lia. reflexivity.
Qed.

(** At 24:60 it is midnight of the next day; after 31 December the year is
    put back, which gives the first midnight of the same year. *)
Lemma to_datetime_24_60 (y m d : Z) :
  1 <= y <= 9999 -> 1 <= m <= 12 -> 1 <= d <= dt.days_in_month y m ->
  (m = 12 -> d = 31 -> y < 9999) ->
  to_datetime y m d 24 60 =
  Ok (if d <? dt.days_in_month y m then dt.mk_datetime y m (d + 1) 0 0
      else if m <? 12 then dt.mk_datetime y (m + 1) 1 0 0
      else dt.mk_datetime y 1 1 0 0).
Proof.
  intros Hy Hm Hd Hlast. unfold to_datetime. simpl.
  rewrite new_ok by lia. simpl. rewrite add_hours_1.
  unfold dt.next_hour. simpl.
  destruct (Z.ltb_spec d (dt.days_in_month y m)).
  - simpl. unfold dt.replace_year. simpl. rewrite new_ok by lia. simpl.
    rewrite new_ok by lia. reflexivity.
  - destruct (Z.ltb_spec m 12).
    + simpl. unfold dt.replace_year. simpl.
      pose proof (days_in_month_bounds y (m + 1)).
      rewrite new_ok by lia. simpl. rewrite new_ok by lia. reflexivity.
    + assert (m = 12) by lia. subst m.
      assert (d = 31) by (unfold dt.days_in_month in *; simpl in *; lia). subst d.
      unfold dt.MAXYEAR. destruct (Z.ltb_spec y 9999); [|lia].
      simpl. unfold dt.replace_year. simpl.
      rewrite new_ok by (unfold dt.days_in_month; simpl; lia). simpl.
      rewrite new_ok by (unfold dt.days_in_month; simpl; lia). reflexivity.
Qed.

(** The reference year is a leap year, so a day that exists in some year
    exists in the reference year. *)
Lemma days_in_month_2000 (y m : Z) :
  dt.days_in_month y m <= dt.days_in_month 2000 m.
Proof.
  unfold dt.days_in_month.
  destruct (m =? 2); [|lia].
  destruct (calendar.isleap y); simpl; lia.
Qed.

Lemma valid_inv (t : dt.datetime) :
  dt.valid t ->
  1 <= dt.year t <= 9999 /\ 1 <= dt.month t <= 12 /\
  1 <= dt.day t <= dt.days_in_month (dt.year t) (dt.month t) /\
  0 <= dt.hour t <= 23 /\ 0 <= dt.minute t <= 59.
Proof. intros H. apply new_inv in H. tauto. Qed.

(** What the constructor stores, by cases on the minute and the hour. *)
Lemma init_value (m d h mi : Z) :
  1 <= m <= 12 -> 1 <= d <= dt.days_in_month 2000 m ->
  1 <= h <= 24 -> 1 <= mi <= 60 ->
  exists c, __init__ m d h mi = Ok c /\ _value c = (m, d, h, mi).
Proof.
  intros Hm Hd Hh Hmi. unfold __init__.
  destruct (Z.eq_dec mi 60) as [->|Hmi60].
  - destruct (Z.eq_dec h 24) as [->|Hh24].
    + rewrite to_datetime_24_60 by lia. simpl.
      destruct (Z.ltb_spec d (dt.days_in_month 2000 m)).
      * simpl. rewrite sub_hours_1. unfold dt.prev_hour. simpl.
        destruct (Z.ltb_spec 1 (d + 1)); [|lia]. simpl.
        eexists. split; [reflexivity|]. simpl. repeat f_equal; lia.
      * destruct (Z.ltb_spec m 12).
        -- simpl. rewrite sub_hours_1. unfold dt.prev_hour. simpl.
           destruct (Z.ltb_spec 1 (m + 1)); [|lia]. simpl.
           eexists. split; [reflexivity|]. simpl.
           replace (m + 1 - 1) with m by lia. repeat f_equal; lia.
        -- assert (m = 12) by lia. subst m.
           assert (d = 31) by (unfold dt.days_in_month in *; simpl in *; lia).
           subst d. simpl. eexists. split; reflexivity.
    + rewrite to_datetime_60 by lia. simpl. rewrite sub_hours_1.
      unfold dt.prev_hour. simpl. destruct (Z.ltb_spec 0 h); [|lia]. simpl.
      eexists. split; [reflexivity|]. simpl. repeat f_equal; lia.
  - rewrite to_datetime_plain by lia. simpl.
    destruct (Z.eqb_spec mi 0); [lia|]. simpl.
    eexists. split; [reflexivity|]. simpl. repeat f_equal; lia.
Qed.

(** The hour before a valid timestamp, when there is one, is a valid
    timestamp. *)
Lemma prev_hour_valid (t p : dt.datetime) :
  dt.valid t -> dt.prev_hour t = Ok p -> dt.valid p /\ dt.minute p = dt.minute t.
Proof.
  intros Hv Hp. apply valid_inv in Hv. unfold dt.prev_hour in Hp.
  destruct t as [y m d h mi]. simpl in *.
  destruct (Z.ltb_spec 0 h).
  { injection Hp as <-. split; [|reflexivity]. unfold dt.valid. simpl.
    apply new_ok; lia. }
  destruct (Z.ltb_spec 1 d).
  { injection Hp as <-. split; [|reflexivity]. unfold dt.valid. simpl.
    apply new_ok; lia. }
  destruct (Z.ltb_spec 1 m).
  { injection Hp as <-. split; [|reflexivity]. unfold dt.valid. simpl.
    pose proof (days_in_month_bounds y (m - 1)). apply new_ok; lia. }
  unfold dt.MINYEAR in Hp. destruct (Z.ltb_spec 1 y); [|discriminate Hp].
  injection Hp as <-. split; [|reflexivity]. unfold dt.valid. simpl.
  apply new_ok; unfold dt.days_in_month; simpl; lia.
Qed.

(** [from_datetime] on a timestamp at minute 0 stores the hour before it,
    at minute 60. *)
Lemma from_datetime_minute0 (t p : dt.datetime) :
  dt.valid t -> dt.minute t = 0 -> dt.sub_hours t 1 = Ok p ->
  exists c, from_datetime t = Ok c /\
            _value c = (dt.month p, dt.day p, dt.hour p + 1, 60).
Proof.
  intros Hv Hmin Hp. unfold from_datetime. rewrite Hmin. simpl.
  rewrite Hp. simpl. rewrite sub_hours_1 in Hp.
  destruct (prev_hour_valid t p Hv Hp) as [Hvp _].
  apply valid_inv in Hvp.
  pose proof (days_in_month_2000 (dt.year p) (dt.month p)).
  apply init_value; lia.
Qed.

Lemma cmp_antisym (a b : dt.datetime) : dt.cmp b a = CompOpp (dt.cmp a b).
Proof.
  unfold dt.cmp.
  rewrite (Z.compare_antisym (dt.year b) (dt.year a)),
          (Z.compare_antisym (dt.month b) (dt.month a)),
          (Z.compare_antisym (dt.day b) (dt.day a)),
          (Z.compare_antisym (dt.hour b) (dt.hour a)),
          (Z.compare_antisym (dt.minute b) (dt.minute a)).
  destruct (dt.year b ?= dt.year a), (dt.month b ?= dt.month a),
    (dt.day b ?= dt.day a), (dt.hour b ?= dt.hour a),
    (dt.minute b ?= dt.minute a); reflexivity.
Qed.

Lemma cmp_eq_iff (a b : dt.datetime) : dt.cmp a b = Eq <-> a = b.
Proof.
  destruct a as [y m d h mi], b as [y' m' d' h' mi']. unfold dt.cmp. simpl.
  split.
  - destruct (Z.compare_spec y y'); try discriminate.
    destruct (Z.compare_spec m m'); try discriminate.
    destruct (Z.compare_spec d d'); try discriminate.
    destruct (Z.compare_spec h h'); try discriminate.
    destruct (Z.compare_spec mi mi'); try discriminate.
    intros _. congruence.
  - intros E. injection E as -> -> -> -> ->.
    rewrite !Z.compare_refl. reflexivity.
Qed.

(** The instance built by the constructor carries the timestamp
    [to_datetime] gives in the year 2000. *)
Lemma init_standard_dt (m d h mi : Z) (a : t) :
  __init__ m d h mi = Ok a -> to_datetime 2000 m d h mi = Ok (standard_dt a).
Proof.
  unfold __init__. destruct (to_datetime 2000 m d h mi) as [s|e]; simpl;
    [|discriminate].
  destruct (dt.minute s =? 0); simpl.
  - destruct (dt.sub_hours s 1); simpl; [|discriminate].
    intros E. injection E as <-. reflexivity.
  - intros E. injection E as <-. reflexivity.
Qed.

End EPlusDt_properties.

(** C1 (amended).  For two instances built by the constructor, the six
    comparison operators are the comparisons of the timestamps
    [to_datetime] gives for their arguments in the year 2000, and they are
    those of one total order: [<=] is [<] or [==], [!=] is the negation of
    [==], [>] and [>=] are [<] and [<=] with the operands swapped, and
    [==] holds exactly when the two timestamps are the same.  In
    particular [EPlusDt(1,1,1,1) < EPlusDt(12,31,24,59)]; the instant
    [(12,31,24,60)] has the timestamp 2000-01-01 00:00, the year being put
    back to 2000, and so it is below [EPlusDt(1,1,1,1)]. *)
Theorem C1_comparisons_by_standard_dt
    (m1 d1 h1 mi1 m2 d2 h2 mi2 : Z) (a b : EPlusDt.t) :
  EPlusDt.__init__ m1 d1 h1 mi1 = Ok a ->
  EPlusDt.__init__ m2 d2 h2 mi2 = Ok b ->
  (exists s1 s2,
     EPlusDt.to_datetime 2000 m1 d1 h1 mi1 = Ok s1 /\
     EPlusDt.to_datetime 2000 m2 d2 h2 mi2 = Ok s2 /\
     EPlusDt.__lt__ a b = dt.lt s1 s2 /\
     EPlusDt.__le__ a b = dt.le s1 s2 /\
     EPlusDt.__eq__ a b = dt.eq s1 s2 /\
     EPlusDt.__ne__ a b = dt.ne s1 s2 /\
     EPlusDt.__gt__ a b = dt.gt s1 s2 /\
     EPlusDt.__ge__ a b = dt.ge s1 s2 /\
     (EPlusDt.__eq__ a b = true <-> s1 = s2)) /\
  EPlusDt.__le__ a b = EPlusDt.__lt__ a b || EPlusDt.__eq__ a b /\
  EPlusDt.__ne__ a b = negb (EPlusDt.__eq__ a b) /\
  EPlusDt.__gt__ a b = EPlusDt.__lt__ b a /\
  EPlusDt.__ge__ a b = EPlusDt.__le__ b a /\
  (exists x y z,
     EPlusDt.__init__ 1 1 1 1 = Ok x /\
     EPlusDt.__init__ 12 31 24 59 = Ok y /\
     EPlusDt.__init__ 12 31 24 60 = Ok z /\
     EPlusDt.__lt__ x y = true /\
     EPlusDt.standard_dt z = dt.mk_datetime 2000 1 1 0 0 /\
     EPlusDt.__lt__ z x = true).
Proof.
  intros Ha Hb.
  apply init_standard_dt in Ha. apply init_standard_dt in Hb.
  unfold EPlusDt.__lt__, EPlusDt.__le__, EPlusDt.__eq__, EPlusDt.__ne__,
    EPlusDt.__gt__, EPlusDt.__ge__.
  set (s1 := EPlusDt.standard_dt a) in *.
  set (s2 := EPlusDt.standard_dt b) in *.
  split; [|split; [|split; [|split; [|split]]]].
  - exists s1, s2. repeat (split; [first [assumption | reflexivity]|]).
    unfold dt.eq. rewrite <- cmp_eq_iff.
    destruct (dt.cmp s1 s2); split; congruence.
  - unfold dt.le, dt.lt, dt.eq. destruct (dt.cmp s1 s2); reflexivity.
  - reflexivity.
  - unfold dt.gt, dt.lt. rewrite (cmp_antisym s1 s2).
    destruct (dt.cmp s1 s2); reflexivity.
  - unfold dt.ge, dt.le. rewrite (cmp_antisym s1 s2).
    destruct (dt.cmp s1 s2); reflexivity.
  - do 3 eexists. repeat split; vm_compute; reflexivity.
Qed.

Lemma C1_comparisons_by_standard_dt_witness :
  EPlusDt.__gt__
    (EPlusDt.mk (dt.mk_datetime 2000 1 1 0 1) (1, 1, 1, 1))
    (EPlusDt.mk (dt.mk_datetime 2000 1 1 0 0) (12, 31, 24, 60))
  = EPlusDt.__lt__
      (EPlusDt.mk (dt.mk_datetime 2000 1 1 0 0) (12, 31, 24, 60))
      (EPlusDt.mk (dt.mk_datetime 2000 1 1 0 1) (1, 1, 1, 1)).
Proof.
  apply (C1_comparisons_by_standard_dt 1 1 1 1 12 31 24 60);
    vm_compute; reflexivity.
Defined.

(** C1, as stated, fails: [EPlusDt(1,1,1,1) < EPlusDt(12,31,24,60)] is
    false, the second timestamp being 2000-01-01 00:00. *)
Lemma C1_year_end_is_not_above_year_start :
  exists a b,
    EPlusDt.__init__ 1 1 1 1 = Ok a /\
    EPlusDt.__init__ 12 31 24 60 = Ok b /\
    EPlusDt.standard_dt a = dt.mk_datetime 2000 1 1 0 1 /\
    EPlusDt.standard_dt b = dt.mk_datetime 2000 1 1 0 0 /\
    EPlusDt.__lt__ a b = false.
Proof. do 2 eexists. repeat split; vm_compute; reflexivity. Qed.

(** C5.  For every month and day of the calendar (29 February included,
    the reference year being a leap year), every hour in 1..24 and every
    minute in 1..60, the constructor succeeds and the [month], [day],
    [hour] and [minute] properties give the arguments back.  Built from a
    timestamp at minute 0 that has an hour before it, the instance stores
    minute 60 of that hour: its date and its hour plus one; so from hour
    [h >= 1] (as from 05:00) it stores hour [h], minute 60, on the same
    day. *)
Theorem C5_components_roundtrip :
  (forall m d h mi : Z,
     1 <= m <= 12 -> 1 <= d <= dt.days_in_month 2000 m ->
     1 <= h <= 24 -> 1 <= mi <= 60 ->
     exists c, EPlusDt.__init__ m d h mi = Ok c /\
               EPlusDt.month c = m /\ EPlusDt.day c = d /\
               EPlusDt.hour c = h /\ EPlusDt.minute c = mi) /\
  (forall t p : dt.datetime,
     dt.valid t -> dt.minute t = 0 -> dt.sub_hours t 1 = Ok p ->
     exists c, EPlusDt.from_datetime t = Ok c /\
               EPlusDt.month c = dt.month p /\ EPlusDt.day c = dt.day p /\
               EPlusDt.hour c = dt.hour p + 1 /\ EPlusDt.minute c = 60) /\
  (forall t : dt.datetime,
     dt.valid t -> dt.minute t = 0 -> 1 <= dt.hour t ->
     exists c, EPlusDt.from_datetime t = Ok c /\
               EPlusDt.month c = dt.month t /\ EPlusDt.day c = dt.day t /\
               EPlusDt.hour c = dt.hour t /\ EPlusDt.minute c = 60).
Proof.
  split; [|split].
  - intros m d h mi Hm Hd Hh Hmi.
    destruct (init_value m d h mi Hm Hd Hh Hmi) as (c & Hc & Hv).
    exists c. unfold EPlusDt.month, EPlusDt.day, EPlusDt.hour, EPlusDt.minute.
    rewrite Hv. simpl. auto.
  - intros t p Hv Hmin Hp.
    destruct (from_datetime_minute0 t p Hv Hmin Hp) as (c & Hc & Hval).
    exists c. unfold EPlusDt.month, EPlusDt.day, EPlusDt.hour, EPlusDt.minute.
    rewrite Hval. simpl. auto.
  - intros t Hv Hmin Hh.
    assert (Hp : dt.sub_hours t 1
                 = Ok (dt.mk_datetime (dt.year t) (dt.month t) (dt.day t)
                                      (dt.hour t - 1) (dt.minute t))).
    { rewrite sub_hours_1. unfold dt.prev_hour.
      destruct (Z.ltb_spec 0 (dt.hour t)); [reflexivity|lia]. }
    destruct (from_datetime_minute0 t _ Hv Hmin Hp) as (c & Hc & Hval).
    exists c. unfold EPlusDt.month, EPlusDt.day, EPlusDt.hour, EPlusDt.minute.
    rewrite Hval. simpl. repeat split; first [exact Hc | lia].
Qed.

Lemma C5_components_roundtrip_witness :
  (exists c, EPlusDt.__init__ 2 29 24 60 = Ok c /\
             EPlusDt.month c = 2 /\ EPlusDt.day c = 29 /\
             EPlusDt.hour c = 24 /\ EPlusDt.minute c = 60) /\
  (exists c, EPlusDt.from_datetime (dt.mk_datetime 2019 1 1 0 0) = Ok c /\
             EPlusDt.month c = 12 /\ EPlusDt.day c = 31 /\
             EPlusDt.hour c = 23 + 1 /\ EPlusDt.minute c = 60) /\
  (exists c, EPlusDt.from_datetime (dt.mk_datetime 2019 7 14 5 0) = Ok c /\
             EPlusDt.month c = 7 /\ EPlusDt.day c = 14 /\
             EPlusDt.hour c = 5 /\ EPlusDt.minute c = 60).
Proof.
  destruct C5_components_roundtrip as (H1 & H2 & H3).
  split; [|split].
  - apply (H1 2 29 24 60); vm_compute; intuition discriminate.
  - apply (H2 (dt.mk_datetime 2019 1 1 0 0) (dt.mk_datetime 2018 12 31 23 0));
      vm_compute; reflexivity.
  - apply (H3 (dt.mk_datetime 2019 7 14 5 0)); vm_compute;
      first [reflexivity | discriminate].
Defined.

(** C6.  An instance storing [(2, 29, 24, 60)], reprojected with
    [datetime(year)] onto a year that is not a leap year (2019 for one),
    gives without error the timestamp of 28 February 24:60 of that year,
    which is 1 March 00:00 and reads back as [(2, 28, 24, 60)]; without
    the substitution of the day [to_datetime] would raise.  Reprojected
    onto a leap year (2020 for one) it gives the timestamp of 29 February
    24:60, which reads back as [(2, 29, 24, 60)]. *)
Theorem C6_leap_day_reprojection (c : EPlusDt.t) (y : Z) :
  EPlusDt._value c = (2, 29, 24, 60) ->
  1 <= y <= 9999 ->
  (calendar.isleap y = false ->
     EPlusDt.datetime c y = Ok (dt.mk_datetime y 3 1 0 0) /\
     EPlusDt.datetime c y = EPlusDt.to_datetime y 2 28 24 60 /\
     EPlusDt.to_datetime y 2 29 24 60 = Raise RuntimeError /\
     exists e, EPlusDt.from_datetime (dt.mk_datetime y 3 1 0 0) = Ok e /\
               EPlusDt._value e = (2, 28, 24, 60)) /\
  (calendar.isleap y = true ->
     EPlusDt.datetime c y = Ok (dt.mk_datetime y 3 1 0 0) /\
     EPlusDt.datetime c y = EPlusDt.to_datetime y 2 29 24 60 /\
     exists e, EPlusDt.from_datetime (dt.mk_datetime y 3 1 0 0) = Ok e /\
               EPlusDt._value e = (2, 29, 24, 60)) /\
  calendar.isleap 2019 = false /\ calendar.isleap 2020 = true.
Proof.
  intros Hval Hy.
  assert (Hdim : forall b, calendar.isleap y = b ->
                 dt.days_in_month y 2 = if b then 29 else 28).
  { intros b <-. reflexivity. }
  assert (Hback : forall b, calendar.isleap y = b ->
            exists e, EPlusDt.from_datetime (dt.mk_datetime y 3 1 0 0) = Ok e /\
                      EPlusDt._value e = (2, if b then 29 else 28, 24, 60)).
  { intros b Hb.
    destruct (from_datetime_minute0 (dt.mk_datetime y 3 1 0 0)
                (dt.mk_datetime y 2 (dt.days_in_month y 2) 23 0))
      as (e & He & Hv).
    - unfold dt.valid. simpl. apply new_ok; unfold dt.days_in_month; simpl; lia.
    - reflexivity.
    - rewrite sub_hours_1. reflexivity.
    - exists e. split; [exact He|]. rewrite Hv. simpl.
      rewrite (Hdim b Hb). reflexivity. }
  split; [|split; [|split; reflexivity]].
  - intros Hleap. pose proof (Hdim _ Hleap) as Hd. simpl in Hd.
    assert (E : EPlusDt.to_datetime y 2 28 24 60 = Ok (dt.mk_datetime y 3 1 0 0)).
    { rewrite to_datetime_24_60 by lia. rewrite Hd. reflexivity. }
    assert (D : EPlusDt.datetime c y = EPlusDt.to_datetime y 2 28 24 60).
    { unfold EPlusDt.datetime. rewrite Hval, Hleap. reflexivity. }
    split; [congruence|]. split; [exact D|]. split; [|exact (Hback _ Hleap)].
    unfold EPlusDt.to_datetime. simpl.
    unfold dt.new, dt.in_range. rewrite Hd. simpl.
    rewrite !andb_false_r. reflexivity.
  - intros Hleap. pose proof (Hdim _ Hleap) as Hd. simpl in Hd.
    assert (E : EPlusDt.to_datetime y 2 29 24 60 = Ok (dt.mk_datetime y 3 1 0 0)).
    { rewrite to_datetime_24_60 by lia. rewrite Hd. reflexivity. }
    assert (D : EPlusDt.datetime c y = EPlusDt.to_datetime y 2 29 24 60).
    { unfold EPlusDt.datetime. rewrite Hval, Hleap. reflexivity. }
    split; [congruence|]. split; [exact D|]. exact (Hback _ Hleap).
Qed.

Lemma C6_leap_day_reprojection_witness :
  EPlusDt.datetime (EPlusDt.mk (dt.mk_datetime 2000 3 1 0 0) (2, 29, 24, 60)) 2019
  = Ok (dt.mk_datetime 2019 3 1 0 0).
Proof.
  destruct (C6_leap_day_reprojection
              (EPlusDt.mk (dt.mk_datetime 2000 3 1 0 0) (2, 29, 24, 60)) 2019)
    as (H & _); [reflexivity | lia |].
  apply H. reflexivity.
Defined.

(* ===================================================================== *)
(** * Properties of [FieldDescriptor]: tags, type resolution, copies *)
(* ===================================================================== *)

Section FieldDescriptor_properties.

Import FieldDescriptor.

Variable lower : pystr -> pystr.

Lemma describes_tags_d h self o m :
  describes h self o m -> tags_d h self = Ok m.
Proof.
  intros [Ho Hm]. unfold tags_d, get_object, get_dict. rewrite Ho. simpl.
  rewrite Hm. reflexivity.
Qed.

Lemma describes_has_tag h self o m ref :
  describes h self o m ->
  has_tag h self ref = Ok (bool_decide (is_Some (m !! ref))).
Proof.
  intros H. unfold has_tag. rewrite (describes_tags_d _ _ _ _ H). reflexivity.
Qed.

Lemma detailed_type_first h self o m :
  describes h self o m -> _detailed_type o = None ->
  detailed_type lower h self =
  let* t :=
    if bool_decide (is_Some (m !! str "reference")) then Ok (str "reference")
    else if bool_decide (is_Some (m !! str "type")) then
      match default [] (m !! str "type") with
      | v :: _ => Ok (lower v)
      | [] => Raise IndexError
      end
    else if bool_decide (is_Some (m !! str "key")) then Ok (str "choice")
    else if bool_decide (is_Some (m !! str "object-list")) then
      Ok (str "object-list")
    else if bool_decide (is_Some (m !! str "external-list")) then
      Ok (str "external-list")
    else if pystr_eqb (basic_type o) (str "A") then Ok (str "alpha")
    else if pystr_eqb (basic_type o) (str "N") then Ok (str "real")
    else Raise ValueError in
  Ok (t, cached h self o t).
Proof.
  intros [Ho Hm] Hc. unfold detailed_type, get_object, get_dict.
  rewrite Ho. simpl. rewrite Hc, Hm. reflexivity.
Qed.

Lemma detailed_type_memo h self o t :
  objects h !! self = Some o -> _detailed_type o = Some t ->
  detailed_type lower h self = Ok (t, h).
Proof.
  intros Ho Hc. unfold detailed_type, get_object. rewrite Ho. simpl.
  rewrite Hc. reflexivity.
Qed.

Lemma has_true (m : gmap pystr (list pystr)) ref :
  is_Some (m !! ref) -> bool_decide (is_Some (m !! ref)) = true.
Proof. intros H. apply bool_decide_eq_true_2, H. Qed.

Lemma has_false (m : gmap pystr (list pystr)) ref :
  m !! ref = None -> bool_decide (is_Some (m !! ref)) = false.
Proof.
  intros H. apply bool_decide_eq_false_2. rewrite H. apply is_Some_None.
Qed.

Lemma add_tag_describes h self o m ref value :
  describes h self o m ->
  exists m',
    add_tag h self ref value = Ok (set_dict h (_tags_d o) m') /\
    describes (set_dict h (_tags_d o) m') self o m' /\
    m' = (let m1 := if bool_decide (is_Some (m !! ref)) then m
                    else <[ref := []]> m in
          match value with
          | Some v => <[ref := default [] (m1 !! ref) ++ [v]]> m1
          | None => m1
          end).
Proof.
  intros [Ho Hm]. eexists. split; [|split; [|reflexivity]].
  - unfold add_tag, get_object, get_dict. rewrite Ho. simpl. rewrite Hm.
    reflexivity.
  - split; simpl; [exact Ho|]. apply lookup_insert_eq.
Qed.

Lemma remove_tag_describes h self o m ref errors h' :
  describes h self o m ->
  remove_tag h self ref errors = Ok h' ->
  h' = set_dict h (_tags_d o) (delete ref m) /\
  describes h' self o (delete ref m).
Proof.
  intros [Ho Hm]. unfold remove_tag, get_object, get_dict. rewrite Ho. simpl.
  rewrite Hm. simpl.
  assert (Hd : describes (set_dict h (_tags_d o) (delete ref m)) self o
                         (delete ref m)).
  { split; simpl; [exact Ho|]. apply lookup_insert_eq. }
  destruct (pystr_eqb errors (str "raise")).
  - destruct (m !! ref); [|discriminate]. intros E. injection E as <-. auto.
  - destruct (pystr_eqb errors (str "ignore")); [|discriminate].
    intros E. injection E as <-. auto.
Qed.

(** Writing the dictionary of one instance leaves an instance with another
    dictionary as it was. *)
Lemma set_dict_other h (oa ob : object) b mb m' :
  describes h b ob mb -> _tags_d oa <> _tags_d ob ->
  describes (set_dict h (_tags_d oa) m') b ob mb.
Proof.
  intros [Hb Hmb] Hne. split; simpl; [exact Hb|].
  rewrite lookup_insert_ne by exact Hne. exact Hmb.
Qed.

Lemma new_object_fresh h : objects h !! new_object h = None.
Proof. apply not_elem_of_dom. unfold new_object. apply is_fresh. Qed.

Lemma new_dict_fresh h : dicts h !! new_dict h = None.
Proof. apply not_elem_of_dom. unfold new_dict. apply is_fresh. Qed.

(** The default call of [copy]: a new instance with a new dictionary of the
    same content. *)
Lemma copy_default h self o m :
  describes h self o m ->
  exists h',
    copy h self false = Ok (Some (new_object h), h') /\
    new_object h <> self /\ new_dict h <> _tags_d o /\
    describes h' self o m /\
    describes h' (new_object h)
      (mk (basic_type o) (name o) (new_dict h) (_detailed_type o)) m.
Proof.
  intros [Ho Hm]. eexists. split; [|split; [|split; [|split]]].
  - unfold copy, copy_deepcopy, get_object, get_dict. rewrite Ho. simpl.
    rewrite Hm. simpl. reflexivity.
  - intros E. pose proof (new_object_fresh h) as F. rewrite E in F. congruence.
  - intros E. pose proof (new_dict_fresh h) as F. rewrite E in F. congruence.
  - split; simpl.
    + rewrite lookup_insert_ne; [exact Ho|].
      intros E. pose proof (new_object_fresh h) as F. rewrite E in F. congruence.
    + rewrite lookup_insert_ne; [exact Hm|].
      intros E. pose proof (new_dict_fresh h) as F. rewrite E in F. congruence.
  - split; simpl; apply lookup_insert_eq.
Qed.

(** The [deep] call of [copy]: a shallow copy is made, sharing the
    dictionary, and dropped; the call returns [None]. *)
Lemma copy_deep h self o :
  objects h !! self = Some o ->
  copy h self true = Ok (None, set_object h (new_object h) o).
Proof.
  intros Ho. unfold copy, copy_copy, get_object. rewrite Ho. reflexivity.
Qed.

(** Adding or removing a tag on one of two instances with distinct
    dictionaries leaves the tags of the other unchanged. *)
Lemma mutation_frame h a oa ma b ob mb ref value errors h' :
  describes h a oa ma -> describes h b ob mb ->
  _tags_d oa <> _tags_d ob ->
  add_tag h a ref value = Ok h' \/ remove_tag h a ref errors = Ok h' ->
  describes h' b ob mb.
Proof.
  intros Ha Hb Hne [E|E].
  - destruct (add_tag_describes h a oa ma ref value Ha) as (m' & E' & _ & _).
    rewrite E' in E. injection E as <-.
    apply set_dict_other; [exact Hb | exact Hne].
  - destruct (remove_tag_describes h a oa ma ref errors h' Ha E) as [-> _].
    apply set_dict_other; [exact Hb | exact Hne].
Qed.

(** Adding and removing tags write dictionaries only: the attributes of
    every instance, the cached detailed type among them, stay. *)
Lemma add_tag_objects h a ref value h1 :
  add_tag h a ref value = Ok h1 -> objects h1 = objects h.
Proof.
  unfold add_tag.
  destruct (get_object h a) as [oa|]; simpl; [|discriminate].
  destruct (get_dict h (_tags_d oa)) as [ma|]; simpl; [|discriminate].
  intros E. injection E as <-. reflexivity.
Qed.

Lemma remove_tag_objects h a ref errors h1 :
  remove_tag h a ref errors = Ok h1 -> objects h1 = objects h.
Proof.
  unfold remove_tag.
  destruct (get_object h a) as [oa|]; simpl; [|discriminate].
  destruct (get_dict h (_tags_d oa)) as [ma|]; simpl; [|discriminate].
  destruct (pystr_eqb errors (str "raise")).
  - destruct (ma !! ref); [|discriminate].
    intros E. injection E as <-. reflexivity.
  - destruct (pystr_eqb errors (str "ignore")); [|discriminate].
    intros E. injection E as <-. reflexivity.
Qed.

Lemma tag_steps_objects h h' : tag_steps h h' -> objects h' = objects h.
Proof.
  induction 1 as [h|h a ref value h1 h2 E _ IH|h a ref errors h1 h2 E _ IH].
  - reflexivity.
  - rewrite IH. exact (add_tag_objects _ _ _ _ _ E).
  - rewrite IH. exact (remove_tag_objects _ _ _ _ _ E).
Qed.

(** The first access stores what it returns. *)
Lemma detailed_type_stores h self o m t h' :
  describes h self o m -> _detailed_type o = None ->
  detailed_type lower h self = Ok (t, h') ->
  objects h' !! self
  = Some (mk (basic_type o) (name o) (_tags_d o) (Some t)).
Proof.
  intros Hd Hc E. rewrite (detailed_type_first h self o m Hd Hc) in E.
  match type of E with
  | rbind ?x _ = _ => destruct x as [t1|e1]; simpl in E; [|discriminate E]
  end.
  injection E as <- <-. unfold cached, set_object. simpl.
  apply lookup_insert_eq.
Qed.

(** What [__eq__] computes. *)
Lemma eq_computes h a oa ma b ob mb :
  describes h a oa ma -> describes h b ob mb ->
  __eq__ h a b =
  Ok (bool_decide (name oa = name ob)
      && pystr_eqb (basic_type oa) (basic_type ob)
      && (size ma =? size mb)%nat).
Proof.
  intros [Ha Hma] [Hb Hmb]. unfold __eq__, get_object, get_dict.
  rewrite Ha, Hb. simpl. rewrite Hma, Hmb. simpl.
  rewrite (bool_decide_eq_true_2 (sorted_items ma = sorted_items ma) eq_refl).
  destruct (bool_decide (name oa = name ob)); [|reflexivity].
  destruct (pystr_eqb (basic_type oa) (basic_type ob)); [|reflexivity].
  destruct (size ma =? size mb)%nat; reflexivity.
Qed.

End FieldDescriptor_properties.


(** C3 (amended).  On a descriptor whose detailed type has not been
    computed yet, [detailed_type] resolves by first match: tag [reference]
    present gives ["reference"]; else tag [type] present with a first value
    gives that value lower-cased; else tag [key] present gives ["choice"];
    else [object-list], then [external-list], give their own names; else
    ["alpha"] for basic type [A] and ["real"] for basic type [N].  So a
    descriptor carrying both [reference] and [key] resolves to
    ["reference"].  The result is stored in the descriptor and every later
    access returns the stored value, whatever tags were added or removed
    since, on this descriptor or another. *)
Theorem C3_detailed_type_precedence
    (lower : pystr -> pystr) (h : FieldDescriptor.heap)
    (self : FieldDescriptor.loc) (o : FieldDescriptor.object)
    (m : gmap pystr (list pystr)) :
  FieldDescriptor.describes h self o m ->
  FieldDescriptor._detailed_type o = None ->
  let first t :=
    FieldDescriptor.detailed_type lower h self = Ok (t, cached h self o t) in
  (is_Some (m !! str "reference") -> first (str "reference")) /\
  (m !! str "reference" = None ->
   forall v vs, m !! str "type" = Some (v :: vs) -> first (lower v)) /\
  (m !! str "reference" = None -> m !! str "type" = None ->
   is_Some (m !! str "key") -> first (str "choice")) /\
  (m !! str "reference" = None -> m !! str "type" = None ->
   m !! str "key" = None ->
   is_Some (m !! str "object-list") -> first (str "object-list")) /\
  (m !! str "reference" = None -> m !! str "type" = None ->
   m !! str "key" = None -> m !! str "object-list" = None ->
   is_Some (m !! str "external-list") -> first (str "external-list")) /\
  (m !! str "reference" = None -> m !! str "type" = None ->
   m !! str "key" = None -> m !! str "object-list" = None ->
   m !! str "external-list" = None ->
   (FieldDescriptor.basic_type o = str "A" -> first (str "alpha")) /\
   (FieldDescriptor.basic_type o = str "N" -> first (str "real"))) /\
  (is_Some (m !! str "reference") -> is_Some (m !! str "key") ->
   first (str "reference")) /\
  (forall t h',
     FieldDescriptor.detailed_type lower h self = Ok (t, h') ->
     FieldDescriptor.detailed_type lower h' self = Ok (t, h')) /\
  (forall t h' h'',
     FieldDescriptor.detailed_type lower h self = Ok (t, h') ->
     tag_steps h' h'' ->
     FieldDescriptor.detailed_type lower h'' self = Ok (t, h'')).
Proof.
  intros Hd Hc first. subst first. cbv beta.
  assert (Hlater : forall t h' h'',
            FieldDescriptor.detailed_type lower h self = Ok (t, h') ->
            tag_steps h' h'' ->
            FieldDescriptor.detailed_type lower h'' self = Ok (t, h'')).
  { intros t h' h'' E Hsteps.
    apply detailed_type_memo with (o := FieldDescriptor.mk
      (FieldDescriptor.basic_type o) (FieldDescriptor.name o)
      (FieldDescriptor._tags_d o) (Some t)); [|reflexivity].
    rewrite (tag_steps_objects _ _ Hsteps).
    exact (detailed_type_stores lower h self o m t h' Hd Hc E). }
  revert Hlater.
  rewrite (detailed_type_first lower h self o m Hd Hc).
  intros Hlater.
  repeat split; [ | | | | | | | | |exact Hlater].
  - intros H. rewrite (has_true _ _ H). reflexivity.
  - intros Hr v vs Ht. rewrite (has_false _ _ Hr), has_true by (rewrite Ht; eauto).
    rewrite Ht. reflexivity.
  - intros Hr Ht Hk. rewrite (has_false _ _ Hr), (has_false _ _ Ht),
      (has_true _ _ Hk). reflexivity.
  - intros Hr Ht Hk Ho. rewrite (has_false _ _ Hr), (has_false _ _ Ht),
      (has_false _ _ Hk), (has_true _ _ Ho). reflexivity.
  - intros Hr Ht Hk Ho He. rewrite (has_false _ _ Hr), (has_false _ _ Ht),
      (has_false _ _ Hk), (has_false _ _ Ho), (has_true _ _ He). reflexivity.
  - intros Hb. rewrite (has_false _ _ H), (has_false _ _ H0),
      (has_false _ _ H1), (has_false _ _ H2), (has_false _ _ H3), Hb.
    reflexivity.
  - intros Hb. rewrite (has_false _ _ H), (has_false _ _ H0),
      (has_false _ _ H1), (has_false _ _ H2), (has_false _ _ H3), Hb.
    reflexivity.
  - intros H _. rewrite (has_true _ _ H). reflexivity.
  - intros t h' E.
    destruct (rbind _ _) as [[t0 h0]|e] eqn:R in E; [|discriminate E].
    revert R.
    match goal with
    | |- rbind ?x _ = _ -> _ => destruct x as [t1|e1]; simpl; [|discriminate]
    end.
    intros R. injection R as <- <-. injection E as <- <-.
    apply detailed_type_memo with (o := FieldDescriptor.mk
      (FieldDescriptor.basic_type o) (FieldDescriptor.name o)
      (FieldDescriptor._tags_d o) (Some t1)); [|reflexivity].
    unfold cached, FieldDescriptor.set_object. simpl. apply lookup_insert_eq.
Qed.

Lemma C3_detailed_type_precedence_witness :
  FieldDescriptor.detailed_type pystring.ascii_lower
    (one_descriptor (str "A")
       {[ str "key" := [str "x"]; str "reference" := [str "r"] ]}) 0%nat
  = Ok (str "reference",
        cached (one_descriptor (str "A")
                  {[ str "key" := [str "x"]; str "reference" := [str "r"] ]})
               0%nat (FieldDescriptor.mk (str "A") None 0%nat None)
               (str "reference")).
Proof.
  destruct (C3_detailed_type_precedence pystring.ascii_lower
              (one_descriptor (str "A")
                 {[ str "key" := [str "x"]; str "reference" := [str "r"] ]})
              0%nat (FieldDescriptor.mk (str "A") None 0%nat None)
              {[ str "key" := [str "x"]; str "reference" := [str "r"] ]})
    as (H & _).
  - split; vm_compute; reflexivity.
  - reflexivity.
  - apply H. vm_compute. eauto.
Defined.

(** C3, as stated, fails on a descriptor read before it was given its
    [reference] tag: it carries [reference] and [key] and resolves to
    ["choice"]. *)
Lemma C3_stale_detailed_type :
  exists self h0 h1 h2 h3,
    FieldDescriptor.__init__ FieldDescriptor.empty_heap (str "A") None
      = Ok (self, h0) /\
    FieldDescriptor.add_tag h0 self (str "key") (Some (str "x")) = Ok h1 /\
    FieldDescriptor.detailed_type pystring.ascii_lower h1 self
      = Ok (str "choice", h2) /\
    FieldDescriptor.add_tag h2 self (str "reference") (Some (str "r")) = Ok h3 /\
    FieldDescriptor.has_tag h3 self (str "reference") = Ok true /\
    FieldDescriptor.has_tag h3 self (str "key") = Ok true /\
    FieldDescriptor.detailed_type pystring.ascii_lower h3 self
      = Ok (str "choice", h3).
Proof. do 5 eexists. repeat split; vm_compute; reflexivity. Qed.

(** C10.  A descriptor that carries the [type] tag with no value and no
    [reference] tag, read for the first time, makes [detailed_type] fail
    with [IndexError]; [add_tag("type")] without a value puts a descriptor
    that had no [type] tag in that state. *)
Theorem C10_empty_type_tag_raises
    (lower : pystr -> pystr) (h : FieldDescriptor.heap)
    (self : FieldDescriptor.loc) (o : FieldDescriptor.object)
    (m : gmap pystr (list pystr)) :
  FieldDescriptor.describes h self o m ->
  FieldDescriptor._detailed_type o = None ->
  m !! str "reference" = None ->
  (m !! str "type" = Some [] ->
   FieldDescriptor.detailed_type lower h self = Raise IndexError) /\
  (m !! str "type" = None ->
   exists h',
     FieldDescriptor.add_tag h self (str "type") None = Ok h' /\
     FieldDescriptor.describes h' self o (<[str "type" := []]> m) /\
     FieldDescriptor.detailed_type lower h' self = Raise IndexError).
Proof.
  intros Hd Hc Hr.
  assert (Hraise : forall h0 m0,
            FieldDescriptor.describes h0 self o m0 ->
            m0 !! str "reference" = None -> m0 !! str "type" = Some [] ->
            FieldDescriptor.detailed_type lower h0 self = Raise IndexError).
  { intros h0 m0 Hd0 Hr0 Ht0.
    rewrite (detailed_type_first lower h0 self o m0 Hd0 Hc).
    rewrite (has_false _ _ Hr0), has_true by (rewrite Ht0; eauto).
    rewrite Ht0. reflexivity. }
  split.
  - intros Ht. exact (Hraise h m Hd Hr Ht).
  - intros Ht.
    destruct (add_tag_describes h self o m (str "type") None Hd)
      as (m' & E & Hd' & ->).
    rewrite (has_false _ _ Ht) in *. cbv zeta in *.
    eexists. split; [exact E|]. split; [exact Hd'|].
    apply (Hraise _ _ Hd').
    + rewrite lookup_insert_ne by discriminate. exact Hr.
    + apply lookup_insert_eq.
Qed.

Lemma C10_empty_type_tag_raises_witness :
  exists h',
    FieldDescriptor.add_tag (one_descriptor (str "N") ∅) 0%nat (str "type") None
      = Ok h' /\
    FieldDescriptor.describes h' 0%nat
      (FieldDescriptor.mk (str "N") None 0%nat None) (<[str "type" := []]> ∅) /\
    FieldDescriptor.detailed_type pystring.ascii_lower h' 0%nat
      = Raise IndexError.
Proof.
  destruct (C10_empty_type_tag_raises pystring.ascii_lower
              (one_descriptor (str "N") ∅) 0%nat
              (FieldDescriptor.mk (str "N") None 0%nat None) ∅)
    as (_ & H).
  - split; vm_compute; reflexivity.
  - reflexivity.
  - reflexivity.
  - apply H. reflexivity.
Defined.

(** C7: [__eq__] at two descriptors of the same name and basic type with
    one tag each, [key] on one and [note] on the other: the tags differ
    and the code answers [True]. *)
Theorem C7_eq_ignores_tag_contents :
  exists a b h0 h1 h2 h3,
    FieldDescriptor.__init__ FieldDescriptor.empty_heap (str "A") None
      = Ok (a, h0) /\
    FieldDescriptor.__init__ h0 (str "A") None = Ok (b, h1) /\
    FieldDescriptor.add_tag h1 a (str "key") (Some (str "x")) = Ok h2 /\
    FieldDescriptor.add_tag h2 b (str "note") (Some (str "y")) = Ok h3 /\
    FieldDescriptor.tags_d h3 a = Ok {[ str "key" := [str "x"] ]} /\
    FieldDescriptor.tags_d h3 b = Ok {[ str "note" := [str "y"] ]} /\
    FieldDescriptor.has_tag h3 b (str "key") = Ok false /\
    FieldDescriptor.__eq__ h3 a b = Ok true.
Proof. do 6 eexists. repeat split; vm_compute; reflexivity. Qed.

(** C9: for every descriptor, [copy(deep=True)] returns [None].  The
    default call returns a new descriptor of the same name and basic type
    whose dictionary is a new one with the same content, and adding or
    removing a tag on either of the two leaves the tags of the other
    unchanged. *)
Theorem C9_copy_deep_returns_None
    (h : FieldDescriptor.heap) (self : FieldDescriptor.loc)
    (o : FieldDescriptor.object) (m : gmap pystr (list pystr)) :
  FieldDescriptor.describes h self o m ->
  (exists h', FieldDescriptor.copy h self true = Ok (None, h')) /\
  (exists c oc h',
     FieldDescriptor.copy h self false = Ok (Some c, h') /\
     c <> self /\
     FieldDescriptor._tags_d oc <> FieldDescriptor._tags_d o /\
     FieldDescriptor.basic_type oc = FieldDescriptor.basic_type o /\
     FieldDescriptor.name oc = FieldDescriptor.name o /\
     FieldDescriptor.describes h' self o m /\
     FieldDescriptor.describes h' c oc m /\
     forall ref value errors h'',
       (FieldDescriptor.add_tag h' c ref value = Ok h'' \/
        FieldDescriptor.remove_tag h' c ref errors = Ok h'' ->
        FieldDescriptor.tags_d h'' self = Ok m) /\
       (FieldDescriptor.add_tag h' self ref value = Ok h'' \/
        FieldDescriptor.remove_tag h' self ref errors = Ok h'' ->
        FieldDescriptor.tags_d h'' c = Ok m)).
Proof.
  intros Hd. split.
  - eexists. apply copy_deep. apply Hd.
  - destruct (copy_default h self o m Hd) as (h' & E & Hc & Hn & Hs & Hcopy).
    exists (FieldDescriptor.new_object h),
      (FieldDescriptor.mk (FieldDescriptor.basic_type o) (FieldDescriptor.name o)
         (FieldDescriptor.new_dict h) (FieldDescriptor._detailed_type o)), h'.
    split; [exact E|].
    split; [exact Hc|]. split; [exact Hn|].
    split; [reflexivity|]. split; [reflexivity|].
    split; [exact Hs|]. split; [exact Hcopy|].
    intros ref value errors h''. split; intros Hmut.
    + eapply describes_tags_d.
      eapply (mutation_frame h' _ _ _ self o m);
        [exact Hcopy | exact Hs | | exact Hmut].
      exact Hn.
    + eapply describes_tags_d.
      eapply (mutation_frame h' self o m);
        [exact Hs | exact Hcopy | | exact Hmut].
      simpl. congruence.
Qed.

Lemma C9_copy_deep_returns_None_witness :
  exists h',
    FieldDescriptor.copy (one_descriptor (str "A") {[ str "key" := [str "x"] ]})
                         0%nat true
    = Ok (None, h').
Proof.
  destruct (C9_copy_deep_returns_None
              (one_descriptor (str "A") {[ str "key" := [str "x"] ]}) 0%nat
              (FieldDescriptor.mk (str "A") None 0%nat None)
              {[ str "key" := [str "x"] ]}) as (H & _).
  - split; vm_compute; reflexivity.
  - exact H.
Defined.

(* ===================================================================== *)
(** * Properties of [get_string_buffer] *)
(* ===================================================================== *)

Section get_string_buffer_properties.

Variable isfile : pystr -> bool.
Variable encoding_t : Type.
Variable decode : encoding_t -> list N -> result pystr.

(** The test on the end of the string holds exactly for the strings made
    of something, a dot and the extension. *)
Lemma ends_with_dot_extension (s ext : pystr) :
  util.last_chars (length ext + 1) s = util.dot_extension ext <->
  exists stem, s = stem ++ util.dot_extension ext.
Proof.
  unfold util.last_chars. split.
  - intros E. exists (take (length s - (length ext + 1)) s).
    rewrite <- E. symmetry. apply take_drop.
  - intros [stem ->]. rewrite length_app. unfold util.dot_extension. simpl.
    replace (length stem + S (length ext) - (length ext + 1))%nat
      with (length stem) by lia.
    apply drop_app_length.
Qed.


End get_string_buffer_properties.




(* ===================================================================== *)
(** * Properties of the string primitives *)
(* ===================================================================== *)

Section pystring_properties.

Import pystring.
Local Open Scope N_scope.

Ltac nbool :=
  repeat match goal with
  | |- context [N.leb ?a ?b] => destruct (N.leb_spec a b); try lia; simpl
  | |- context [N.ltb ?a ?b] => destruct (N.ltb_spec a b); try lia; simpl
  | |- context [N.eqb ?a ?b] => destruct (N.eqb_spec a b); try lia; simpl
  end.

Lemma letter_not_space (c : N) : is_letter c = true -> isspace c = false.
Proof.
  unfold is_letter, isspace. nbool; intros; try discriminate; reflexivity.
Qed.

Lemma letter_is_ascii (c : N) : is_letter c = true -> is_ascii_char c = true.
Proof.
  unfold is_letter, is_ascii_char. nbool; intros; try discriminate; reflexivity.
Qed.

Lemma isspace_lower (c : N) : isspace (ascii_lower_char c) = isspace c.
Proof.
  unfold ascii_lower_char.
  destruct (N.leb_spec 65 c); simpl; [|reflexivity].
  destruct (N.leb_spec c 90); simpl; [|reflexivity].
  rewrite (letter_not_space c), (letter_not_space (c + 32)); try reflexivity;
    unfold is_letter; nbool; reflexivity.
Qed.

Ltac lower_cases c :=
  unfold ascii_lower_char;
  destruct (N.leb_spec 65 c); simpl;
  [destruct (N.leb_spec c 90); simpl|].

Lemma is_ascii_lower_char (c : N) :
  is_ascii_char (ascii_lower_char c) = is_ascii_char c.
Proof. lower_cases c; unfold is_ascii_char; nbool; reflexivity. Qed.

Lemma lower_char_not_upper (c : N) : is_upper (ascii_lower_char c) = false.
Proof. lower_cases c; unfold is_upper; nbool; reflexivity. Qed.

Lemma lower_char_id (c : N) : is_upper c = false -> ascii_lower_char c = c.
Proof. unfold ascii_lower_char, is_upper. intros ->. reflexivity. Qed.

Lemma lower_char_letter (c : N) :
  is_letter (ascii_lower_char c) = true -> is_letter c = true.
Proof. lower_cases c; unfold is_letter; nbool; intros; congruence. Qed.

Lemma ascii_lower_idem (s : pystr) : ascii_lower (ascii_lower s) = ascii_lower s.
Proof.
  unfold ascii_lower. rewrite map_map. apply map_ext. intros c.
  apply lower_char_id, lower_char_not_upper.
Qed.

Lemma ascii_lower_not_upper (s : pystr) :
  Forall (fun c => is_upper c = false) (ascii_lower s).
Proof.
  unfold ascii_lower. apply Forall_map, Forall_true. intros c.
  apply lower_char_not_upper.
Qed.

Lemma is_ascii_lower (s : pystr) : is_ascii (ascii_lower s) = is_ascii s.
Proof.
  unfold is_ascii, ascii_lower. induction s as [|c s IH]; simpl; [reflexivity|].
  rewrite is_ascii_lower_char, IH. reflexivity.
Qed.

(** Stripping and collapsing look at whitespace only, which lower-casing
    neither makes nor removes. *)
Lemma lstrip_lower (s : pystr) : lstrip (ascii_lower s) = ascii_lower (lstrip s).
Proof.
  induction s as [|c s IH]; simpl; [reflexivity|].
  rewrite isspace_lower. destruct (isspace c); [exact IH | reflexivity].
Qed.

Lemma rstrip_lower (s : pystr) : rstrip (ascii_lower s) = ascii_lower (rstrip s).
Proof.
  induction s as [|c s IH]; simpl; [reflexivity|].
  fold (ascii_lower s). rewrite IH, isspace_lower.
  destruct (rstrip s); simpl; [destruct (isspace c)|]; reflexivity.
Qed.

Lemma sub_spaces_from_lower (b : bool) (s : pystr) :
  sub_spaces_from b (ascii_lower s) = ascii_lower (sub_spaces_from b s).
Proof.
  revert b. induction s as [|c s IH]; intros b; simpl; [reflexivity|].
  fold (ascii_lower s). rewrite isspace_lower.
  destruct (isspace c); [destruct b|]; simpl; rewrite IH; reflexivity.
Qed.

Lemma normal_lower (s : pystr) :
  sub_spaces (strip (ascii_lower s)) = ascii_lower (sub_spaces (strip s)).
Proof.
  unfold sub_spaces, strip.
  rewrite lstrip_lower, rstrip_lower, sub_spaces_from_lower. reflexivity.
Qed.

(** Collapsing is idempotent. *)
Lemma sub_spaces_from_idem (b : bool) (s : pystr) :
  sub_spaces_from b (sub_spaces_from b s) = sub_spaces_from b s.
Proof.
  revert b. induction s as [|c s IH]; intros b; simpl; [reflexivity|].
  destruct (isspace c) eqn:Hc.
  - destruct b; [apply IH|]. simpl. rewrite IH. reflexivity.
  - simpl. rewrite Hc, IH. reflexivity.
Qed.

Lemma head_ok_lstrip_id (s : pystr) : head_ok s -> lstrip s = s.
Proof. destruct s as [|c s]; simpl; [reflexivity|]. intros ->. reflexivity. Qed.

Lemma lstrip_head_ok (s : pystr) : head_ok (lstrip s).
Proof.
  induction s as [|c s IH]; simpl; [exact I|].
  destruct (isspace c) eqn:Hc; [exact IH | exact Hc].
Qed.

Lemma rstrip_head_ok (s : pystr) : head_ok s -> head_ok (rstrip s).
Proof.
  destruct s as [|c s]; simpl; [auto|]. intros Hc.
  destruct (rstrip s); [rewrite Hc|]; exact Hc.
Qed.

Lemma sub_spaces_from_head_ok (b : bool) (s : pystr) :
  head_ok s -> head_ok (sub_spaces_from b s).
Proof. destruct s as [|c s]; simpl; [auto|]. intros Hc. rewrite Hc. exact Hc. Qed.

Lemma rstrip_idem (s : pystr) : rstrip (rstrip s) = rstrip s.
Proof.
  induction s as [|c s IH]; simpl; [reflexivity|].
  destruct (rstrip s) as [|x r] eqn:E.
  - destruct (isspace c) eqn:Hc; simpl; [reflexivity|]. rewrite Hc. reflexivity.
  - change (rstrip (c :: x :: r)) with
      (match rstrip (x :: r) with
       | [] => if isspace c then [] else [c]
       | r' => c :: r'
       end).
    rewrite IH. reflexivity.
Qed.

(** If collapsing leaves nothing, stripping leaves nothing. *)
Lemma sub_spaces_from_nil (b : bool) (s : pystr) :
  sub_spaces_from b s = [] -> rstrip s = [].
Proof.
  revert b. induction s as [|c s IH]; intros b; simpl; [reflexivity|].
  destruct (isspace c); [|discriminate].
  destruct b; [|discriminate]. intros E. rewrite (IH true E). reflexivity.
Qed.

Lemma isspace_32 : isspace 32 = true.
Proof. reflexivity. Qed.

(** Collapsing a string with no trailing whitespace leaves none. *)
Lemma sub_spaces_from_rstrip (b : bool) (s : pystr) :
  rstrip s = s -> rstrip (sub_spaces_from b s) = sub_spaces_from b s.
Proof.
  revert b. induction s as [|c s IH]; intros b; [reflexivity|].
  intros E.
  assert (Hs : rstrip s = s /\ (s = [] -> isspace c = false)).
  { simpl in E. destruct (rstrip s) as [|x r] eqn:Er.
    - destruct (isspace c); [discriminate|]. injection E as <-. auto.
    - injection E as <-. split; [reflexivity | discriminate]. }
  destruct Hs as [Hs Hc].
  assert (Hcons : forall x b', (s = [] -> isspace x = false) ->
            rstrip (x :: sub_spaces_from b' s) = x :: sub_spaces_from b' s).
  { intros x b' Hx. simpl. rewrite (IH b' Hs).
    destruct (sub_spaces_from b' s) eqn:Es; [|reflexivity].
    apply sub_spaces_from_nil in Es. rewrite Hs in Es.
    rewrite (Hx Es). reflexivity. }
  simpl. destruct (isspace c) eqn:Ec.
  - destruct s as [|y s']; [specialize (Hc eq_refl); discriminate|].
    destruct b; [apply (IH true Hs)|].
    apply Hcons. discriminate.
  - apply Hcons. intros _. exact Ec.
Qed.

(** The whitespace normal form: once stripped and collapsed, a string is
    left as it is by both. *)
Lemma normal_idem (s : pystr) :
  sub_spaces (strip (sub_spaces (strip s))) = sub_spaces (strip s).
Proof.
  unfold sub_spaces, strip.
  set (t := rstrip (lstrip s)).
  assert (Hh : head_ok t) by apply rstrip_head_ok, lstrip_head_ok.
  assert (Hr : rstrip t = t) by apply rstrip_idem.
  rewrite (head_ok_lstrip_id (sub_spaces_from false t))
    by apply sub_spaces_from_head_ok, Hh.
  rewrite (sub_spaces_from_rstrip false t Hr).
  apply sub_spaces_from_idem.
Qed.

(** Strings without whitespace are already in normal form. *)
Lemma no_space_strip (s : pystr) :
  Forall (fun c => isspace c = false) s -> strip s = s.
Proof.
  intros H. unfold strip.
  rewrite head_ok_lstrip_id by (destruct H; simpl; auto).
  induction H as [|c s Hc _ IH]; simpl; [reflexivity|].
  rewrite IH, Hc. destruct s; reflexivity.
Qed.

Lemma no_space_sub_spaces (b : bool) (s : pystr) :
  Forall (fun c => isspace c = false) s -> sub_spaces_from b s = s.
Proof.
  intros H. revert b. induction H as [|c s Hc _ IH]; intros b; simpl;
    [reflexivity|].
  rewrite Hc, IH. reflexivity.
Qed.

(** Stripping and collapsing keep ASCII text ASCII. *)
Lemma is_ascii_lstrip (s : pystr) : is_ascii s = true -> is_ascii (lstrip s) = true.
Proof.
  unfold is_ascii. induction s as [|c s IH]; simpl; [auto|].
  intros H. apply andb_true_iff in H as [Hc Hs].
  destruct (isspace c); [auto|]. simpl. rewrite Hc, Hs. reflexivity.
Qed.

Lemma is_ascii_rstrip (s : pystr) : is_ascii s = true -> is_ascii (rstrip s) = true.
Proof.
  unfold is_ascii. induction s as [|c s IH]; simpl; [auto|].
  intros H. apply andb_true_iff in H as [Hc Hs]. specialize (IH Hs).
  destruct (rstrip s); simpl in *.
  - destruct (isspace c); simpl; [reflexivity|]. rewrite Hc. reflexivity.
  - rewrite Hc. exact IH.
Qed.

Lemma is_ascii_sub_spaces (b : bool) (s : pystr) :
  is_ascii s = true -> is_ascii (sub_spaces_from b s) = true.
Proof.
  unfold is_ascii. revert b. induction s as [|c s IH]; intros b; simpl; [auto|].
  intros H. apply andb_true_iff in H as [Hc Hs].
  destruct (isspace c); [destruct b|]; simpl; rewrite ?Hc; simpl; auto.
Qed.

Section transliteration.

Variable table : N -> pystr.

Lemma unidecode_ascii (s : pystr) : is_ascii s = true -> unidecode table s = s.
Proof.
  unfold is_ascii, unidecode. induction s as [|c s IH]; simpl; [reflexivity|].
  intros H. apply andb_true_iff in H as [Hc Hs].
  rewrite Hc, (IH Hs). reflexivity.
Qed.

Hypothesis table_ascii : forall c, is_ascii (table c) = true.

Lemma unidecode_is_ascii (s : pystr) : is_ascii (unidecode table s) = true.
Proof.
  unfold is_ascii, unidecode. induction s as [|c s IH]; simpl; [reflexivity|].
  rewrite forallb_app, IH, andb_true_r.
  destruct (is_ascii_char c) eqn:Hc; simpl.
  - rewrite Hc. reflexivity.
  - apply table_ascii.
Qed.

End transliteration.

End pystring_properties.

(* ===================================================================== *)
(** * Properties of [cleanup_and_check_raw_value] and [basic_parse] *)
(* ===================================================================== *)

Section cleanup_properties.

Import FieldDescriptor.

Variable lower : pystr -> pystr.
Variable table : N -> pystr.

(** On ASCII text [str.lower] changes the letters A to Z only. *)
Hypothesis lower_ascii :
  forall s, pystring.is_ascii s = true -> lower s = pystring.ascii_lower s.

Lemma checks_inv o r r' : checks o r = Ok r' -> r' = r.
Proof.
  unfold checks. destruct (negb (length r <=? 100)%nat); [discriminate|].
  match goal with
  | |- rbind ?x _ = _ -> _ => destruct x; simpl; [|discriminate]
  end.
  congruence.
Qed.

Lemma cleanup_str h self o m s :
  describes h self o m -> m !! str "retaincase" = None ->
  cleanup_and_check_raw_value lower table h self (VStr s) =
  checks o (lower (pystring.unidecode table
                     (pystring.sub_spaces (pystring.strip s)))).
Proof.
  intros Hd Hr. unfold cleanup_and_check_raw_value.
  rewrite (describes_has_tag h self o m _ Hd), (has_false _ _ Hr). simpl.
  unfold checks, get_object. rewrite (proj1 Hd). simpl. reflexivity.
Qed.

Lemma cleanup_inv h self o m v r :
  describes h self o m -> m !! str "retaincase" = None ->
  cleanup_and_check_raw_value lower table h self v = Ok r ->
  exists s,
    (v = VStr s \/ (v = VNone /\ s = [])) /\
    r = lower (pystring.unidecode table
                 (pystring.sub_spaces (pystring.strip s))) /\
    checks o r = Ok r.
Proof.
  intros Hd Hr E.
  assert (Hs : forall s,
            cleanup_and_check_raw_value lower table h self (VStr s) = Ok r ->
            r = lower (pystring.unidecode table
                         (pystring.sub_spaces (pystring.strip s))) /\
            checks o r = Ok r).
  { intros s Es. rewrite (cleanup_str h self o m s Hd Hr) in Es.
    pose proof (checks_inv _ _ _ Es) as ->. auto. }
  destruct v as [|s|z|f|]; try discriminate E.
  - exists []. split; [right; auto|]. apply (Hs [] E).
  - exists s. split; [left; auto|]. apply (Hs s E).
Qed.

(** A returned text in whitespace normal form that is ASCII and has no
    capital is returned again. *)
Lemma cleanup_fixed h self o m r :
  describes h self o m -> m !! str "retaincase" = None ->
  pystring.is_ascii r = true -> pystring.ascii_lower r = r ->
  pystring.sub_spaces (pystring.strip r) = r ->
  checks o r = Ok r ->
  cleanup_and_check_raw_value lower table h self (VStr r) = Ok r.
Proof.
  intros Hd Hr Ha Hl Hn Hc. rewrite (cleanup_str h self o m r Hd Hr).
  rewrite Hn, (unidecode_ascii table r Ha), (lower_ascii r Ha), Hl. exact Hc.
Qed.

End cleanup_properties.

(** C8 (amended).  For a descriptor without the [retaincase] tag, what
    [cleanup_and_check_raw_value] returns is fully lower-cased, and
    applying it to a returned string gives that string back whenever the
    string has no leading or trailing whitespace and no whitespace other
    than single spaces; that is so for every ASCII input and for the
    absent value. *)
Theorem C8_cleanup_lower_cased_and_stable
    (lower : pystr -> pystr) (table : N -> pystr)
    (h : FieldDescriptor.heap) (self : FieldDescriptor.loc)
    (o : FieldDescriptor.object) (m : gmap pystr (list pystr))
    (v : value) (r : pystr) :
  (forall s, pystring.is_ascii s = true -> lower s = pystring.ascii_lower s) ->
  (forall c, pystring.is_ascii (table c) = true) ->
  FieldDescriptor.describes h self o m ->
  m !! str "retaincase" = None ->
  FieldDescriptor.cleanup_and_check_raw_value lower table h self v = Ok r ->
  lower r = r /\
  Forall (fun c => pystring.is_upper c = false) r /\
  (pystring.sub_spaces (pystring.strip r) = r ->
   FieldDescriptor.cleanup_and_check_raw_value lower table h self (VStr r)
   = Ok r) /\
  (v = VNone \/ (exists s, v = VStr s /\ pystring.is_ascii s = true) ->
   FieldDescriptor.cleanup_and_check_raw_value lower table h self (VStr r)
   = Ok r).
Proof.
  intros Hlower Htable Hd Hr E.
  destruct (cleanup_inv lower table h self o m v r Hd Hr E)
    as (s & Hv & Hnorm & Hchecks).
  set (u := pystring.unidecode table
              (pystring.sub_spaces (pystring.strip s))) in *.
  assert (Hu : pystring.is_ascii u = true)
    by apply (unidecode_is_ascii table Htable).
  rewrite (Hlower u Hu) in Hnorm.
  assert (Ha : pystring.is_ascii r = true)
    by (rewrite Hnorm, is_ascii_lower; exact Hu).
  assert (Hl : pystring.ascii_lower r = r)
    by (rewrite Hnorm; apply ascii_lower_idem).
  assert (Hfix : pystring.sub_spaces (pystring.strip r) = r ->
            FieldDescriptor.cleanup_and_check_raw_value lower table h self
              (VStr r) = Ok r).
  { intros Hn. apply (cleanup_fixed lower table Hlower h self o m r); auto. }
  split; [|split; [|split]].
  - rewrite (Hlower r Ha). exact Hl.
  - rewrite Hnorm. apply ascii_lower_not_upper.
  - exact Hfix.
  - intros Hin. apply Hfix.
    assert (Hs : pystring.is_ascii s = true).
    { destruct Hin as [->|(s' & -> & Hs')].
      - destruct Hv as [Hv|[_ ->]]; [discriminate Hv | reflexivity].
      - destruct Hv as [Hv|[Hv _]]; [|discriminate Hv].
        injection Hv as <-. exact Hs'. }
    assert (Hx : u = pystring.sub_spaces (pystring.strip s)).
    { apply unidecode_ascii. unfold pystring.sub_spaces, pystring.strip.
      apply is_ascii_sub_spaces, is_ascii_rstrip, is_ascii_lstrip, Hs. }
    rewrite Hnorm, Hx, normal_lower, normal_idem. reflexivity.
Qed.

Lemma unidecode_excerpt_ascii (c : N) :
  pystring.is_ascii (unidecode_excerpt c) = true.
Proof.
  unfold unidecode_excerpt.
  destruct (c =? 21271)%N; [reflexivity|].
  destruct (c =? 20144)%N; reflexivity.
Qed.

Lemma C8_cleanup_lower_cased_and_stable_witness :
  FieldDescriptor.cleanup_and_check_raw_value pystring.ascii_lower
    unidecode_excerpt (one_descriptor (str "A") ∅) 0%nat
    (VStr (str "zone one"))
  = Ok (str "zone one").
Proof.
  destruct (C8_cleanup_lower_cased_and_stable pystring.ascii_lower
              unidecode_excerpt (one_descriptor (str "A") ∅) 0%nat
              (FieldDescriptor.mk (str "A") None 0%nat None) ∅
              (VStr (str "  Zone   ONE ")) (str "zone one"))
    as (_ & _ & H & _).
  - intros s _. reflexivity.
  - exact unidecode_excerpt_ascii.
  - split; vm_compute; reflexivity.
  - reflexivity.
  - vm_compute. reflexivity.
  - apply H. vm_compute. reflexivity.
Defined.

(** C8, as stated, fails: transliteration runs after the whitespace was
    stripped and collapsed and may end in a space itself, which a second
    application strips. *)
Lemma C8_transliteration_breaks_idempotence :
  FieldDescriptor.has_tag (one_descriptor (str "A") ∅) 0%nat (str "retaincase")
  = Ok false /\
  FieldDescriptor.cleanup_and_check_raw_value pystring.ascii_lower
    unidecode_excerpt (one_descriptor (str "A") ∅) 0%nat
    (VStr [21271; 20144]%N)
  = Ok (str "bei jing ") /\
  FieldDescriptor.cleanup_and_check_raw_value pystring.ascii_lower
    unidecode_excerpt (one_descriptor (str "A") ∅) 0%nat
    (VStr (str "bei jing "))
  = Ok (str "bei jing").
Proof. repeat split; vm_compute; reflexivity. Qed.

Section sentinel_properties.

Import FieldDescriptor.

(** A string that lower-cases to a word of letters is made of letters. *)
Lemma letters_of_lower (s t : pystr) :
  pystring.ascii_lower s = t -> forallb pystring.is_letter t = true ->
  Forall (fun c => pystring.is_letter c = true) s.
Proof.
  intros <-. induction s as [|c s IH]; simpl; [constructor|].
  intros H. apply andb_true_iff in H as [Hc Hs].
  constructor; [apply lower_char_letter, Hc | apply IH, Hs].
Qed.

Lemma letters_no_space (s : pystr) :
  Forall (fun c => pystring.is_letter c = true) s ->
  Forall (fun c => pystring.isspace c = false) s.
Proof.
  intros H. eapply Forall_impl; [exact H|]. intros c. apply letter_not_space.
Qed.

Lemma letters_ascii (s : pystr) :
  Forall (fun c => pystring.is_letter c = true) s -> pystring.is_ascii s = true.
Proof.
  unfold pystring.is_ascii. induction 1 as [|c s Hc _ IH]; simpl; [reflexivity|].
  rewrite (letter_is_ascii c Hc), IH. reflexivity.
Qed.

(** [to_num] and the checks on the two sentinels. *)
Lemma sentinel_checks (o : object) (t : pystr) :
  t = str "autocalculate" \/ t = str "autosize" ->
  to_num (VStr t) = Ok (VStr t) /\ checks o t = Ok t.
Proof.
  intros [-> | ->]; (split; [reflexivity|]); unfold checks;
    destruct (pystr_eqb (basic_type o) (str "N")); reflexivity.
Qed.

End sentinel_properties.

(** C2 (amended).  For a numeric descriptor without the [retaincase] tag
    and a string that spells [autocalculate] or [autosize] in any letter
    case, [cleanup_and_check_raw_value] succeeds and returns the
    lower-cased token, and [basic_parse] of that token returns the token
    itself, a string and no number. *)
Theorem C2_sentinels_pass_through
    (lower : pystr -> pystr) (table : N -> pystr)
    (h : FieldDescriptor.heap) (self : FieldDescriptor.loc)
    (o : FieldDescriptor.object) (m : gmap pystr (list pystr)) (s : pystr) :
  (forall x, pystring.is_ascii x = true -> lower x = pystring.ascii_lower x) ->
  FieldDescriptor.describes h self o m ->
  FieldDescriptor.basic_type o = str "N" ->
  m !! str "retaincase" = None ->
  pystring.ascii_lower s = str "autocalculate" \/
  pystring.ascii_lower s = str "autosize" ->
  FieldDescriptor.cleanup_and_check_raw_value lower table h self (VStr s)
  = Ok (pystring.ascii_lower s) /\
  FieldDescriptor.basic_parse h self (VStr (pystring.ascii_lower s))
  = Ok (VStr (pystring.ascii_lower s)).
Proof.
  intros Hlower Hd Hn Hr Hs.
  assert (Hletters : Forall (fun c => pystring.is_letter c = true) s).
  { destruct Hs as [E|E]; apply (letters_of_lower s _ E); reflexivity. }
  pose proof (letters_no_space s Hletters) as Hsp.
  pose proof (letters_ascii s Hletters) as Ha.
  destruct (sentinel_checks o _ Hs) as [Hnum Hchecks].
  split.
  - rewrite (cleanup_str lower table h self o m s Hd Hr).
    rewrite (no_space_strip s Hsp). unfold pystring.sub_spaces.
    rewrite (no_space_sub_spaces false s Hsp), (unidecode_ascii table s Ha),
      (Hlower s Ha).
    exact Hchecks.
  - assert (Hne : pystring.ascii_lower s <> []).
    { destruct Hs as [-> | ->]; discriminate. }
    unfold FieldDescriptor.basic_parse, FieldDescriptor.get_object.
    rewrite (bool_decide_eq_false_2 (VStr (pystring.ascii_lower s) = VNone))
      by discriminate.
    rewrite (bool_decide_eq_false_2 (VStr (pystring.ascii_lower s) = VStr []))
      by congruence.
    rewrite (proj1 Hd). simpl. rewrite Hn. simpl. exact Hnum.
Qed.

Lemma C2_sentinels_pass_through_witness :
  FieldDescriptor.cleanup_and_check_raw_value pystring.ascii_lower
    unidecode_excerpt (one_descriptor (str "N") ∅) 0%nat
    (VStr (str "AutoSize"))
  = Ok (pystring.ascii_lower (str "AutoSize")) /\
  FieldDescriptor.basic_parse (one_descriptor (str "N") ∅) 0%nat
    (VStr (pystring.ascii_lower (str "AutoSize")))
  = Ok (VStr (pystring.ascii_lower (str "AutoSize"))).
Proof.
  apply (C2_sentinels_pass_through pystring.ascii_lower unidecode_excerpt
           (one_descriptor (str "N") ∅) 0%nat
           (FieldDescriptor.mk (str "N") None 0%nat None) ∅ (str "AutoSize")).
  - intros x _. reflexivity.
  - split; vm_compute; reflexivity.
  - reflexivity.
  - reflexivity.
  - right. vm_compute. reflexivity.
Defined.

(** C2, as stated, fails on a numeric descriptor that carries the
    [retaincase] tag: the text is not lower-cased, is not one of the two
    tokens and is not a number. *)
Lemma C2_retaincase_numeric_rejects_capitals :
  exists self h0 h1,
    FieldDescriptor.__init__ FieldDescriptor.empty_heap (str "N") None
      = Ok (self, h0) /\
    FieldDescriptor.add_tag h0 self (str "retaincase") None = Ok h1 /\
    pystring.ascii_lower (str "AUTOSIZE") = str "autosize" /\
    FieldDescriptor.cleanup_and_check_raw_value pystring.ascii_lower
      unidecode_excerpt h1 self (VStr (str "AUTOSIZE"))
    = Raise ValueError.
Proof. do 3 eexists. repeat split; vm_compute; reflexivity. Qed.

(* ===================================================================== *)
(** * Further properties of [EPlusDt] *)
(* ===================================================================== *)

(** X1.  A timestamp returned by [to_datetime] is a valid one of the year
    that was passed, whatever the addition of the hour did; its minute is
    the minute passed, or 0 for minute 60. *)
Theorem to_datetime_keeps_year (y m d h mi : Z) (t : dt.datetime) :
  EPlusDt.to_datetime y m d h mi = Ok t ->
  dt.year t = y /\ dt.valid t /\
  dt.minute t = (if mi =? 60 then 0 else mi).
Proof.
  unfold EPlusDt.to_datetime.
  destruct (Z.eqb mi 60) eqn:Emi.
  - destruct (dt.new y m d (h - 1) 0) as [d0|e0] eqn:E0; simpl;
      [|destruct e0; simpl; try discriminate;
        destruct ((m =? 2) && (d =? 29)); discriminate].
    apply new_inv in E0 as (-> & _).
    destruct (dt.add_hours _ 1) as [d1|e1] eqn:E1; simpl;
      [|destruct e1; simpl; try discriminate;
        destruct ((m =? 2) && (d =? 29)); discriminate].
    assert (Hmin : dt.minute d1 = 0).
    { rewrite add_hours_1 in E1. unfold dt.next_hour in E1. simpl in E1.
      repeat match type of E1 with
             | (if ?c then _ else _) = _ => destruct c
             end; try discriminate E1; injection E1 as <-; reflexivity. }
    destruct (dt.replace_year d1 y) as [d2|e2] eqn:E2; simpl;
      [|destruct e2; simpl; try discriminate;
        destruct ((m =? 2) && (d =? 29)); discriminate].
    unfold dt.replace_year in E2. pose proof E2 as E2'.
    apply new_inv in E2 as (-> & Hr). simpl.
    unfold dt.replace_year. simpl. rewrite E2'. simpl.
    intros E. injection E as <-. simpl.
    split; [reflexivity|]. split; [exact E2' | exact Hmin].
  - destruct (dt.new y m d (h - 1) mi) as [d0|e0] eqn:E0; simpl;
      [|destruct e0; simpl; try discriminate;
        destruct ((m =? 2) && (d =? 29)); discriminate].
    pose proof E0 as E0'. apply new_inv in E0 as (-> & _).
    unfold dt.replace_year. simpl. rewrite E0'. simpl. rewrite E0'. simpl.
    intros E. injection E as <-. simpl.
    split; [reflexivity|]. split; [exact E0' | reflexivity].
Qed.

Lemma to_datetime_keeps_year_witness :
  dt.year (dt.mk_datetime 2019 1 1 0 0) = 2019 /\
  dt.valid (dt.mk_datetime 2019 1 1 0 0) /\
  dt.minute (dt.mk_datetime 2019 1 1 0 0) = (if 60 =? 60 then 0 else 60).
Proof.
  apply (to_datetime_keeps_year 2019 12 31 24 60). reflexivity.
Defined.

(** X2.  For 29 February [to_datetime] never raises [ValueError]: whatever
    the calendar functions reject, a wrong hour in a leap year as well, is
    raised as [RuntimeError].  For any other month and day it never raises
    [RuntimeError]. *)
Theorem to_datetime_error_classes (y m d h mi : Z) :
  (m = 2 -> d = 29 -> EPlusDt.to_datetime y m d h mi <> Raise ValueError) /\
  (~ (m = 2 /\ d = 29) -> EPlusDt.to_datetime y m d h mi <> Raise RuntimeError) /\
  EPlusDt.to_datetime 2020 2 29 0 30 = Raise RuntimeError.
Proof.
  assert (Hnew : forall a b c e f x, dt.new a b c e f = Raise x -> x = ValueError).
  { intros a b c e f x. unfold dt.new.
    destruct (_ && _); [discriminate|]. congruence. }
  assert (Hadd : forall t k x, dt.add_hours t k = Raise x ->
                 (k = 0 \/ k = 1) -> x = OverflowError).
  { intros t k x E [-> | ->].
    - discriminate E.
    - rewrite add_hours_1 in E. unfold dt.next_hour in E.
      repeat match type of E with
             | (if ?c then _ else _) = _ => destruct c
             end; try discriminate E. congruence. }
  unfold EPlusDt.to_datetime.
  set (p := if mi =? 60 then (0, 1) else (mi, 0)).
  assert (Hp : p.2 = 0 \/ p.2 = 1) by (subst p; destruct (mi =? 60); auto).
  destruct p as [minute hour_cor]. simpl in Hp.
  split; [|split; [|reflexivity]].
  - intros -> ->. simpl.
    destruct (dt.new y 2 29 (h - 1) minute) as [d0|e0] eqn:E0; simpl.
    + destruct (dt.add_hours d0 hour_cor) as [d1|e1] eqn:E1; simpl.
      * destruct (dt.replace_year d1 y) as [d2|e2] eqn:E2; simpl.
        -- destruct (dt.replace_year d2 y) as [d3|e3] eqn:E3; simpl;
             [discriminate|].
           apply Hnew in E3 as ->. simpl. discriminate.
        -- apply Hnew in E2 as ->. simpl. discriminate.
      * apply (Hadd _ _ _ E1) in Hp as ->. simpl. discriminate.
    + apply Hnew in E0 as ->. simpl. discriminate.
  - intros Hne.
    assert (Hb : (m =? 2) && (d =? 29) = false).
    { destruct (Z.eqb_spec m 2), (Z.eqb_spec d 29); simpl; auto.
      exfalso. apply Hne. auto. }
    destruct (dt.new y m d (h - 1) minute) as [d0|e0] eqn:E0; simpl.
    + destruct (dt.add_hours d0 hour_cor) as [d1|e1] eqn:E1; simpl.
      * destruct (dt.replace_year d1 y) as [d2|e2] eqn:E2; simpl.
        -- destruct (dt.replace_year d2 y) as [d3|e3] eqn:E3; simpl;
             [discriminate|].
           apply Hnew in E3 as ->. simpl. rewrite Hb. discriminate.
        -- apply Hnew in E2 as ->. simpl. rewrite Hb. discriminate.
      * apply (Hadd _ _ _ E1) in Hp as ->. simpl. discriminate.
    + apply Hnew in E0 as ->. simpl. rewrite Hb. discriminate.
Qed.

Lemma to_datetime_error_classes_witness :
  EPlusDt.to_datetime 2019 1 1 0 30 <> Raise RuntimeError.
Proof.
  apply (to_datetime_error_classes 2019 1 1 0 30). lia.
Defined.

(** The stored tuple is computed from the reference timestamp alone. *)
Lemma init_value_from_standard_dt (m d h mi : Z) (c : EPlusDt.t) :
  EPlusDt.__init__ m d h mi = Ok c ->
  let s := EPlusDt.standard_dt c in
  if dt.minute s =? 0
  then exists p, dt.sub_hours s 1 = Ok p /\
                 EPlusDt._value c = (dt.month p, dt.day p, dt.hour p + 1, 60)
  else EPlusDt._value c = (dt.month s, dt.day s, dt.hour s + 1, dt.minute s).
Proof.
  unfold EPlusDt.__init__.
  destruct (EPlusDt.to_datetime 2000 m d h mi) as [s|e]; simpl; [|discriminate].
  destruct (dt.minute s =? 0) eqn:E0; simpl.
  - destruct (dt.sub_hours s 1) as [p|e] eqn:Ep; simpl; [|discriminate].
    intros E. injection E as <-. simpl. rewrite E0. eauto.
  - intros E. injection E as <-. simpl. rewrite E0. reflexivity.
Qed.

(** X3.  Two instances built from months, days, hours 1..24 and minutes
    1..60 are equal ([==]) exactly when they were built from the same four
    components. *)
Theorem eq_iff_same_components
    (m1 d1 h1 mi1 m2 d2 h2 mi2 : Z) (a b : EPlusDt.t) :
  1 <= m1 <= 12 -> 1 <= d1 <= dt.days_in_month 2000 m1 ->
  1 <= h1 <= 24 -> 1 <= mi1 <= 60 ->
  1 <= m2 <= 12 -> 1 <= d2 <= dt.days_in_month 2000 m2 ->
  1 <= h2 <= 24 -> 1 <= mi2 <= 60 ->
  EPlusDt.__init__ m1 d1 h1 mi1 = Ok a ->
  EPlusDt.__init__ m2 d2 h2 mi2 = Ok b ->
  (EPlusDt.__eq__ a b = true <-> (m1, d1, h1, mi1) = (m2, d2, h2, mi2)) /\
  (EPlusDt.__ne__ a b = true <-> (m1, d1, h1, mi1) <> (m2, d2, h2, mi2)).
Proof.
  intros Hm1 Hd1 Hh1 Hmi1 Hm2 Hd2 Hh2 Hmi2 Ha Hb.
  destruct (init_value m1 d1 h1 mi1 Hm1 Hd1 Hh1 Hmi1) as (a' & Ea & Va).
  destruct (init_value m2 d2 h2 mi2 Hm2 Hd2 Hh2 Hmi2) as (b' & Eb & Vb).
  rewrite Ha in Ea. injection Ea as <-.
  rewrite Hb in Eb. injection Eb as <-.
  assert (Heq : EPlusDt.__eq__ a b = true <->
                (m1, d1, h1, mi1) = (m2, d2, h2, mi2)).
  { unfold EPlusDt.__eq__, dt.eq. split.
    - intros E.
      assert (Hs : EPlusDt.standard_dt a = EPlusDt.standard_dt b).
      { apply cmp_eq_iff. destruct (dt.cmp _ _); congruence. }
      pose proof (init_value_from_standard_dt _ _ _ _ _ Ha) as Fa.
      pose proof (init_value_from_standard_dt _ _ _ _ _ Hb) as Fb.
      cbv zeta in Fa, Fb. rewrite Hs in Fa.
      destruct (dt.minute (EPlusDt.standard_dt b) =? 0).
      + destruct Fa as (p & Ep & Fa), Fb as (q & Eq' & Fb).
        rewrite Ep in Eq'. injection Eq' as <-. congruence.
      + congruence.
    - intros E. injection E as -> -> -> ->.
      rewrite Ha in Hb. injection Hb as <-.
      assert (C : dt.cmp (EPlusDt.standard_dt a) (EPlusDt.standard_dt a) = Eq)
        by (apply cmp_eq_iff; reflexivity).
      rewrite C. reflexivity. }
  split; [exact Heq|].
  unfold EPlusDt.__ne__, dt.ne. fold (EPlusDt.__eq__ a b).
  rewrite <- Heq. destruct (EPlusDt.__eq__ a b); simpl; split;
    congruence.
Qed.

Lemma eq_iff_same_components_witness :
  EPlusDt.__eq__
    (EPlusDt.mk (dt.mk_datetime 2000 1 1 0 0) (12, 31, 24, 60))
    (EPlusDt.mk (dt.mk_datetime 2000 1 1 0 1) (1, 1, 1, 1)) = true
  <-> (12, 31, 24, 60) = (1, 1, 1, 1).
Proof.
  apply (eq_iff_same_components 12 31 24 60 1 1 1 1);
    vm_compute; first [reflexivity | intuition discriminate].
Defined.

(** X4.  Minute 0 is accepted and is stored as minute 60 of the hour
    before: for an hour in 2..24 the instance built with minute 0 stores
    the hour below with minute 60, and is equal to the instance built so. *)
Theorem minute_zero_is_normalised (m d h : Z) :
  1 <= m <= 12 -> 1 <= d <= dt.days_in_month 2000 m -> 2 <= h <= 24 ->
  exists a b,
    EPlusDt.__init__ m d h 0 = Ok a /\
    EPlusDt.__init__ m d (h - 1) 60 = Ok b /\
    EPlusDt._value a = (m, d, h - 1, 60) /\
    EPlusDt._value b = (m, d, h - 1, 60) /\
    EPlusDt.__eq__ a b = true.
Proof.
  intros Hm Hd Hh.
  assert (Hy : 1 <= 2000 <= 9999) by lia.
  destruct (init_value m d (h - 1) 60) as (b & Eb & Vb); try lia.
  pose proof (init_standard_dt _ _ _ _ _ Eb) as Sb.
  rewrite to_datetime_60 in Sb by lia. injection Sb as Sb.
  assert (Ea : EPlusDt.__init__ m d h 0
               = Ok (EPlusDt.mk (dt.mk_datetime 2000 m d (h - 1) 0)
                                (m, d, h - 1, 60))).
  { unfold EPlusDt.__init__. rewrite to_datetime_plain by lia. simpl.
    rewrite sub_hours_1. unfold dt.prev_hour. simpl.
    destruct (Z.ltb_spec 0 (h - 1)); [|lia]. simpl.
    repeat f_equal; lia. }
  eexists _, b. split; [exact Ea|]. split; [exact Eb|].
  split; [reflexivity|]. split; [exact Vb|].
  unfold EPlusDt.__eq__, dt.eq, EPlusDt.standard_dt at 1. simpl.
  rewrite <- Sb.
  assert (C : dt.cmp (dt.mk_datetime 2000 m d (h - 1) 0)
                     (dt.mk_datetime 2000 m d (h - 1) 0) = Eq)
    by (apply cmp_eq_iff; reflexivity).
  rewrite C. reflexivity.
Qed.

Lemma minute_zero_is_normalised_witness :
  exists a b,
    EPlusDt.__init__ 7 14 5 0 = Ok a /\
    EPlusDt.__init__ 7 14 (5 - 1) 60 = Ok b /\
    EPlusDt._value a = (7, 14, 5 - 1, 60) /\
    EPlusDt._value b = (7, 14, 5 - 1, 60) /\
    EPlusDt.__eq__ a b = true.
Proof.
  apply (minute_zero_is_normalised 7 14 5); vm_compute;
    intuition discriminate.
Defined.

(** X5.  Reprojected onto the reference year 2000, an instance built from
    valid components gives its own standard timestamp. *)
Theorem datetime_2000_is_standard_dt (m d h mi : Z) (c : EPlusDt.t) :
  1 <= m <= 12 -> 1 <= d <= dt.days_in_month 2000 m ->
  1 <= h <= 24 -> 1 <= mi <= 60 ->
  EPlusDt.__init__ m d h mi = Ok c ->
  EPlusDt.datetime c 2000 = Ok (EPlusDt.standard_dt c).
Proof.
  intros Hm Hd Hh Hmi Hc.
  destruct (init_value m d h mi Hm Hd Hh Hmi) as (c' & Ec & Vc).
  rewrite Hc in Ec. injection Ec as <-.
  unfold EPlusDt.datetime. rewrite Vc. simpl.
  apply init_standard_dt, Hc.
Qed.

Lemma datetime_2000_is_standard_dt_witness :
  EPlusDt.datetime (EPlusDt.mk (dt.mk_datetime 2000 3 1 0 0) (2, 29, 24, 60)) 2000
  = Ok (dt.mk_datetime 2000 3 1 0 0).
Proof.
  apply (datetime_2000_is_standard_dt 2 29 24 60); vm_compute;
    first [reflexivity | intuition discriminate].
Defined.

Lemma tuple4_inv (a b c d a' b' c' d' : Z) :
  (a, b, c, d) = (a', b', c', d') -> a = a' /\ b = b' /\ c = c' /\ d = d'.
Proof. intros E. injection E as -> -> -> ->. auto. Qed.



Lemma lt_iff (a b : dt.datetime) :
  dt.lt a b = true <->
  dt.year a < dt.year b \/ (dt.year a = dt.year b /\
  (dt.month a < dt.month b \/ (dt.month a = dt.month b /\
  (dt.day a < dt.day b \/ (dt.day a = dt.day b /\
  (dt.hour a < dt.hour b \/ (dt.hour a = dt.hour b /\
   dt.minute a < dt.minute b))))))).
Proof.
  unfold dt.lt, dt.cmp.
  destruct (Z.compare_spec (dt.year a) (dt.year b)); simpl;
    [|split; [intros _; lia | reflexivity] | split; [discriminate | lia]].
  destruct (Z.compare_spec (dt.month a) (dt.month b)); simpl;
    [|split; [intros _; lia | reflexivity] | split; [discriminate | lia]].
  destruct (Z.compare_spec (dt.day a) (dt.day b)); simpl;
    [|split; [intros _; lia | reflexivity] | split; [discriminate | lia]].
  destruct (Z.compare_spec (dt.hour a) (dt.hour b)); simpl;
    [|split; [intros _; lia | reflexivity] | split; [discriminate | lia]].
  destruct (Z.compare_spec (dt.minute a) (dt.minute b)); simpl;
    [split; [discriminate | lia]
    |split; [intros _; lia | reflexivity] | split; [discriminate | lia]].
Qed.

(** The reference timestamp of an instant other than the last of the
    year, by cases. *)
Lemma standard_dt_cases (m d h mi : Z) (c : EPlusDt.t) :
  components_ok (m, d, h, mi) ->
  ~ (m = 12 /\ d = 31 /\ h = 24 /\ mi = 60) ->
  EPlusDt.__init__ m d h mi = Ok c ->
  exists m' d' h' mi',
    EPlusDt.standard_dt c = dt.mk_datetime 2000 m' d' h' mi' /\
    ((mi < 60 /\ m' = m /\ d' = d /\ h' = h - 1 /\ mi' = mi) \/
     (mi = 60 /\ h < 24 /\ m' = m /\ d' = d /\ h' = h /\ mi' = 0) \/
     (mi = 60 /\ h = 24 /\ d < dt.days_in_month 2000 m /\
      m' = m /\ d' = d + 1 /\ h' = 0 /\ mi' = 0) \/
     (mi = 60 /\ h = 24 /\ d = dt.days_in_month 2000 m /\ m < 12 /\
      m' = m + 1 /\ d' = 1 /\ h' = 0 /\ mi' = 0)).
Proof.
  intros (Hm & Hd & Hh & Hmi) Hlast Hc.
  apply init_standard_dt in Hc.
  destruct (Z.eq_dec mi 60) as [->|Hmi60].
  - destruct (Z.eq_dec h 24) as [->|Hh24].
    + rewrite to_datetime_24_60 in Hc by lia. injection Hc as <-.
      destruct (Z.ltb_spec d (dt.days_in_month 2000 m)).
      * do 4 eexists. split; [reflexivity|]. right. right. left. lia.
      * destruct (Z.ltb_spec m 12).
        -- do 4 eexists. split; [reflexivity|]. right. right. right. lia.
        -- assert (m = 12) by lia. subst m.
           unfold dt.days_in_month in *. simpl in *. lia.
    + rewrite to_datetime_60 in Hc by lia. injection Hc as <-.
      do 4 eexists. split; [reflexivity|]. right. left. lia.
  - rewrite to_datetime_plain in Hc by lia. injection Hc as <-.
    do 4 eexists. split; [reflexivity|]. left. lia.
Qed.

Lemma lt_monotone (m1 d1 h1 mi1 m2 d2 h2 mi2 : Z) (a b : EPlusDt.t) :
  components_ok (m1, d1, h1, mi1) -> components_ok (m2, d2, h2, mi2) ->
  ~ (m1 = 12 /\ d1 = 31 /\ h1 = 24 /\ mi1 = 60) ->
  ~ (m2 = 12 /\ d2 = 31 /\ h2 = 24 /\ mi2 = 60) ->
  EPlusDt.__init__ m1 d1 h1 mi1 = Ok a ->
  EPlusDt.__init__ m2 d2 h2 mi2 = Ok b ->
  components_lt (m1, d1, h1, mi1) (m2, d2, h2, mi2) ->
  EPlusDt.__lt__ a b = true.
Proof.
  intros Ha Hb La Lb Ia Ib Hlt.
  destruct (standard_dt_cases _ _ _ _ _ Ha La Ia) as (ma & da & ha & mia & Sa & Ca).
  destruct (standard_dt_cases _ _ _ _ _ Hb Lb Ib) as (mb & db & hb & mib & Sb & Cb).
  unfold EPlusDt.__lt__. rewrite Sa, Sb. apply lt_iff. simpl.
  unfold components_ok in Ha, Hb. unfold components_lt in Hlt.
  assert (Hdim : m1 = m2 -> dt.days_in_month 2000 m1 = dt.days_in_month 2000 m2)
    by (intros ->; reflexivity).
  revert Ha Hb Hdim Ca Cb.
  generalize (dt.days_in_month 2000 m1) (dt.days_in_month 2000 m2).
  intros D1 D2 Ha Hb Hdim Ca Cb. right. split; [reflexivity|].
  destruct Ca as [Ca|[Ca|[Ca|Ca]]], Cb as [Cb|[Cb|[Cb|Cb]]]; lia.
Qed.

(** X7.  Among the instants other than the last of the year, [<] is the
    order of the components: month first, then day, hour and minute. *)
Theorem lt_is_order_of_components
    (m1 d1 h1 mi1 m2 d2 h2 mi2 : Z) (a b : EPlusDt.t) :
  components_ok (m1, d1, h1, mi1) -> components_ok (m2, d2, h2, mi2) ->
  ~ (m1 = 12 /\ d1 = 31 /\ h1 = 24 /\ mi1 = 60) ->
  ~ (m2 = 12 /\ d2 = 31 /\ h2 = 24 /\ mi2 = 60) ->
  EPlusDt.__init__ m1 d1 h1 mi1 = Ok a ->
  EPlusDt.__init__ m2 d2 h2 mi2 = Ok b ->
  (EPlusDt.__lt__ a b = true <->
   components_lt (m1, d1, h1, mi1) (m2, d2, h2, mi2)).
Proof.
  intros Ha Hb La Lb Ia Ib. split.
  - intros Hlt.
    assert (T : components_lt (m1, d1, h1, mi1) (m2, d2, h2, mi2) \/
                (m1 = m2 /\ d1 = d2 /\ h1 = h2 /\ mi1 = mi2) \/
                components_lt (m2, d2, h2, mi2) (m1, d1, h1, mi1))
      by (unfold components_lt; lia).
    destruct T as [T|[(-> & -> & -> & ->)|T]]; [exact T | |].
    + rewrite Ia in Ib. injection Ib as <-.
      unfold EPlusDt.__lt__, dt.lt in Hlt.
      assert (C : dt.cmp (EPlusDt.standard_dt a) (EPlusDt.standard_dt a) = Eq)
        by (apply cmp_eq_iff; reflexivity).
      rewrite C in Hlt. discriminate Hlt.
    + pose proof (lt_monotone _ _ _ _ _ _ _ _ b a Hb Ha Lb La Ib Ia T) as Hgt.
      unfold EPlusDt.__lt__, dt.lt in Hlt, Hgt.
      rewrite (cmp_antisym (EPlusDt.standard_dt b) (EPlusDt.standard_dt a)) in Hlt.
      destruct (dt.cmp (EPlusDt.standard_dt b) (EPlusDt.standard_dt a));
        simpl in *; discriminate.
  - apply (lt_monotone _ _ _ _ _ _ _ _ a b); assumption.
Qed.

Lemma lt_is_order_of_components_witness :
  EPlusDt.__lt__
    (EPlusDt.mk (dt.mk_datetime 2000 3 1 0 0) (2, 29, 24, 60))
    (EPlusDt.mk (dt.mk_datetime 2000 3 1 0 1) (3, 1, 1, 1)) = true
  <-> components_lt (2, 29, 24, 60) (3, 1, 1, 1).
Proof.
  apply (lt_is_order_of_components 2 29 24 60 3 1 1 1);
    vm_compute; first [reflexivity | intuition discriminate | idtac].
  all: intuition discriminate.
Defined.

(* ===================================================================== *)
(** * Further properties of [oplus/util.py] *)
(* ===================================================================== *)

(** X8.  [get_string_buffer] returns a path only for a string input that
    ends with the dot and the extension and names an existing file; the
    path is then that string and the buffer the opened file.  In every
    other successful call the path is [None]. *)
Theorem get_string_buffer_path_only_for_files
    (isfile : pystr -> bool) (encoding_t : Type)
    (decode : encoding_t -> list N -> result pystr)
    (input : util.path_or_content_t) (ext : pystr) (encoding : encoding_t)
    (buffer : util.buffer_t) (path : pystr) :
  util.get_string_buffer isfile encoding_t decode input ext encoding
    = Ok (buffer, Some path) ->
  input = util.PStr path /\ buffer = util.OpenedFile path /\
  isfile path = true /\
  exists stem, path = stem ++ util.dot_extension ext.
Proof.
  destruct input as [s|stream|b|unread|]; simpl.
  - destruct (pystr_eqb _ _) eqn:E.
    + destruct (isfile s) eqn:F; [|discriminate].
      intros H. injection H as <- <-.
      repeat split; auto.
      apply ends_with_dot_extension. apply bool_decide_eq_true_1 in E. exact E.
    + discriminate.
  - discriminate.
  - destruct (decode encoding b); simpl; discriminate.
  - destruct (decode encoding unread); simpl; discriminate.
  - discriminate.
Qed.

Lemma get_string_buffer_path_only_for_files_witness :
  util.PStr (str "in.idf") = util.PStr (str "in.idf") /\
  util.OpenedFile (str "in.idf") = util.OpenedFile (str "in.idf") /\
  (fun _ : pystr => true) (str "in.idf") = true /\
  exists stem, str "in.idf" = stem ++ util.dot_extension (str "idf").
Proof.
  apply (get_string_buffer_path_only_for_files (fun _ => true) unit
           decode_latin1 (util.PStr (str "in.idf")) (str "idf") tt).
  reflexivity.
Defined.



(** X10.  What [get_start_dt] returns is a valid timestamp, and handing it
    back returns it unchanged; from a year or a date it is the midnight
    that starts it.  A year outside 1..9999, among those a C [int] holds,
    raises [ValueError]. *)
Theorem get_start_dt_normalises (start : util.start_t) (r : dt.datetime) :
  (forall d, start = util.StartDatetime d -> dt.valid d) ->
  util.get_start_dt start = Ok r ->
  dt.valid r /\
  util.get_start_dt (util.StartDatetime r) = Ok r /\
  (forall y, start = util.StartInt y ->
     r = dt.mk_datetime y 1 1 0 0 /\ 1 <= y <= 9999) /\
  (forall y m d, start = util.StartDate y m d ->
     r = dt.mk_datetime y m d 0 0) /\
  (forall y, c_int y -> ~ 1 <= y <= 9999 ->
     util.get_start_dt (util.StartInt y) = Raise ValueError).
Proof.
  intros Hvalid E.
  assert (Hout : forall y, c_int y -> ~ 1 <= y <= 9999 ->
            util.get_start_dt (util.StartInt y) = Raise ValueError).
  { intros y _ Hy. simpl. unfold dt.new, dt.in_range, dt.MINYEAR, dt.MAXYEAR.
    destruct (Z.leb_spec 1 y), (Z.leb_spec y 9999); simpl; try reflexivity.
    lia. }
  destruct start as [d|y m d|y|]; simpl in E.
  - injection E as <-.
    split; [apply Hvalid; reflexivity|]. split; [reflexivity|].
    split; [|split; [|exact Hout]]; intros; discriminate.
  - pose proof E as E'. apply new_inv in E as (-> & _).
    split; [exact E'|]. split; [reflexivity|].
    split; [|split; [|exact Hout]].
    + intros; discriminate.
    + intros y' m' d' Hs. injection Hs as <- <- <-. reflexivity.
  - pose proof E as E'. apply new_inv in E as (-> & Hy & _).
    split; [exact E'|]. split; [reflexivity|].
    split; [|split; [|exact Hout]].
    + intros y' Hs. injection Hs as <-. split; [reflexivity | lia].
    + intros; discriminate.
  - discriminate E.
Qed.

Lemma get_start_dt_normalises_witness :
  dt.valid (dt.mk_datetime 2019 1 1 0 0) /\
  util.get_start_dt (util.StartDatetime (dt.mk_datetime 2019 1 1 0 0))
    = Ok (dt.mk_datetime 2019 1 1 0 0).
Proof.
  destruct (get_start_dt_normalises (util.StartInt 2019)
              (dt.mk_datetime 2019 1 1 0 0)) as (H1 & H2 & _).
  - intros d H. discriminate H.
  - reflexivity.
  - split; assumption.
Defined.

Lemma strip_idem (s : pystr) :
  pystring.strip (pystring.strip s) = pystring.strip s.
Proof.
  unfold pystring.strip.
  rewrite (head_ok_lstrip_id (pystring.rstrip (pystring.lstrip s)))
    by apply rstrip_head_ok, lstrip_head_ok.
  apply rstrip_idem.
Qed.

(** X11.  [LoggerStreamWriter.write] drops a message made of whitespace
    only and otherwise hands the logger exactly one record, at the level
    of the writer, holding the stripped message; so a record written this
    way is never empty and never starts or ends with whitespace. *)
Theorem write_logs_stripped_messages
    (self : LoggerStreamWriter.t) (message : pystr) :
  let self' := LoggerStreamWriter.write self message in
  LoggerStreamWriter._level self' = LoggerStreamWriter._level self /\
  (pystring.strip message = [] -> self' = self) /\
  (pystring.strip message <> [] ->
   LoggerStreamWriter._logger self' =
   LoggerStreamWriter._logger self
     ++ [(LoggerStreamWriter._level self, pystring.strip message)]) /\
  (Forall (fun r => r.2 <> [] /\ pystring.strip r.2 = r.2)
          (LoggerStreamWriter._logger self) ->
   Forall (fun r => r.2 <> [] /\ pystring.strip r.2 = r.2)
          (LoggerStreamWriter._logger self')).
Proof.
  unfold LoggerStreamWriter.write, pystr_eqb. cbv zeta.
  destruct (decide (pystring.strip message = [])) as [E|E].
  - rewrite (bool_decide_eq_true_2 _ E). simpl.
    repeat split; auto. intros H. contradiction.
  - rewrite (bool_decide_eq_false_2 _ E). simpl.
    repeat split; auto; try contradiction.
    intros H. apply Forall_app. split; [exact H|].
    constructor; [|constructor]. simpl. split; [exact E | apply strip_idem].
Qed.

Lemma write_logs_stripped_messages_witness :
  LoggerStreamWriter.write (LoggerStreamWriter.mk 20 []) (str "  ") 
  = LoggerStreamWriter.mk 20 [].
Proof.
  apply (write_logs_stripped_messages (LoggerStreamWriter.mk 20 []) (str "  ")).
  reflexivity.
Defined.

(* ===================================================================== *)
(** * Further properties of [FieldDescriptor] *)
(* ===================================================================== *)

Lemma str_cmp_antisym (a b : pystr) : str_cmp b a = CompOpp (str_cmp a b).
Proof.
  revert b. induction a as [|x a IH]; intros [|y b]; simpl; try reflexivity.
  rewrite (N.compare_antisym x y).
  destruct (x ?= y)%N; simpl; [apply IH | reflexivity | reflexivity].
Qed.

#[global] Instance str_le_total : Total str_le.
Proof.
  intros a b. unfold str_le. rewrite (str_cmp_antisym a b).
  destruct (str_cmp a b); simpl; [left | left | right]; discriminate.
Qed.

(** X12.  The [tags] property lists the names of the tags of a descriptor
    in increasing order, each once: a name is listed exactly when
    [has_tag] answers [True] for it. *)
Theorem tags_sorted_and_complete
    (h : FieldDescriptor.heap) (self : FieldDescriptor.loc)
    (o : FieldDescriptor.object) (m : gmap pystr (list pystr)) :
  FieldDescriptor.describes h self o m ->
  exists l,
    FieldDescriptor.tags h self = Ok l /\
    Sorted str_le l /\ NoDup l /\ length l = size m /\
    forall ref, ref ∈ l <-> FieldDescriptor.has_tag h self ref = Ok true.
Proof.
  intros Hd. eexists. split.
  { unfold FieldDescriptor.tags. rewrite (describes_tags_d _ _ _ _ Hd).
    reflexivity. }
  pose proof (merge_sort_Permutation str_le (map fst (map_to_list m))) as P.
  split; [apply Sorted_merge_sort, _|].
  split; [rewrite P; apply (NoDup_fst_map_to_list m)|].
  split.
  { rewrite P. rewrite length_map. apply length_map_to_list. }
  intros ref. rewrite P, (describes_has_tag _ _ _ _ ref Hd).
  rewrite list_elem_of_In, in_map_iff. split.
  - intros ([k v] & <- & Hin). simpl.
    apply list_elem_of_In, elem_of_map_to_list in Hin.
    rewrite has_true by (rewrite Hin; eauto). reflexivity.
  - intros E. injection E as E. apply bool_decide_eq_true_1 in E as [v Hv].
    exists (ref, v). split; [reflexivity|].
    apply list_elem_of_In, elem_of_map_to_list, Hv.
Qed.

Lemma tags_sorted_and_complete_witness :
  exists l,
    FieldDescriptor.tags
      (one_descriptor (str "A") {[ str "note" := []; str "key" := [] ]}) 0%nat
    = Ok l /\
    Sorted str_le l /\ NoDup l /\
    length l = size ({[ str "note" := []; str "key" := [] ]}
                       : gmap pystr (list pystr)) /\
    forall ref, ref ∈ l <->
      FieldDescriptor.has_tag
        (one_descriptor (str "A") {[ str "note" := []; str "key" := [] ]})
        0%nat ref = Ok true.
Proof.
  apply (tags_sorted_and_complete _ 0%nat
           (FieldDescriptor.mk (str "A") None 0%nat None)).
  split; vm_compute; reflexivity.
Defined.

(** X13.  The constructor rejects every basic type other than ["A"] and
    ["N"] with [ValueError].  Otherwise it returns a new descriptor with
    no tag and nothing cached, and leaves every existing descriptor with
    its attributes and its tags. *)
Theorem init_makes_an_empty_descriptor
    (h : FieldDescriptor.heap) (field_basic_type : pystr)
    (name : option pystr) :
  (field_basic_type <> str "A" -> field_basic_type <> str "N" ->
   FieldDescriptor.__init__ h field_basic_type name = Raise ValueError) /\
  (field_basic_type = str "A" \/ field_basic_type = str "N" ->
   exists self h' d,
     FieldDescriptor.__init__ h field_basic_type name = Ok (self, h') /\
     FieldDescriptor.objects h !! self = None /\
     FieldDescriptor.describes h' self
       (FieldDescriptor.mk field_basic_type name d None) ∅ /\
     FieldDescriptor.tags h' self = Ok [] /\
     (forall ref, FieldDescriptor.has_tag h' self ref = Ok false) /\
     (forall other o m,
        FieldDescriptor.describes h other o m ->
        FieldDescriptor.describes h' other o m)).
Proof.
  unfold FieldDescriptor.__init__, pystr_eqb. split.
  - intros HA HN.
    rewrite (bool_decide_eq_false_2 _ HA), (bool_decide_eq_false_2 _ HN).
    reflexivity.
  - intros Hbt.
    assert (E : bool_decide (field_basic_type = str "A")
                || bool_decide (field_basic_type = str "N") = true).
    { destruct Hbt as [-> | ->]; reflexivity. }
    rewrite E. simpl.
    set (d := FieldDescriptor.new_dict h).
    set (self := FieldDescriptor.new_object h).
    set (o := FieldDescriptor.mk field_basic_type name d None).
    set (h' := FieldDescriptor.set_object (FieldDescriptor.set_dict h d ∅) self o).
    assert (Hd : FieldDescriptor.describes h' self o ∅).
    { split; simpl; apply lookup_insert_eq. }
    exists self, h', d. split; [reflexivity|].
    split; [apply new_object_fresh|]. split; [exact Hd|].
    split; [|split].
    + unfold FieldDescriptor.tags. rewrite (describes_tags_d _ _ _ _ Hd).
      simpl. rewrite map_to_list_empty. reflexivity.
    + intros ref. rewrite (describes_has_tag _ _ _ _ ref Hd).
      rewrite has_false by apply lookup_empty. reflexivity.
    + intros other o' m' [Ho Hm]. split; simpl.
      * rewrite lookup_insert_ne; [exact Ho|].
        intros Heq. subst self. rewrite Heq in *.
        pose proof (new_object_fresh h). congruence.
      * rewrite lookup_insert_ne; [exact Hm|].
        intros Heq. subst d.
        pose proof (new_dict_fresh h) as F. rewrite Heq in F. congruence.
Qed.

Lemma init_makes_an_empty_descriptor_witness :
  FieldDescriptor.__init__ FieldDescriptor.empty_heap (str "X") None
  = Raise ValueError.
Proof.
  apply (init_makes_an_empty_descriptor FieldDescriptor.empty_heap (str "X") None);
    discriminate.
Defined.

Lemma describes_get_tag h self o m ref raw :
  FieldDescriptor.describes h self o m ->
  FieldDescriptor.get_tag h self ref raw =
  match m !! ref with
  | Some l =>
      if pystr_eqb ref (str "note") && negb raw
      then Ok (inl (FieldDescriptor.join_spaces l))
      else Ok (inr l)
  | None => Raise KeyError
  end.
Proof.
  intros Hd. unfold FieldDescriptor.get_tag.
  rewrite (describes_tags_d _ _ _ _ Hd). reflexivity.
Qed.

(** X14.  [add_tag] never fails and never drops a value.  Afterwards the
    tag is present and holds its former values (none if it was absent)
    followed by the new value, if one was given; every other tag is as
    it was. *)
Theorem add_tag_appends
    (h : FieldDescriptor.heap) (self : FieldDescriptor.loc)
    (o : FieldDescriptor.object) (m : gmap pystr (list pystr))
    (ref : pystr) (value : option pystr) :
  FieldDescriptor.describes h self o m ->
  exists h' m',
    FieldDescriptor.add_tag h self ref value = Ok h' /\
    FieldDescriptor.describes h' self o m' /\
    m' !! ref = Some (default [] (m !! ref)
                      ++ match value with Some v => [v] | None => [] end) /\
    FieldDescriptor.has_tag h' self ref = Ok true /\
    (forall ref', ref' <> ref -> m' !! ref' = m !! ref') /\
    (value = None -> is_Some (m !! ref) -> m' = m).
Proof.
  intros Hd.
  destruct (add_tag_describes h self o m ref value Hd) as (m' & E & Hd' & Hm').
  exists (FieldDescriptor.set_dict h (FieldDescriptor._tags_d o) m'), m'.
  split; [exact E|]. split; [exact Hd'|].
  assert (Href : m' !! ref
                 = Some (default [] (m !! ref)
                         ++ match value with Some v => [v] | None => [] end)).
  { rewrite Hm'. cbv zeta.
    destruct (decide (is_Some (m !! ref))) as [Hs|Hn].
    - rewrite (has_true _ _ Hs). destruct Hs as [l El].
      destruct value as [v|].
      + rewrite lookup_insert_eq, El. reflexivity.
      + rewrite El. simpl. rewrite app_nil_r. reflexivity.
    - assert (El : m !! ref = None)
        by (destruct (m !! ref); [exfalso; eauto | reflexivity]).
      rewrite (has_false _ _ El).
      destruct value as [v|].
      + rewrite lookup_insert_eq, lookup_insert_eq, El. reflexivity.
      + rewrite lookup_insert_eq, El. reflexivity. }
  split; [exact Href|]. split.
  { rewrite (describes_has_tag _ _ _ _ ref Hd').
    rewrite has_true by (rewrite Href; eauto). reflexivity. }
  split.
  - intros ref' Hne. rewrite Hm'. cbv zeta.
    destruct (bool_decide (is_Some (m !! ref))), value as [v|];
      rewrite ?lookup_insert_ne by congruence; reflexivity.
  - intros -> Hsome. rewrite Hm'. cbv zeta.
    rewrite (has_true _ _ Hsome). reflexivity.
Qed.

Lemma add_tag_appends_witness :
  exists h' m',
    FieldDescriptor.add_tag
      (one_descriptor (str "A") {[ str "key" := [str "x"] ]}) 0%nat
      (str "key") (Some (str "y")) = Ok h' /\
    FieldDescriptor.describes h' 0%nat
      (FieldDescriptor.mk (str "A") None 0%nat None) m' /\
    m' !! str "key"
      = Some (default [] (({[ str "key" := [str "x"] ]}
                             : gmap pystr (list pystr)) !! str "key")
              ++ [str "y"]) /\
    FieldDescriptor.has_tag h' 0%nat (str "key") = Ok true /\
    (forall ref', ref' <> str "key" ->
       m' !! ref' = ({[ str "key" := [str "x"] ]}
                       : gmap pystr (list pystr)) !! ref') /\
    (Some (str "y") = None ->
     is_Some (({[ str "key" := [str "x"] ]}
                 : gmap pystr (list pystr)) !! str "key") ->
     m' = {[ str "key" := [str "x"] ]}).
Proof.
  apply (add_tag_appends _ 0%nat (FieldDescriptor.mk (str "A") None 0%nat None)
           {[ str "key" := [str "x"] ]} (str "key") (Some (str "y"))).
  split; vm_compute; reflexivity.
Defined.

(** X15.  [remove_tag]: in mode ["raise"] a missing tag gives [KeyError];
    a mode that is neither ["raise"] nor ["ignore"] gives [ValueError],
    the tag being there or not; in mode ["ignore"], and in mode ["raise"]
    for a tag that is there, the call succeeds, the tag is gone, reading
    it gives [KeyError], and every other tag is as it was. *)
Theorem remove_tag_modes
    (h : FieldDescriptor.heap) (self : FieldDescriptor.loc)
    (o : FieldDescriptor.object) (m : gmap pystr (list pystr))
    (ref errors : pystr) :
  FieldDescriptor.describes h self o m ->
  (errors = str "raise" -> m !! ref = None ->
   FieldDescriptor.remove_tag h self ref errors = Raise KeyError) /\
  (errors <> str "raise" -> errors <> str "ignore" ->
   FieldDescriptor.remove_tag h self ref errors = Raise ValueError) /\
  (errors = str "ignore" \/ (errors = str "raise" /\ is_Some (m !! ref)) ->
   exists h',
     FieldDescriptor.remove_tag h self ref errors = Ok h' /\
     FieldDescriptor.describes h' self o (delete ref m) /\
     FieldDescriptor.has_tag h' self ref = Ok false /\
     (forall raw, FieldDescriptor.get_tag h' self ref raw = Raise KeyError) /\
     (forall ref', ref' <> ref -> delete ref m !! ref' = m !! ref') /\
     (m !! ref = None -> delete ref m = m)).
Proof.
  intros Hd. pose proof Hd as [Ho Hm].
  assert (Hrun : FieldDescriptor.remove_tag h self ref errors =
    if pystr_eqb errors (str "raise") then
      match m !! ref with
      | Some _ => Ok (FieldDescriptor.set_dict h (FieldDescriptor._tags_d o)
                        (delete ref m))
      | None => Raise KeyError
      end
    else if pystr_eqb errors (str "ignore") then
      Ok (FieldDescriptor.set_dict h (FieldDescriptor._tags_d o) (delete ref m))
    else Raise ValueError).
  { unfold FieldDescriptor.remove_tag, FieldDescriptor.get_object,
      FieldDescriptor.get_dict. rewrite Ho. simpl. rewrite Hm. reflexivity. }
  rewrite Hrun. unfold pystr_eqb. split; [|split].
  - intros -> Hnone. rewrite Hnone. reflexivity.
  - intros H1 H2.
    rewrite (bool_decide_eq_false_2 _ H1), (bool_decide_eq_false_2 _ H2).
    reflexivity.
  - intros Hmode.
    set (h' := FieldDescriptor.set_dict h (FieldDescriptor._tags_d o)
                 (delete ref m)).
    assert (Hd' : FieldDescriptor.describes h' self o (delete ref m)).
    { split; simpl; [exact Ho | apply lookup_insert_eq]. }
    exists h'. split.
    { destruct Hmode as [-> | [-> [l Hl]]].
      - reflexivity.
      - rewrite Hl. reflexivity. }
    split; [exact Hd'|]. split.
    { rewrite (describes_has_tag _ _ _ _ ref Hd').
      rewrite has_false by apply lookup_delete_eq. reflexivity. }
    split.
    { intros raw. rewrite (describes_get_tag _ _ _ _ ref raw Hd').
      rewrite lookup_delete_eq. reflexivity. }
    split.
    + intros ref' Hne. apply lookup_delete_ne. congruence.
    + intros Hnone. apply delete_id. exact Hnone.
Qed.

Lemma remove_tag_modes_witness :
  FieldDescriptor.remove_tag (one_descriptor (str "A") ∅) 0%nat
    (str "key") (str "raise")
  = Raise KeyError.
Proof.
  destruct (remove_tag_modes (one_descriptor (str "A") ∅) 0%nat
              (FieldDescriptor.mk (str "A") None 0%nat None) ∅
              (str "key") (str "raise")) as (H & _).
  - split; vm_compute; reflexivity.
  - apply H; reflexivity.
Defined.

(** X16.  Adding a tag that was absent and removing it again gives the
    descriptor its former tags back, with or without a value and in
    either of the two modes. *)
Theorem add_then_remove_restores
    (h : FieldDescriptor.heap) (self : FieldDescriptor.loc)
    (o : FieldDescriptor.object) (m : gmap pystr (list pystr))
    (ref errors : pystr) (value : option pystr) :
  FieldDescriptor.describes h self o m ->
  m !! ref = None ->
  errors = str "raise" \/ errors = str "ignore" ->
  exists h1 h2,
    FieldDescriptor.add_tag h self ref value = Ok h1 /\
    FieldDescriptor.remove_tag h1 self ref errors = Ok h2 /\
    FieldDescriptor.describes h2 self o m.
Proof.
  intros Hd Hnone Hmode.
  destruct (add_tag_describes h self o m ref value Hd) as (m' & E & Hd' & Hm').
  assert (Hsome : is_Some (m' !! ref)).
  { rewrite Hm'. cbv zeta. rewrite (has_false _ _ Hnone).
    destruct value; rewrite lookup_insert_eq; eauto. }
  assert (Hdel : delete ref m' = m).
  { rewrite Hm'. cbv zeta. rewrite (has_false _ _ Hnone).
    destruct value; rewrite ?delete_insert_eq, ?delete_insert_eq;
      apply delete_id, Hnone. }
  destruct Hsome as [l Hl].
  eexists _, (FieldDescriptor.set_dict
                (FieldDescriptor.set_dict h (FieldDescriptor._tags_d o) m')
                (FieldDescriptor._tags_d o) (delete ref m')).
  split; [exact E|]. split.
  - unfold FieldDescriptor.remove_tag, FieldDescriptor.get_object,
      FieldDescriptor.get_dict.
    rewrite (proj1 Hd'). cbn [rbind]. rewrite (proj2 Hd'). cbn [rbind].
    destruct Hmode as [-> | ->]; simpl; rewrite ?Hl; reflexivity.
  - rewrite Hdel. split; simpl; [apply Hd | apply lookup_insert_eq].
Qed.

Lemma add_then_remove_restores_witness :
  exists h1 h2,
    FieldDescriptor.add_tag (one_descriptor (str "A") ∅) 0%nat (str "key")
      (Some (str "x")) = Ok h1 /\
    FieldDescriptor.remove_tag h1 0%nat (str "key") (str "raise") = Ok h2 /\
    FieldDescriptor.describes h2 0%nat
      (FieldDescriptor.mk (str "A") None 0%nat None) ∅.
Proof.
  apply (add_then_remove_restores (one_descriptor (str "A") ∅) 0%nat
           (FieldDescriptor.mk (str "A") None 0%nat None) ∅
           (str "key") (str "raise") (Some (str "x"))).
  - split; vm_compute; reflexivity.
  - reflexivity.
  - left. reflexivity.
Defined.

Lemma join_spaces_snoc (l : list pystr) (v : pystr) :
  l <> [] ->
  FieldDescriptor.join_spaces (l ++ [v])
  = FieldDescriptor.join_spaces l ++ 32%N :: v.
Proof.
  induction l as [|x l IH]; [congruence|]. intros _.
  destruct l as [|y l]; [reflexivity|].
  change (FieldDescriptor.join_spaces ((x :: y :: l) ++ [v]))
    with (x ++ 32%N :: FieldDescriptor.join_spaces ((y :: l) ++ [v])).
  rewrite IH by discriminate.
  change (FieldDescriptor.join_spaces (x :: y :: l))
    with (x ++ 32%N :: FieldDescriptor.join_spaces (y :: l)).
  rewrite <- app_assoc. reflexivity.
Qed.

Lemma join_spaces_length (l : list pystr) :
  l <> [] ->
  (length (FieldDescriptor.join_spaces l) + 1
   = list_sum (map length l) + length l)%nat.
Proof.
  induction l as [|x l IH]; [congruence|]. intros _.
  destruct l as [|y l].
  - simpl. lia.
  - change (FieldDescriptor.join_spaces (x :: y :: l))
      with (x ++ 32%N :: FieldDescriptor.join_spaces (y :: l)).
    rewrite length_app.
    change (length (32%N :: FieldDescriptor.join_spaces (y :: l)))
      with (S (length (FieldDescriptor.join_spaces (y :: l)))).
    change (list_sum (map length (x :: y :: l)))
      with (length x + list_sum (map length (y :: l)))%nat.
    change (length (x :: y :: l)) with (S (length (y :: l))).
    specialize (IH ltac:(discriminate)). lia.
Qed.

(** X17.  The note of a descriptor is read as one string, its fragments
    joined by single spaces, unless the raw list is asked for; the string
    has the lengths of the fragments plus one space between neighbours.
    Adding a fragment to a note that has some appends a space and the
    fragment to what is read. *)
Theorem note_is_read_joined
    (h : FieldDescriptor.heap) (self : FieldDescriptor.loc)
    (o : FieldDescriptor.object) (m : gmap pystr (list pystr))
    (l : list pystr) :
  FieldDescriptor.describes h self o m ->
  m !! str "note" = Some l ->
  FieldDescriptor.get_tag h self (str "note") false
    = Ok (inl (FieldDescriptor.join_spaces l)) /\
  FieldDescriptor.get_tag h self (str "note") true = Ok (inr l) /\
  (l <> [] ->
   length (FieldDescriptor.join_spaces l)
   = (list_sum (map length l) + (length l - 1))%nat) /\
  (forall v, l <> [] ->
     exists h',
       FieldDescriptor.add_tag h self (str "note") (Some v) = Ok h' /\
       FieldDescriptor.get_tag h' self (str "note") false
       = Ok (inl (FieldDescriptor.join_spaces l ++ 32%N :: v))).
Proof.
  intros Hd Hl. split; [|split; [|split]].
  - rewrite (describes_get_tag _ _ _ _ _ _ Hd), Hl. reflexivity.
  - rewrite (describes_get_tag _ _ _ _ _ _ Hd), Hl. reflexivity.
  - intros Hne. pose proof (join_spaces_length l Hne) as HL.
    destruct l; [congruence|]. simpl length in *. lia.
  - intros v Hne.
    destruct (add_tag_describes h self o m (str "note") (Some v) Hd)
      as (m' & E & Hd' & Hm').
    eexists. split; [exact E|].
    rewrite (describes_get_tag _ _ _ _ _ _ Hd').
    assert (Hnote : m' !! str "note" = Some (l ++ [v])).
    { rewrite Hm'. cbv zeta. rewrite has_true by (rewrite Hl; eauto).
      rewrite lookup_insert_eq, Hl. reflexivity. }
    rewrite Hnote. simpl. rewrite join_spaces_snoc by exact Hne. reflexivity.
Qed.

Lemma note_is_read_joined_witness :
  FieldDescriptor.get_tag
    (one_descriptor (str "A") {[ str "note" := [str "a"; str "b"] ]})
    0%nat (str "note") false
  = Ok (inl (FieldDescriptor.join_spaces [str "a"; str "b"])).
Proof.
  apply (note_is_read_joined _ 0%nat
           (FieldDescriptor.mk (str "A") None 0%nat None)
           {[ str "note" := [str "a"; str "b"] ]}).
  - split; vm_compute; reflexivity.
  - vm_compute. reflexivity.
Defined.

(** X18.  On a descriptor of basic type ["A"] or ["N"] that was not read
    yet, [detailed_type] fails in one case only, the [type] tag without a
    value and no [reference] tag; it never raises [ValueError].  When it
    succeeds it leaves the tags as they are, and without a [type] tag the
    answer is one of six names. *)
Theorem detailed_type_fails_only_on_empty_type
    (lower : pystr -> pystr) (h : FieldDescriptor.heap)
    (self : FieldDescriptor.loc) (o : FieldDescriptor.object)
    (m : gmap pystr (list pystr)) :
  FieldDescriptor.describes h self o m ->
  FieldDescriptor._detailed_type o = None ->
  FieldDescriptor.basic_type o = str "A" \/
  FieldDescriptor.basic_type o = str "N" ->
  FieldDescriptor.detailed_type lower h self <> Raise ValueError /\
  (~ (m !! str "reference" = None /\ m !! str "type" = Some []) ->
   exists t,
     FieldDescriptor.detailed_type lower h self = Ok (t, cached h self o t) /\
     FieldDescriptor.tags_d (cached h self o t) self = Ok m /\
     (m !! str "type" = None ->
      t ∈ [str "reference"; str "choice"; str "object-list";
           str "external-list"; str "alpha"; str "real"])).
Proof.
  intros Hd Hc Hbt.
  rewrite (detailed_type_first lower h self o m Hd Hc).
  assert (Htags : forall t, FieldDescriptor.tags_d (cached h self o t) self = Ok m).
  { intros t. apply (describes_tags_d _ _
      (FieldDescriptor.mk (FieldDescriptor.basic_type o)
         (FieldDescriptor.name o) (FieldDescriptor._tags_d o) (Some t))).
    split; simpl; [apply lookup_insert_eq | apply Hd]. }
  assert (Hlast :
    (if pystr_eqb (FieldDescriptor.basic_type o) (str "A")
     then Ok (str "alpha")
     else if pystr_eqb (FieldDescriptor.basic_type o) (str "N")
          then Ok (str "real") else Raise ValueError)
    = Ok (if pystr_eqb (FieldDescriptor.basic_type o) (str "A")
          then str "alpha" else str "real")).
  { destruct Hbt as [-> | ->]; reflexivity. }
  rewrite Hlast.
  destruct (bool_decide (is_Some (m !! str "reference"))) eqn:Er.
  { simpl. split; [discriminate|]. intros _. eexists.
    split; [reflexivity|]. split; [apply Htags|]. intros _. repeat first [apply list_elem_of_here | apply list_elem_of_further]. }
  apply bool_decide_eq_false_1 in Er.
  assert (Hr : m !! str "reference" = None)
    by (apply eq_None_not_Some; exact Er).
  destruct (decide (is_Some (m !! str "type"))) as [[l Et]|Et].
  - rewrite has_true by (rewrite Et; eauto). rewrite Et.
    destruct l as [|v vs]; simpl.
    + split; [discriminate|]. intros Hn. exfalso. apply Hn. auto.
    + split; [discriminate|].
      intros _. eexists. split; [reflexivity|]. split; [apply Htags|].
      discriminate.
  - apply eq_None_not_Some in Et. rewrite (has_false _ _ Et).
    split.
    + repeat match goal with
             | |- context [if ?c then _ else _] => destruct c
             end; simpl; discriminate.
    + intros _.
      repeat match goal with
             | |- context [if ?c then _ else _] => destruct c
             end; simpl; eexists; (split; [reflexivity|]);
        (split; [apply Htags|]); intros _; repeat first [apply list_elem_of_here | apply list_elem_of_further].
Qed.

Lemma detailed_type_fails_only_on_empty_type_witness :
  FieldDescriptor.detailed_type pystring.ascii_lower
    (one_descriptor (str "N") {[ str "type" := [str "Integer"] ]}) 0%nat
  <> Raise ValueError.
Proof.
  apply (detailed_type_fails_only_on_empty_type pystring.ascii_lower
           (one_descriptor (str "N") {[ str "type" := [str "Integer"] ]}) 0%nat
           (FieldDescriptor.mk (str "N") None 0%nat None)
           {[ str "type" := [str "Integer"] ]}).
  - split; vm_compute; reflexivity.
  - reflexivity.
  - right. reflexivity.
Defined.

(** X19.  [__eq__] answers [True] only for descriptors of the same name,
    the same basic type and the same number of tags; a descriptor is equal
    to itself, the answer does not depend on the order of the operands,
    and an operand that is not a descriptor fails the assertion. *)
Theorem eq_requires_name_type_count
    (h : FieldDescriptor.heap) (a b : FieldDescriptor.loc)
    (oa ob : FieldDescriptor.object) (ma mb : gmap pystr (list pystr)) :
  FieldDescriptor.describes h a oa ma ->
  FieldDescriptor.describes h b ob mb ->
  (FieldDescriptor.__eq__ h a b = Ok true ->
   FieldDescriptor.name oa = FieldDescriptor.name ob /\
   FieldDescriptor.basic_type oa = FieldDescriptor.basic_type ob /\
   size ma = size mb) /\
  FieldDescriptor.__eq__ h a a = Ok true /\
  FieldDescriptor.__eq__ h a b = FieldDescriptor.__eq__ h b a /\
  (forall other, FieldDescriptor.objects h !! other = None ->
     FieldDescriptor.__eq__ h a other = Raise AssertionError).
Proof.
  intros Ha Hb.
  rewrite (eq_computes h a oa ma b ob mb Ha Hb),
          (eq_computes h b ob mb a oa ma Hb Ha),
          (eq_computes h a oa ma a oa ma Ha Ha).
  unfold pystr_eqb. split; [|split; [|split]].
  - intros E. injection E as E.
    apply andb_true_iff in E as [E E3]. apply andb_true_iff in E as [E1 E2].
    apply bool_decide_eq_true_1 in E1. apply bool_decide_eq_true_1 in E2.
    apply Nat.eqb_eq in E3. auto.
  - rewrite !bool_decide_eq_true_2 by reflexivity.
    rewrite Nat.eqb_refl. reflexivity.
  - f_equal. f_equal; [f_equal|].
    + apply bool_decide_ext. split; congruence.
    + apply bool_decide_ext. split; congruence.
    + apply Nat.eqb_sym.
  - intros other Hnone. unfold FieldDescriptor.__eq__, FieldDescriptor.get_object.
    rewrite (proj1 Ha), Hnone. reflexivity.
Qed.

Lemma eq_requires_name_type_count_witness :
  FieldDescriptor.__eq__ (one_descriptor (str "A") ∅) 0%nat 0%nat = Ok true.
Proof.
  destruct (eq_requires_name_type_count (one_descriptor (str "A") ∅) 0%nat 0%nat
              (FieldDescriptor.mk (str "A") None 0%nat None)
              (FieldDescriptor.mk (str "A") None 0%nat None) ∅ ∅)
    as (_ & H & _).
  - split; vm_compute; reflexivity.
  - split; vm_compute; reflexivity.
  - exact H.
Defined.

(** X20.  The descriptor returned by the default call of [copy] is equal
    ([==]) to the original, in both orders, and carries over what the
    original had cached as its detailed type. *)
Theorem copy_is_equal_to_original
    (lower : pystr -> pystr) (h : FieldDescriptor.heap)
    (self : FieldDescriptor.loc) (o : FieldDescriptor.object)
    (m : gmap pystr (list pystr)) :
  FieldDescriptor.describes h self o m ->
  exists c h',
    FieldDescriptor.copy h self false = Ok (Some c, h') /\
    FieldDescriptor.__eq__ h' self c = Ok true /\
    FieldDescriptor.__eq__ h' c self = Ok true /\
    (forall t, FieldDescriptor._detailed_type o = Some t ->
       FieldDescriptor.detailed_type lower h' c = Ok (t, h')).
Proof.
  intros Hd.
  destruct (copy_default h self o m Hd) as (h' & E & _ & _ & Hs & Hc).
  exists (FieldDescriptor.new_object h), h'. split; [exact E|].
  rewrite (eq_computes _ _ _ _ _ _ _ Hs Hc), (eq_computes _ _ _ _ _ _ _ Hc Hs).
  simpl. unfold pystr_eqb.
  rewrite !bool_decide_eq_true_2 by reflexivity. rewrite Nat.eqb_refl.
  split; [reflexivity|]. split; [reflexivity|].
  intros t Ht. eapply detailed_type_memo; [apply Hc | exact Ht].
Qed.

Lemma copy_is_equal_to_original_witness :
  exists c h',
    FieldDescriptor.copy (one_descriptor (str "A") {[ str "key" := [str "x"] ]})
      0%nat false = Ok (Some c, h') /\
    FieldDescriptor.__eq__ h' 0%nat c = Ok true /\
    FieldDescriptor.__eq__ h' c 0%nat = Ok true /\
    (forall t,
       FieldDescriptor._detailed_type
         (FieldDescriptor.mk (str "A") None 0%nat None) = Some t ->
       FieldDescriptor.detailed_type pystring.ascii_lower h' c = Ok (t, h')).
Proof.
  apply (copy_is_equal_to_original pystring.ascii_lower
           (one_descriptor (str "A") {[ str "key" := [str "x"] ]}) 0%nat
           (FieldDescriptor.mk (str "A") None 0%nat None)
           {[ str "key" := [str "x"] ]}).
  split; vm_compute; reflexivity.
Defined.

(* ===================================================================== *)
(** * Further properties of the value pipeline *)
(* ===================================================================== *)

Lemma rstrip_by_id (p : N -> bool) (s : pystr) :
  Forall (fun c => p c = false) s -> pystring.rstrip_by p s = s.
Proof.
  induction 1 as [|c s Hc _ IH]; simpl; [reflexivity|].
  rewrite IH, Hc. destruct s; reflexivity.
Qed.

Lemma lstrip_by_id (p : N -> bool) (s : pystr) :
  Forall (fun c => p c = false) s -> pystring.lstrip_by p s = s.
Proof.
  destruct 1 as [|c s Hc _]; simpl; [reflexivity|]. rewrite Hc. reflexivity.
Qed.

Lemma strip_number_id (s : pystr) :
  Forall (fun c => pystring.is_number_space c = false) s ->
  pystring.strip_number s = s.
Proof.
  intros H. unfold pystring.strip_number.
  rewrite (lstrip_by_id _ s H). apply rstrip_by_id, H.
Qed.

(** A word of letters is no number for [int] nor for [float], unless it
    spells one of the three names [float] knows. *)
Lemma letters_are_no_number (c : N) (s : pystr) :
  Forall (fun x => pystring.is_letter x = true) (c :: s) ->
  pystring.parse_int (c :: s) = None /\
  pystring.parse_float (c :: s) =
  (if pystr_eqb (pystring.ascii_lower (c :: s)) (str "inf")
      || pystr_eqb (pystring.ascii_lower (c :: s)) (str "infinity")
      || pystr_eqb (pystring.ascii_lower (c :: s)) (str "nan")
   then Some (c :: s) else None).
Proof.
  intros H.
  assert (Hstrip : pystring.strip_number (c :: s) = c :: s).
  { apply strip_number_id. eapply Forall_impl; [exact H|].
    intros x Hx. unfold pystring.is_number_space.
    rewrite (letter_not_space x Hx). reflexivity. }
  assert (Hc : pystring.is_letter c = true) by (inversion H; assumption).
  assert (Hsign : pystring.is_sign c = false).
  { revert Hc. unfold pystring.is_letter, pystring.is_sign.
    destruct (N.eqb_spec c 43) as [->|]; [discriminate|].
    destruct (N.eqb_spec c 45) as [->|]; [discriminate|]. reflexivity. }
  assert (Hdigit : pystring.is_digit c = false).
  { revert Hc. unfold pystring.is_letter, pystring.is_digit.
    destruct (N.leb_spec 48 c), (N.leb_spec c 57); simpl; try reflexivity.
    destruct (N.leb_spec 65 c), (N.leb_spec c 90), (N.leb_spec 97 c),
      (N.leb_spec c 122); simpl; intros; try discriminate; lia. }
  assert (Hdot : c <> 46%N).
  { intros ->. discriminate Hc. }
  assert (Hskip : pystring.skip_sign (c :: s) = c :: s)
    by (simpl; rewrite Hsign; reflexivity).
  assert (Hpart : pystring.skip_digitpart (c :: s) = None)
    by (simpl; rewrite Hdigit; reflexivity).
  split.
  - unfold pystring.parse_int. rewrite Hstrip. cbv zeta.
    rewrite Hskip, Hpart. reflexivity.
  - unfold pystring.parse_float. rewrite Hstrip. cbv zeta. rewrite Hskip.
    assert (Hdec : pystring.is_decimal_float (c :: s) = false).
    { unfold pystring.is_decimal_float. rewrite Hpart.
      destruct c as [|p]; [reflexivity|].
      repeat (destruct p as [p|p|]; try reflexivity).
      exfalso. apply Hdot. reflexivity. }
    rewrite Hdec. reflexivity.
Qed.

(** X21.  [to_num] knows its two reserved words in lower case only: they
    are returned as they are, and any other letter case of them raises
    [ValueError].  It returns a string for nothing else, never returns
    [None] for a string and raises nothing but [ValueError]. *)
Theorem to_num_sentinels_in_lower_case_only (s : pystr) :
  (s = str "autocalculate" \/ s = str "autosize" ->
   to_num (VStr s) = Ok (VStr s)) /\
  (pystring.ascii_lower s = str "autocalculate" \/
   pystring.ascii_lower s = str "autosize" ->
   s <> pystring.ascii_lower s ->
   to_num (VStr s) = Raise ValueError) /\
  (forall s', to_num (VStr s) = Ok (VStr s') ->
     s' = s /\ (s = str "autocalculate" \/ s = str "autosize")) /\
  to_num (VStr s) <> Ok VNone /\
  (forall e, to_num (VStr s) = Raise e -> e = ValueError).
Proof.
  assert (Hsent : s = str "autocalculate" \/ s = str "autosize" ->
            to_num (VStr s) = Ok (VStr s)).
  { intros [-> | ->]; reflexivity. }
  split; [exact Hsent|]. split.
  { intros Hlow Hne.
    assert (H1 : s <> str "autocalculate")
      by (intros ->; apply Hne; reflexivity).
    assert (H2 : s <> str "autosize")
      by (intros ->; apply Hne; reflexivity).
    assert (Hletters : Forall (fun c => pystring.is_letter c = true) s).
    { destruct Hlow as [E|E]; apply (letters_of_lower s _ E); reflexivity. }
    destruct s as [|c s']; [destruct Hlow; discriminate|].
    destruct (letters_are_no_number c s' Hletters) as [Hi Hf].
    unfold to_num, pystr_eqb.
    rewrite (bool_decide_eq_false_2 _ H1), (bool_decide_eq_false_2 _ H2).
    simpl. rewrite Hi, Hf.
    destruct Hlow as [-> | ->]; reflexivity. }
  destruct (decide (s = str "autocalculate" \/ s = str "autosize")) as [Hs|Hs].
  { rewrite (Hsent Hs).
    split; [|split; [discriminate|discriminate]].
    intros s' E. injection E as <-. auto. }
  assert (H1 : s <> str "autocalculate") by tauto.
  assert (H2 : s <> str "autosize") by tauto.
  unfold to_num, pystr_eqb.
  rewrite (bool_decide_eq_false_2 _ H1), (bool_decide_eq_false_2 _ H2). simpl.
  destruct (pystring.parse_int s), (pystring.parse_float s);
    repeat split; intros; try discriminate; congruence.
Qed.

Lemma to_num_sentinels_in_lower_case_only_witness :
  to_num (VStr (str "AutoSize")) = Raise ValueError.
Proof.
  apply (to_num_sentinels_in_lower_case_only (str "AutoSize")).
  - right. reflexivity.
  - discriminate.
Defined.

Lemma cleanup_str_general (lower : pystr -> pystr) (table : N -> pystr)
    h self o m s :
  FieldDescriptor.describes h self o m ->
  FieldDescriptor.cleanup_and_check_raw_value lower table h self (VStr s) =
  checks o
    (let u := pystring.unidecode table
                (pystring.sub_spaces (pystring.strip s)) in
     if negb (bool_decide (is_Some (m !! str "retaincase")))
     then lower u else u).
Proof.
  intros Hd. unfold FieldDescriptor.cleanup_and_check_raw_value.
  rewrite (describes_has_tag h self o m _ Hd). simpl.
  unfold checks, FieldDescriptor.get_object. rewrite (proj1 Hd). reflexivity.
Qed.

Lemma cleanup_passed_checks (lower : pystr -> pystr) (table : N -> pystr)
    h self o m v r :
  FieldDescriptor.describes h self o m ->
  FieldDescriptor.cleanup_and_check_raw_value lower table h self v = Ok r ->
  checks o r = Ok r.
Proof.
  intros Hd E.
  assert (Hs : forall s,
    FieldDescriptor.cleanup_and_check_raw_value lower table h self (VStr s)
      = Ok r -> checks o r = Ok r).
  { intros s Es. rewrite (cleanup_str_general lower table h self o m s Hd) in Es.
    pose proof (checks_inv _ _ _ Es) as ->. exact Es. }
  destruct v as [|s|z|f|]; try discriminate E.
  - apply (Hs [] E).
  - apply (Hs s E).
Qed.

(** X22.  What [cleanup_and_check_raw_value] returns has at most 100
    characters, and [basic_parse] accepts it without raising: it gives
    [None] for the empty string, the string itself on a descriptor of
    basic type ["A"], and what [to_num] makes of it on one of basic type
    ["N"]. *)
Theorem cleaned_value_always_parses
    (lower : pystr -> pystr) (table : N -> pystr)
    (h : FieldDescriptor.heap) (self : FieldDescriptor.loc)
    (o : FieldDescriptor.object) (m : gmap pystr (list pystr))
    (v : value) (r : pystr) :
  FieldDescriptor.describes h self o m ->
  FieldDescriptor.basic_type o = str "A" \/
  FieldDescriptor.basic_type o = str "N" ->
  FieldDescriptor.cleanup_and_check_raw_value lower table h self v = Ok r ->
  (length r <= 100)%nat /\
  exists x,
    FieldDescriptor.basic_parse h self (VStr r) = Ok x /\
    (r = [] -> x = VNone) /\
    (r <> [] -> FieldDescriptor.basic_type o = str "A" -> x = VStr r) /\
    (r <> [] -> FieldDescriptor.basic_type o = str "N" ->
     to_num (VStr r) = Ok x).
Proof.
  intros Hd Hbt E.
  pose proof (cleanup_passed_checks lower table h self o m v r Hd E) as Hc.
  unfold checks in Hc.
  destruct (Nat.leb_spec (length r) 100) as [Hlen|Hlen]; cbn [negb] in Hc;
    [|discriminate Hc].
  split; [exact Hlen|].
  unfold FieldDescriptor.basic_parse, FieldDescriptor.get_object.
  rewrite (proj1 Hd).
  rewrite (bool_decide_eq_false_2 (VStr r = VNone)) by discriminate.
  destruct (decide (r = [])) as [->|Hne].
  { exists VNone. repeat split; auto; congruence. }
  rewrite (bool_decide_eq_false_2 (VStr r = VStr [])) by congruence.
  simpl.
  destruct Hbt as [Hbt|Hbt]; rewrite Hbt in *.
  - exists (VStr r). split; [reflexivity|]. split; [congruence|].
    split; [reflexivity|]. intros _ Hx. vm_compute in Hx. discriminate Hx.
  - unfold pystr_eqb in Hc.
    rewrite (bool_decide_eq_false_2 (r = [])) in Hc by exact Hne.
    rewrite (bool_decide_eq_true_2 (str "N" = str "N")) in Hc by reflexivity.
    destruct (to_num (VStr r)) as [x|e] eqn:En;
      [|simpl in Hc; discriminate Hc].
    exists x. split; [exact En|]. split; [congruence|].
    split; [|intros _ _; exact En].
    intros _ Hx. vm_compute in Hx. discriminate Hx.
Qed.

Lemma cleaned_value_always_parses_witness :
  (length (str "12") <= 100)%nat /\
  exists x,
    FieldDescriptor.basic_parse (one_descriptor (str "N") ∅) 0%nat
      (VStr (str "12")) = Ok x /\
    (str "12" = [] -> x = VNone) /\
    (str "12" <> [] -> str "N" = str "A" -> x = VStr (str "12")) /\
    (str "12" <> [] -> str "N" = str "N" -> to_num (VStr (str "12")) = Ok x).
Proof.
  apply (cleaned_value_always_parses pystring.ascii_lower unidecode_excerpt
           (one_descriptor (str "N") ∅) 0%nat
           (FieldDescriptor.mk (str "N") None 0%nat None) ∅
           (VStr (str " 12 ")) (str "12")).
  - split; vm_compute; reflexivity.
  - right. reflexivity.
  - vm_compute. reflexivity.
Defined.

(** X23.  On a descriptor of basic type ["A"] without the [retaincase]
    tag, an ASCII text without whitespace is returned lower-cased when it
    has at most 100 characters, and fails the assertion on the length when
    it has more. *)
Theorem cleanup_length_limit
    (lower : pystr -> pystr) (table : N -> pystr)
    (h : FieldDescriptor.heap) (self : FieldDescriptor.loc)
    (o : FieldDescriptor.object) (m : gmap pystr (list pystr)) (s : pystr) :
  (forall x, pystring.is_ascii x = true -> lower x = pystring.ascii_lower x) ->
  FieldDescriptor.describes h self o m ->
  FieldDescriptor.basic_type o = str "A" ->
  m !! str "retaincase" = None ->
  pystring.is_ascii s = true ->
  Forall (fun c => pystring.isspace c = false) s ->
  FieldDescriptor.cleanup_and_check_raw_value lower table h self (VStr s) =
  if (length s <=? 100)%nat then Ok (pystring.ascii_lower s)
  else Raise AssertionError.
Proof.
  intros Hlower Hd Hbt Hr Ha Hsp.
  rewrite (cleanup_str lower table h self o m s Hd Hr).
  rewrite (no_space_strip s Hsp). unfold pystring.sub_spaces.
  rewrite (no_space_sub_spaces false s Hsp), (unidecode_ascii table s Ha),
    (Hlower s Ha).
  unfold checks, pystring.ascii_lower. rewrite length_map, Hbt.
  destruct (length s <=? 100)%nat; simpl; [|reflexivity].
  rewrite andb_false_r. reflexivity.
Qed.

Lemma cleanup_length_limit_witness :
  FieldDescriptor.cleanup_and_check_raw_value pystring.ascii_lower
    unidecode_excerpt (one_descriptor (str "A") ∅) 0%nat
    (VStr (repeat 65%N 101))
  = (if (length (repeat 65%N 101) <=? 100)%nat
     then Ok (pystring.ascii_lower (repeat 65%N 101))
     else Raise AssertionError).
Proof.
  apply (cleanup_length_limit pystring.ascii_lower unidecode_excerpt
           (one_descriptor (str "A") ∅) 0%nat
           (FieldDescriptor.mk (str "A") None 0%nat None) ∅ (repeat 65%N 101)).
  - intros x _. reflexivity.
  - split; vm_compute; reflexivity.
  - reflexivity.
  - reflexivity.
  - vm_compute. reflexivity.
  - apply Forall_forall. intros c Hc.
    apply list_elem_of_In, repeat_spec in Hc. subst c. reflexivity.
Defined.

(** X24.  On a descriptor that carries the [retaincase] tag the letter
    case of an ASCII input is kept: what is returned is the input with its
    whitespace stripped and collapsed, and it is returned again when
    handed back. *)
Theorem retaincase_keeps_case
    (lower : pystr -> pystr) (table : N -> pystr)
    (h : FieldDescriptor.heap) (self : FieldDescriptor.loc)
    (o : FieldDescriptor.object) (m : gmap pystr (list pystr))
    (s r : pystr) :
  FieldDescriptor.describes h self o m ->
  is_Some (m !! str "retaincase") ->
  pystring.is_ascii s = true ->
  FieldDescriptor.cleanup_and_check_raw_value lower table h self (VStr s)
    = Ok r ->
  r = pystring.sub_spaces (pystring.strip s) /\
  FieldDescriptor.cleanup_and_check_raw_value lower table h self (VStr r)
    = Ok r.
Proof.
  intros Hd Hrc Ha E.
  assert (Hnorm : forall x, pystring.is_ascii x = true ->
    FieldDescriptor.cleanup_and_check_raw_value lower table h self (VStr x)
    = checks o (pystring.sub_spaces (pystring.strip x))).
  { intros x Hx. rewrite (cleanup_str_general lower table h self o m x Hd).
    rewrite (has_true _ _ Hrc). cbv zeta. simpl negb. cbv iota.
    rewrite unidecode_ascii; [reflexivity|].
    unfold pystring.sub_spaces, pystring.strip.
    apply is_ascii_sub_spaces, is_ascii_rstrip, is_ascii_lstrip, Hx. }
  rewrite (Hnorm s Ha) in E. pose proof (checks_inv _ _ _ E) as ->.
  split; [reflexivity|].
  rewrite Hnorm.
  - rewrite normal_idem. exact E.
  - unfold pystring.sub_spaces, pystring.strip.
    apply is_ascii_sub_spaces, is_ascii_rstrip, is_ascii_lstrip, Ha.
Qed.

Lemma retaincase_keeps_case_witness :
  str "Zone ONE" = pystring.sub_spaces (pystring.strip (str " Zone  ONE ")) /\
  FieldDescriptor.cleanup_and_check_raw_value pystring.ascii_lower
    unidecode_excerpt (one_descriptor (str "A") {[ str "retaincase" := [] ]})
    0%nat (VStr (str "Zone ONE"))
  = Ok (str "Zone ONE").
Proof.
  apply (retaincase_keeps_case pystring.ascii_lower unidecode_excerpt
           (one_descriptor (str "A") {[ str "retaincase" := [] ]}) 0%nat
           (FieldDescriptor.mk (str "A") None 0%nat None)
           {[ str "retaincase" := [] ]} (str " Zone  ONE ")).
  - split; vm_compute; reflexivity.
  - vm_compute. eauto.
  - reflexivity.
  - vm_compute. reflexivity.
Defined.

(** X25.  The absent value and a text of whitespace only are returned as
    the empty string on every descriptor, a numeric one included, which is
    not asked to be a number; and a value that is neither a string nor
    absent fails the assertion on the type. *)
Theorem cleanup_blank_and_non_string
    (lower : pystr -> pystr) (table : N -> pystr)
    (h : FieldDescriptor.heap) (self : FieldDescriptor.loc)
    (o : FieldDescriptor.object) (m : gmap pystr (list pystr)) (s : pystr) :
  (forall x, pystring.is_ascii x = true -> lower x = pystring.ascii_lower x) ->
  FieldDescriptor.describes h self o m ->
  pystring.strip s = [] ->
  FieldDescriptor.cleanup_and_check_raw_value lower table h self (VStr s)
    = Ok [] /\
  FieldDescriptor.cleanup_and_check_raw_value lower table h self VNone
    = Ok [] /\
  FieldDescriptor.basic_parse h self (VStr []) = Ok VNone /\
  (forall z, FieldDescriptor.cleanup_and_check_raw_value lower table h self
               (VInt z) = Raise AssertionError) /\
  (forall f, FieldDescriptor.cleanup_and_check_raw_value lower table h self
               (VFloat f) = Raise AssertionError) /\
  FieldDescriptor.cleanup_and_check_raw_value lower table h self VOther
    = Raise AssertionError.
Proof.
  intros Hlower Hd Hs.
  assert (Hempty : forall x, pystring.strip x = [] ->
    FieldDescriptor.cleanup_and_check_raw_value lower table h self (VStr x)
    = Ok []).
  { intros x Hx. rewrite (cleanup_str_general lower table h self o m x Hd).
    rewrite Hx. cbv zeta. simpl pystring.unidecode.
    assert (Hl : lower [] = []) by (rewrite Hlower; reflexivity).
    destruct (negb _); rewrite ?Hl; reflexivity. }
  split; [apply Hempty, Hs|].
  split; [apply (Hempty []); reflexivity|].
  split; [reflexivity|].
  repeat split; reflexivity.
Qed.

Lemma cleanup_blank_and_non_string_witness :
  FieldDescriptor.cleanup_and_check_raw_value pystring.ascii_lower
    unidecode_excerpt (one_descriptor (str "N") ∅) 0%nat (VStr (str "   "))
  = Ok [].
Proof.
  apply (cleanup_blank_and_non_string pystring.ascii_lower unidecode_excerpt
           (one_descriptor (str "N") ∅) 0%nat
           (FieldDescriptor.mk (str "N") None 0%nat None) ∅ (str "   ")).
  - intros x _. reflexivity.
  - split; vm_compute; reflexivity.
  - reflexivity.
Defined.

(* ===================================================================== *)
(** * Reprojection of [EPlusDt] onto a year *)
(* ===================================================================== *)

(** X26.  Only the last instant of 29 February is moved to the 28th: an
    instance storing any other instant of 29 February (hour 1..24, minute
    1..60), reprojected onto a year that is not a leap year, among those a
    C [int] holds, raises [RuntimeError]. *)
Theorem leap_day_raises_in_common_year (c : EPlusDt.t) (h mi y : Z) :
  EPlusDt._value c = (2, 29, h, mi) ->
  1 <= h <= 24 -> 1 <= mi <= 60 ->
  ~ (h = 24 /\ mi = 60) ->
  c_int y ->
  calendar.isleap y = false ->
  EPlusDt.datetime c y = Raise RuntimeError.
Proof.
  intros Hv Hh Hmi Hlast _ Hleap. unfold EPlusDt.datetime. rewrite Hv. simpl.
  rewrite bool_decide_eq_false_2, andb_false_r
    by (intros E; apply tuple4_inv in E; lia).
  unfold EPlusDt.to_datetime.
  assert (Hnew : forall hh mm, dt.new y 2 29 hh mm = Raise ValueError).
  { intros hh mm. unfold dt.new, dt.in_range, dt.days_in_month.
    rewrite Hleap. simpl. rewrite !andb_false_r. reflexivity. }
  destruct (mi =? 60); rewrite Hnew; reflexivity.
Qed.

Lemma leap_day_raises_in_common_year_witness :
  EPlusDt.datetime (EPlusDt.mk (dt.mk_datetime 2000 2 29 11 30) (2, 29, 12, 30))
                   2019
  = Raise RuntimeError.
Proof.
  apply (leap_day_raises_in_common_year _ 12 30 2019).
  - reflexivity.
  - lia.
  - lia.
  - lia.
  - unfold c_int. lia.
  - reflexivity.
Defined.

(** X27.  An instance built from valid components, reprojected onto a
    year in which its day exists, gives a timestamp that [from_datetime]
    reads back as the same components. *)
Theorem datetime_from_datetime_roundtrip (m d h mi y : Z) (c : EPlusDt.t) :
  components_ok (m, d, h, mi) ->
  1 < y < 9999 -> d <= dt.days_in_month y m ->
  EPlusDt.__init__ m d h mi = Ok c ->
  exists t c',
    EPlusDt.datetime c y = Ok t /\ dt.year t = y /\
    EPlusDt.from_datetime t = Ok c' /\
    EPlusDt._value c' = (m, d, h, mi).
Proof.
  intros (Hm & Hd & Hh & Hmi) Hy Hdy Hc.
  destruct (init_value m d h mi Hm Hd Hh Hmi) as (c0 & Ec & Vc).
  rewrite Hc in Ec. injection Ec as <-.
  pose proof (days_in_month_bounds y m) as Hb.
  assert (Hdt : EPlusDt.datetime c y = EPlusDt.to_datetime y m d h mi).
  { unfold EPlusDt.datetime. rewrite Vc. simpl.
    destruct (calendar.isleap y) eqn:Hleap; [reflexivity|]. simpl.
    rewrite bool_decide_eq_false_2; [reflexivity|].
    intros E. apply tuple4_inv in E as (-> & -> & _ & _).
    unfold dt.days_in_month in Hdy. simpl in Hdy. rewrite Hleap in Hdy. lia. }
  rewrite Hdt.
  assert (Hback : forall t p,
            dt.valid t -> dt.minute t = 0 -> dt.prev_hour t = Ok p ->
            dt.month p = m -> dt.day p = d -> dt.hour p + 1 = h -> mi = 60 ->
            exists c', EPlusDt.from_datetime t = Ok c' /\
                       EPlusDt._value c' = (m, d, h, mi)).
  { intros t p Hvt Hmt Hp <- <- <- ->.
    rewrite <- sub_hours_1 in Hp.
    apply (from_datetime_minute0 t p Hvt Hmt Hp). }
  destruct (Z.eq_dec mi 60) as [->|Hmi60].
  - destruct (Z.eq_dec h 24) as [->|Hh24].
    + rewrite to_datetime_24_60 by lia.
      destruct (Z.ltb_spec d (dt.days_in_month y m)).
      * destruct (Hback (dt.mk_datetime y m (d + 1) 0 0)
                        (dt.mk_datetime y m d 23 0)) as (c' & E' & V');
          try reflexivity; try lia.
        -- unfold dt.valid. simpl. apply new_ok; lia.
        -- unfold dt.prev_hour. simpl.
           destruct (Z.ltb_spec 1 (d + 1)); [|lia].
           repeat f_equal; lia.
        -- eauto 10.
      * assert (d = dt.days_in_month y m) by lia. subst d.
        destruct (Z.ltb_spec m 12).
        -- pose proof (days_in_month_bounds y (m + 1)).
           destruct (Hback (dt.mk_datetime y (m + 1) 1 0 0)
                       (dt.mk_datetime y m (dt.days_in_month y m) 23 0))
             as (c' & E' & V'); try reflexivity; try lia.
           ++ unfold dt.valid. simpl. apply new_ok; lia.
           ++ unfold dt.prev_hour. simpl.
              destruct (Z.ltb_spec 1 (m + 1)); [|lia].
              replace (m + 1 - 1) with m by lia. reflexivity.
           ++ eauto 10.
        -- assert (m = 12) by lia. subst m.
           assert (Hd31 : dt.days_in_month y 12 = 31) by reflexivity.
           rewrite Hd31 in *.
           destruct (Hback (dt.mk_datetime y 1 1 0 0)
                       (dt.mk_datetime (y - 1) 12 31 23 0))
             as (c' & E' & V'); try reflexivity; try lia.
           ++ unfold dt.valid. simpl.
              apply new_ok; unfold dt.days_in_month; simpl; lia.
           ++ unfold dt.prev_hour, dt.MINYEAR. simpl.
              destruct (Z.ltb_spec 1 y); [reflexivity | lia].
           ++ eauto 10.
    + rewrite to_datetime_60 by lia.
      destruct (Hback (dt.mk_datetime y m d h 0)
                  (dt.mk_datetime y m d (h - 1) 0)) as (c' & E' & V');
        try reflexivity; try (simpl; lia).
      * unfold dt.valid. simpl. apply new_ok; lia.
      * unfold dt.prev_hour. simpl.
        destruct (Z.ltb_spec 0 h); [reflexivity | lia].
      * eauto 10.
  - rewrite to_datetime_plain by lia.
    destruct (init_value m d (h - 1 + 1) mi) as (c' & E' & V'); try lia.
    exists (dt.mk_datetime y m d (h - 1) mi), c'.
    split; [reflexivity|]. split; [reflexivity|]. split.
    + unfold EPlusDt.from_datetime. simpl.
      destruct (Z.eqb_spec mi 0); [lia|]. simpl. exact E'.
    + rewrite V'. repeat f_equal; lia.
Qed.

Lemma datetime_from_datetime_roundtrip_witness :
  exists t c',
    EPlusDt.datetime (EPlusDt.mk (dt.mk_datetime 2000 1 1 0 0) (12, 31, 24, 60))
                     2019 = Ok t /\
    dt.year t = 2019 /\
    EPlusDt.from_datetime t = Ok c' /\
    EPlusDt._value c' = (12, 31, 24, 60).
Proof.
  apply (datetime_from_datetime_roundtrip 12 31 24 60 2019).
  - vm_compute. intuition discriminate.
  - lia.
  - vm_compute. discriminate.
  - reflexivity.
Defined.
